(** * Sally analysis engine: indicators, fallback pool, planner fallback,
      aggregator and confidence scorer.

    Shallow embedding of [backend/analysis.js] (TechnicalIndicators and
    AnalysisEngine), [fallback.js] (UniversalMultiDataProvider and
    UniversalDataFallback), [memory.js] (MemoryManager), [sally-brain.js]
    (SallyBrain) and [live-price.js] (LivePriceFetcher).

    Conventions.
    - A JS number is a [num]: an IEEE 754 binary64 double, which is what the
      primitive floats of the kernel are, with its NaN, its two infinities
      and its two zeros; sums, differences, products and quotients round to
      the nearest double as they do in JavaScript.  The confidence score
      alone is computed on rationals; the reason is given there.
    - A period, a length or an index is an integer ([Z]); [JSNum.of_Z] is
      its double where it enters the arithmetic, which is exact below 2^53,
      as the lengths of arrays and the periods read from names of at most
      18 characters are.
    - [null] is [Null] (or [None] where a function returns an object or
      null), [undefined] is [Undefined].
    - Strings are strings of ASCII characters ([JS.is_ascii]): on these,
      [toLowerCase], [toUpperCase] and [trim] are the functions of
      JavaScript.  They are not on other characters, which JavaScript may
      trim (a no-break space) or map to an ASCII letter (a Kelvin sign): a
      result that depends on the case or on the white space of a string
      written by the user or by the planner is stated for ASCII strings.
    - An external call (HTTP, database, LLM) is an oracle of the environment
      that sees the history of calls made so far; a rejected promise or a
      thrown exception is [Throw]. *)

From Stdlib Require Import ZArith QArith Qround List String Ascii Bool Lia Lqa.
From Stdlib Require Import Floats.
From Stdlib Require Import Permutation Sorted DecimalString.
Import ListNotations.

Local Open Scope string_scope.
Local Open Scope list_scope.
Local Open Scope Z_scope.

(* ------------------------------------------------------------------ *)
(** ** JavaScript strings and arrays *)

Module JS.

Definition is_upper (c : ascii) : bool :=
  let n := nat_of_ascii c in (Nat.leb 65 n && Nat.leb n 90)%bool.

Definition is_lower (c : ascii) : bool :=
  let n := nat_of_ascii c in (Nat.leb 97 n && Nat.leb n 122)%bool.

Definition lower_char (c : ascii) : ascii :=
  if is_upper c then ascii_of_nat (nat_of_ascii c + 32) else c.

Definition upper_char (c : ascii) : ascii :=
  if is_lower c then ascii_of_nat (nat_of_ascii c - 32) else c.

Fixpoint map_string (f : ascii -> ascii) (s : string) : string :=
  match s with
  | EmptyString => EmptyString
  | String c s' => String (f c) (map_string f s')
  end.

(** The characters on which the model of strings is exact. *)
Fixpoint is_ascii (s : string) : bool :=
  match s with
  | EmptyString => true
  | String c s' => (Nat.ltb (nat_of_ascii c) 128 && is_ascii s')%bool
  end.

Definition toLowerCase : string -> string := map_string lower_char.
Definition toUpperCase : string -> string := map_string upper_char.

(** White space removed by [String.prototype.trim], ASCII part:
    TAB, LF, VT, FF, CR and SPACE. *)
Definition is_space (c : ascii) : bool :=
  let n := nat_of_ascii c in
  ((Nat.leb 9 n && Nat.leb n 13) || Nat.eqb n 32)%bool.

Fixpoint trimStart (s : string) : string :=
  match s with
  | EmptyString => EmptyString
  | String c s' => if is_space c then trimStart s' else s
  end.

Fixpoint trimEnd (s : string) : string :=
  match s with
  | EmptyString => EmptyString
  | String c s' =>
      match trimEnd s' with
      | EmptyString => if is_space c then EmptyString else String c EmptyString
      | r => String c r
      end
  end.

Definition trim (s : string) : string := trimEnd (trimStart s).

Definition startsWith (s p : string) : bool := String.prefix p s.

(** [s.includes(p)]: [p] occurs in [s] at some position. *)
Fixpoint includes (s p : string) : bool :=
  if String.prefix p s then true
  else match s with
       | EmptyString => false
       | String _ s' => includes s' p
       end.

(** [s.replace(p, '')] for a non-empty [p]: the first occurrence of [p] is
    removed. *)
Fixpoint remove_first (s p : string) : string :=
  if String.prefix p s
  then String.substring (String.length p) (String.length s - String.length p) s
  else match s with
       | EmptyString => EmptyString
       | String c s' => String c (remove_first s' p)
       end.

Definition is_digit (c : ascii) : bool :=
  let n := nat_of_ascii c in (Nat.leb 48 n && Nat.leb n 57)%bool.

(** The leading decimal digits of [s], after [acc]; [None] when there is
    no digit. *)
Fixpoint leading_digits (s : string) (acc : option Z) : option Z :=
  match s with
  | EmptyString => acc
  | String c s' =>
      if is_digit c
      then leading_digits s'
             (Some (10 * match acc with Some a => a | None => 0 end
                    + Z.of_nat (nat_of_ascii c - 48)))
      else acc
  end.

(** [parseInt(s, 10)]: leading white space, a sign, digits; [None] is NaN. *)
Definition parseInt (s : string) : option Z :=
  match trimStart s with
  | String "-" s' => option_map Z.opp (leading_digits s' None)
  | String "+" s' => leading_digits s' None
  | s' => leading_digits s' None
  end.

(** An integer in a template literal. *)
Definition string_of_Z (z : Z) : string := NilZero.string_of_int (Z.to_int z).

(** The one-character string of a double quote. *)
Definition quote : string := String (ascii_of_nat 34) EmptyString.

(** A string is truthy when it is not empty. *)
Definition truthy_string (s : string) : bool :=
  match s with EmptyString => false | _ => true end.

(** Relative index of [Array.prototype.slice]: a negative index counts from
    the end, and both ends are clamped to the array. *)
Definition rel_index (len k : Z) : Z :=
  if k <? 0 then Z.max (len + k) 0 else Z.min k len.

Definition slice {A} (l : list A) (from to : Z) : list A :=
  let len := Z.of_nat (List.length l) in
  let s := rel_index len from in
  let e := rel_index len to in
  firstn (Z.to_nat (e - s)) (skipn (Z.to_nat s) l).

(** [l.slice(from)] *)
Definition slice_from {A} (l : list A) (from : Z) : list A :=
  slice l from (Z.of_nat (List.length l)).

(** [l[i]]: [None] is [undefined]. *)
Definition get {A} (l : list A) (i : Z) : option A :=
  if i <? 0 then None else nth_error l (Z.to_nat i).

(** The indices [lo, lo+1, ..., hi-1] of a [for (i = lo; i < hi; i++)]. *)
Definition range (lo hi : Z) : list Z :=
  map (fun k => lo + Z.of_nat k) (seq 0 (Z.to_nat (hi - lo))).

(** The indices of [l.map((_, i) => ...)]. *)
Definition indices {A} (l : list A) : list Z := range 0 (Z.of_nat (List.length l)).

(** [Object.entries] lookup in an object kept as an association list. *)
Fixpoint lookup {A} (k : string) (o : list (string * A)) : option A :=
  match o with
  | [] => None
  | (k', v) :: o' => if String.eqb k k' then Some v else lookup k o'
  end.

(** [o[k] = v]: an existing key keeps its place, a new key goes last. *)
Fixpoint assign {A} (k : string) (v : A) (o : list (string * A))
  : list (string * A) :=
  match o with
  | [] => [(k, v)]
  | (k', v') :: o' =>
      if String.eqb k k' then (k', v) :: o' else (k', v') :: assign k v o'
  end.

(** [l.sort((a, b) => key(a) - key(b))]: ascending in [key]; the sort of an
    array is stable. *)
Fixpoint insert_by {A} (key : A -> Z) (k : A) (l : list A) : list A :=
  match l with
  | [] => [k]
  | x :: l' => if key k <=? key x then k :: l else x :: insert_by key k l'
  end.

Definition sort_by {A} (key : A -> Z) (l : list A) : list A :=
  fold_right (insert_by key) [] l.

End JS.

(* ------------------------------------------------------------------ *)
(** ** JavaScript numbers *)

(** A JS number is a double. *)
Definition num : Set := float.

Inductive value : Type :=
| Null
| Undefined
| Number (n : num).

Module JSNum.

Definition add (a b : num) : num := PrimFloat.add a b.
Definition sub (a b : num) : num := PrimFloat.sub a b.
Definition mul (a b : num) : num := PrimFloat.mul a b.
Definition div (a b : num) : num := PrimFloat.div a b.

(** [a > b], [a < b]: false as soon as one side is NaN. *)
Definition gt (a b : num) : bool := PrimFloat.ltb b a.
Definition lt (a b : num) : bool := PrimFloat.ltb a b.

(** [a === b] on numbers: NaN is not equal to itself, and the two zeros are
    equal. *)
Definition strict_eq (a b : num) : bool := PrimFloat.eqb a b.

Definition isNaN (a : num) : bool := negb (PrimFloat.eqb a a).

(** The double nearest to an integer: the integer itself below 2^53. *)
Definition of_Z (z : Z) : num := SF2Prim (binary_normalize prec emax z 0 false).

(** ToNumber on the values an indicator returns. *)
Definition of_value (v : value) : num :=
  match v with
  | Null => 0%float
  | Undefined => nan
  | Number n => n
  end.

(** [a[i]] used as a number. *)
Definition read (l : list num) (i : Z) : num :=
  match JS.get l i with Some n => n | None => nan end.

(** A number is falsy when it is 0, -0 or NaN. *)
Definition truthy (a : num) : bool := negb (PrimFloat.eqb a 0 || isNaN a).

(** [x || 0] on an optional number: [undefined] is falsy too. *)
Definition or_zero (o : option num) : num :=
  match o with
  | Some a => if truthy a then a else 0%float
  | None => 0%float
  end.

End JSNum.

Declare Scope num_scope.
Delimit Scope num_scope with num.
Infix "+" := JSNum.add : num_scope.
Infix "-" := JSNum.sub : num_scope.
Infix "*" := JSNum.mul : num_scope.
Infix "/" := JSNum.div : num_scope.

(* ------------------------------------------------------------------ *)
(** ** TechnicalIndicators (analysis.js) *)

Module TechnicalIndicators.

Import JSNum.
Local Open Scope num_scope.

Definition len {A} (l : list A) : Z := Z.of_nat (List.length l).

(** The literal [0.1]: the double nearest to one tenth. *)
Definition tenth : num := 0x1.999999999999ap-4%float.

(** [l.reduce((a, b) => a + b, 0)] *)
Definition sum (l : list num) : num := fold_left add l 0%float.

Definition SMA (values : list num) (period : Z) : value :=
  if (len values <? period)%Z then Null
  else Number (sum (JS.slice_from values (- period)) / of_Z period).

Definition EMA (values : list num) (period : Z) : value :=
  if (len values <? period)%Z then Null
  else
    let k := 2%float / of_Z (period + 1) in
    match JS.get values 0 with
    | None => Undefined
    | Some v0 =>
        Number (fold_left (fun ema i => read values i * k + ema * (1%float - k))
                          (JS.range 1 (len values)) v0)
    end.

(** One turn of the RSI loop on the pair (gains, losses). *)
Definition rsi_step (closes : list num) (acc : num * num) (i : Z) : num * num :=
  let '(gains, losses) := acc in
  let change := read closes i - read closes (i - 1) in
  if gt change 0%float then (gains + change, losses)
  else (gains, losses - change).

Definition RSI (closes : list num) (period : Z) : value :=
  if (len closes <? period + 1)%Z then Null
  else
    let '(gains, losses) :=
      fold_left (rsi_step closes)
                (JS.range (len closes - period) (len closes))
                (0%float, 0%float) in
    let avgGain := gains / of_Z period in
    let avgLoss := losses / of_Z period in
    if strict_eq avgLoss 0%float then Number 100%float
    else
      let rs := avgGain / avgLoss in
      Number (100%float - 100%float / (1%float + rs)).

Record MACDResult : Type := {
  macdLine : num;
  signalLine : value;
  histogram : num;
  crossover : string
}.

Definition is_null (v : value) : bool :=
  match v with Null => true | _ => false end.

Definition MACD (closes : list num) (fastPeriod slowPeriod signalPeriod : Z)
  : option MACDResult :=
  if (len closes <? slowPeriod + signalPeriod)%Z then None
  else
    let emaFast := EMA closes fastPeriod in
    let emaSlow := EMA closes slowPeriod in
    if (is_null emaFast || is_null emaSlow)%bool then None
    else
      let macdLine := of_value emaFast - of_value emaSlow in
      let macdValues :=
        JS.slice_from
          (map (fun i =>
                  if (i <? slowPeriod - 1)%Z then 0%float
                  else
                    let fastEma := EMA (JS.slice closes 0 (i + 1)) fastPeriod in
                    let slowEma := EMA (JS.slice closes 0 (i + 1)) slowPeriod in
                    of_value fastEma - of_value slowEma)
               (JS.indices closes))
          (slowPeriod - 1) in
      let signalLine := EMA macdValues signalPeriod in
      Some {| macdLine := macdLine;
              signalLine := signalLine;
              histogram := macdLine - of_value signalLine;
              crossover := if gt macdLine (of_value signalLine)
                           then "bullish" else "bearish" |}.

Definition WMA (values : list num) (period : Z) : value :=
  if (len values <? period)%Z then Null
  else
    let weights := map (fun i => of_Z (i + 1)) (JS.range 0 period) in
    let weightSum := sum weights in
    let sliced := JS.slice_from values (- period) in
    Number (fold_left (fun sum vi => sum + fst vi * read weights (snd vi))
                      (combine sliced (JS.indices sliced)) 0%float
            / weightSum).

(** [Math.sqrt] of a negative period is NaN; then [rawHMA.slice(-NaN)] is
    the whole array and [WMA(_, NaN)] builds no weight, so that its weight
    sum is 0 and its result NaN. *)
Definition HMA (values : list num) (period : Z) : value :=
  if (len values <? period)%Z then Null
  else
    let halfPeriod := (period / 2)%Z in
    let rawHMA :=
      map (fun i =>
             2%float * of_value (WMA (JS.slice values 0 (i + 1)) halfPeriod)
             - of_value (WMA (JS.slice values 0 (i + 1)) period))
          (JS.indices values) in
    if (period <? 0)%Z then Number nan
    else
      let sqrtPeriod := Z.sqrt period in
      WMA (JS.slice_from rawHMA (- sqrtPeriod)) sqrtPeriod.

Record BollingerResult : Type := {
  upper : num;
  middle : value;
  lower : num;
  squeeze : bool
}.

Section Builtins.

(** [Math.sqrt], whose rounding the language leaves to the implementation,
    and [parseFloat], which reads the decimal notation of a double, are
    parameters. *)
Variable Math_sqrt : num -> num.
Variable parseFloat : string -> num.

(** [parseFloat(candle[i])]: of [undefined] it is NaN. *)
Definition candle_field (candle : list string) (i : nat) : num :=
  match nth_error candle i with
  | Some s => parseFloat s
  | None => nan
  end.

(** One turn of the VWAP loop on (cumVolume, cumPriceVolume, vwapArray). *)
Definition vwap_step (acc : num * num * list num) (candle : list string)
  : num * num * list num :=
  let '(cumVolume, cumPriceVolume, vwapArray) := acc in
  let high := candle_field candle 2 in
  let low := candle_field candle 3 in
  let close := candle_field candle 4 in
  let volume := candle_field candle 5 in
  let typicalPrice := (high + low + close) / 3%float in
  let cumVolume := cumVolume + volume in
  let cumPriceVolume := cumPriceVolume + typicalPrice * volume in
  (cumVolume, cumPriceVolume, vwapArray ++ [cumPriceVolume / cumVolume]).

Definition VWAP (ohlcv : list (list string)) : list num :=
  snd (fold_left vwap_step ohlcv (0%float, 0%float, [])).

Definition BollingerBands (closes : list num) (period : Z) (multiplier : num)
  : option BollingerResult :=
  if (len closes <? period)%Z then None
  else
    let sma := SMA closes period in
    let stddev :=
      Math_sqrt
        (fold_left (fun sum val =>
                      sum + (val - of_value sma) * (val - of_value sma))
                   (JS.slice_from closes (- period)) 0%float
         / of_Z period) in
    Some {| upper := of_value sma + multiplier * stddev;
            middle := sma;
            lower := of_value sma - multiplier * stddev;
            squeeze := lt stddev (of_value sma * tenth) |}.

End Builtins.

(** *** The words of the specification for RSI *)

(** The changes between consecutive closes. *)
Fixpoint deltas (l : list num) : list num :=
  match l with
  | a :: (b :: _) as l' => (b - a) :: deltas l'
  | _ => []
  end.

(** The trailing window of [period] changes: those of the last [period + 1]
    closes. *)
Definition window (closes : list num) (period : nat) : list num :=
  deltas (skipn (List.length closes - (period + 1)) closes).

(** A change is a gain when it is above 0 and a loss when it is below 0. *)
Definition is_gain (d : num) : bool := gt d 0%float.
Definition is_loss (d : num) : bool := lt d 0%float.

(** The sum of the gains and the sum of the sizes of the losses, each added
    up in the order of the window. *)
Definition total_gain (ds : list num) : num :=
  fold_left add (filter is_gain ds) 0%float.

Definition total_loss (ds : list num) : num :=
  fold_left sub (filter is_loss ds) 0%float.

(** The simple averages of the gains and of the losses of the window. *)
Definition averageGain (closes : list num) (period : nat) : num :=
  total_gain (window closes period) / of_Z (Z.of_nat period).

Definition averageLoss (closes : list num) (period : nat) : num :=
  total_loss (window closes period) / of_Z (Z.of_nat period).

(** A call of one of the seven indicator functions with its parameters. *)
Inductive call : Type :=
| CallSMA (period : Z)
| CallEMA (period : Z)
| CallRSI (period : Z)
| CallMACD (fastPeriod slowPeriod signalPeriod : Z)
| CallBollingerBands (Math_sqrt : num -> num) (period : Z) (multiplier : num)
| CallHMA (period : Z)
| CallWMA (period : Z).

(** The number of values the call needs. *)
Definition required_length (c : call) : Z :=
  match c with
  | CallSMA period | CallEMA period | CallHMA period | CallWMA period => period
  | CallRSI period => period + 1
  | CallMACD _ slowPeriod signalPeriod => slowPeriod + signalPeriod
  | CallBollingerBands _ period _ => period
  end.

(** The call returns [null]. *)
Definition returns_null (c : call) (values : list num) : Prop :=
  match c with
  | CallSMA period => SMA values period = Null
  | CallEMA period => EMA values period = Null
  | CallRSI period => RSI values period = Null
  | CallMACD f s g => MACD values f s g = None
  | CallBollingerBands sqrt period m => BollingerBands sqrt values period m = None
  | CallHMA period => HMA values period = Null
  | CallWMA period => WMA values period = Null
  end.

(** A value of the object [calculateRequestedIndicators] returns. *)
Inductive IndicatorValue : Type :=
| IValue (v : value)
| IMacd (m : option MACDResult)
| IVwap (l : list num)
| IBollinger (b : option BollingerResult).

Definition IndicatorResults : Type := list (string * IndicatorValue).

End TechnicalIndicators.

(* ------------------------------------------------------------------ *)
(** ** Data model *)

(** The parameters of a Bybit request: [symbol], and the other fields
    ([interval], [limit], ...) as they were given. *)
Record Params : Type := {
  symbol : string;
  extra : list (string * string)
}.

(** The plan is what [JSON.parse] made of the answer of the LLM, and nothing
    checks it: the parameters of a market request may be [null], which is
    [None] here. *)
Record RequiredData : Type := {
  bybit : option (list (string * option Params));
  livePrice : bool;                          (* truthiness of [requiredData.livePrice] *)
  webSearch : option (list string);          (* [Some] when it is an array *)
  technicalIndicators : option (list string) (* [Some] when it is truthy *)
}.

Record Plan : Type := {
  isCasual : bool;
  response : string;
  requiredData : option RequiredData
}.

Record SourceResult : Type := {
  type : string;
  resource : string;
  status : string;
  error : option string
}.

(** What [fetchBybitData] returns: [result.result.list || result.result]. *)
Inductive Payload : Type :=
| PList (rows : list (list string))
| PObject (body : string).

Record BybitResult : Type := {
  list_ : option (list (list string));
  body_ : string
}.

Record BybitResponse : Type := {
  retCode : Z;
  retMsg : string;
  result : option BybitResult     (* [None]: the envelope has no [result] *)
}.

(** What a backup provider answers (fallback.js). *)
Record ProviderData : Type := {
  provider : string;
  price : num;
  volume24h : option num;
  change24h : option num
}.

Record Ticker : Type := {
  lastPrice : num;
  price24hPcnt : num;
  ticker_volume24h : num;
  timestamp : Z;
  isValid : bool;
  dataQuality : string
}.

Record StandardFormat : Type := {
  std_symbol : string;
  ticker : Ticker;
  backupProvider : string         (* [dataSource.backupProvider] *)
}.

Record LivePrice : Type := {
  lp_symbol : string;
  lp_price : num;
  lp_source : string;
  lp_timestamp : string;
  isLive : bool
}.

(** A document of the [chatMessages] collection. *)
Record ChatMessage : Type := {
  msg_chatId : string;
  msg_type : string;
  content : string;
  msg_timestamp : Z
}.

Record Turn : Type := {
  role : string;
  turn_content : string;
  turn_timestamp : Z
}.

Record LongTerm : Type := {
  summary : string;
  facts : list string;
  tags : list string
}.

Record EnhancedQuery : Type := {
  userQuery : string;
  recentContext : list Turn;
  longTermSummary : string;
  longTermFacts : list string;
  experienceLevel : string
}.

(* ------------------------------------------------------------------ *)
(** ** Effects: external calls, their history, exceptions *)

Inductive outcome (A : Type) : Type :=
| Ok (a : A)
| Throw (message : string).
Arguments Ok {A} a.
Arguments Throw {A} message.

(** The calls that leave the process, and the entries of the engine into its
    two lookups. *)
Inductive Event : Type :=
| EvBybit (method : string) (params : option Params)
| EvGetBackupData (sym : string)
| EvProvider (name mapped : string)
| EvFetchLivePrice (query : string)
| EvPriceApi (api sym : string)
| EvWebSearch (query : string)
| EvPlanningOracle (query : string)
| EvFinalAnalysis (query : string)
| EvSummarize
| EvExtractFacts
| EvFindMessages (chatId : string)
| EvGetChatMemory (chatId : string)
| EvGetUserProfile (userId : string)
| EvUpsertChatMemory (chatId : string).

Definition History : Type := list Event.

(** A computation reads the history of the calls made before it and gives
    its result together with the calls it made itself. *)
Definition M (A : Type) : Type := History -> outcome A * list Event.

Definition ret {A} (a : A) : M A := fun _ => (Ok a, []).

Definition throw {A} (message : string) : M A := fun _ => (Throw message, []).

Definition bind {A B} (m : M A) (k : A -> M B) : M B :=
  fun h =>
    match m h with
    | (Ok a, e1) => let (r, e2) := k a (h ++ e1) in (r, e1 ++ e2)
    | (Throw message, e1) => (Throw message, e1)
    end.

(** [try { m } catch (error) { handler(error.message) }] *)
Definition try_catch {A} (m : M A) (handler : string -> M A) : M A :=
  fun h =>
    match m h with
    | (Ok a, e1) => (Ok a, e1)
    | (Throw message, e1) =>
        let (r, e2) := handler message (h ++ e1) in (r, e1 ++ e2)
    end.

(** An external call: the oracle answers from the history before the call. *)
Definition call {A} (ev : Event) (oracle : History -> outcome A) : M A :=
  fun h => (oracle h, [ev]).

Definition emit (ev : Event) : M unit := fun _ => (Ok tt, [ev]).

Declare Scope monad_scope.
Delimit Scope monad_scope with monad.
Notation "x <- m ;; k" := (bind m (fun x => k))
  (at level 61, m at next level, right associativity) : monad_scope.
Notation "m ;;; k" := (bind m (fun _ => k))
  (at level 61, right associativity) : monad_scope.

(** [for (const x of l) { acc = body(acc, x) }] *)
Fixpoint for_of {A S} (l : list A) (body : S -> A -> M S) (s : S) : M S :=
  match l with
  | [] => ret s
  | x :: l' => bind (body s x) (for_of l' body)
  end.

(** The world outside the process. *)
Record Env : Type := {
  (** [bybitClient.getKline], [getTickers], ... on
      [{ category: 'linear', ...params }]: the spread of [null] adds no
      field. *)
  bybitClient : string -> option Params -> History -> outcome BybitResponse;
  (** [axios.get] of a backup provider's ticker, with the fields parsed. *)
  axios_ticker : string -> string -> History -> outcome ProviderData;
  (** [axios.get] of a live-price API followed by its [parsePrice]:
      [None] is [null]. *)
  axios_price : string -> string -> History -> outcome (option num);
  (** [webSearcher.fetchTavilyContext]: its body is one [try] whose [catch]
      returns [null]. *)
  fetchTavilyContext : string -> History -> option string;
  (** [queryLocalLLM(planningPrompt, false)] *)
  llm_plan : EnhancedQuery -> History -> outcome Plan;
  (** [queryLocalLLM(prompt, true)] *)
  llm_text : Event -> History -> outcome string;
  (** [JSON.parse] of the facts the LLM wrote. *)
  parse_facts : string -> outcome (list string);
  (** The documents of [chatMessages], in their natural order. *)
  db_chatMessages : History -> outcome (list ChatMessage);
  db_chatMemory : string -> History -> outcome (option LongTerm);
  db_userProfile : string -> History -> outcome string;
  db_upsertChatMemory : string -> LongTerm -> History -> outcome unit;
  (** The built-ins [parseFloat] and [Math.sqrt]. *)
  parseFloat : string -> num;
  Math_sqrt : num -> num;
  (** The reachability probe of a backup provider. *)
  axios_ping : string -> History -> outcome unit;
  Date_now : History -> Z;
  Date_toISOString : History -> string
}.

(** [Date.now()] *)
Definition now (E : Env) : M Z := fun h => (Ok (Date_now E h), []).

(* ------------------------------------------------------------------ *)
(** ** The fallback pool (fallback.js) *)

Module Fallback.

Record ProviderState : Type := {
  active : bool;
  priority : Z
}.

Record UniversalMultiDataProvider : Type := {
  providers : list (string * ProviderState);
  universalSymbolMap : list (string * list (string * string))
}.

Record UniversalDataFallback : Type := {
  multiProvider : UniversalMultiDataProvider;
  initialized : bool
}.

Definition new_UniversalMultiDataProvider : UniversalMultiDataProvider :=
  {| providers :=
       [("binance", {| active := false; priority := 1 |});
        ("coinbase", {| active := false; priority := 2 |});
        ("coingecko", {| active := false; priority := 3 |})];
     universalSymbolMap :=
       [("BTCUSDT", [("binance", "BTCUSDT"); ("coinbase", "BTC-USD"); ("coingecko", "bitcoin")]);
        ("ETHUSDT", [("binance", "ETHUSDT"); ("coinbase", "ETH-USD"); ("coingecko", "ethereum")]);
        ("SOLUSDT", [("binance", "SOLUSDT"); ("coinbase", "SOL-USD"); ("coingecko", "solana")])]
  |}.

Definition new_UniversalDataFallback : UniversalDataFallback :=
  {| multiProvider := new_UniversalMultiDataProvider; initialized := false |}.

(** [this.providers[name].active], [this.providers[name].priority] *)
Definition is_active (mp : UniversalMultiDataProvider) (name : string) : bool :=
  match JS.lookup name (providers mp) with
  | Some p => active p
  | None => false
  end.

Definition priority_of (mp : UniversalMultiDataProvider) (name : string) : Z :=
  match JS.lookup name (providers mp) with
  | Some p => priority p
  | None => 0
  end.

(** [this.providers[name].active = true] *)
Definition set_active (mp : UniversalMultiDataProvider) (name : string)
  : UniversalMultiDataProvider :=
  {| providers :=
       map (fun kv => if String.eqb (fst kv) name
                      then (fst kv, {| active := true; priority := priority (snd kv) |})
                      else kv)
           (providers mp);
     universalSymbolMap := universalSymbolMap mp |}.

(** [mapping[provider]] is truthy. *)
Definition mapped (mapping : list (string * string)) (name : string) : bool :=
  match JS.lookup name mapping with
  | Some s => JS.truthy_string s
  | None => false
  end.

(** [mapping.binance], [mapping.coinbase], [mapping.coingecko] *)
Definition mapped_symbol (mapping : list (string * string)) (name : string) : string :=
  match JS.lookup name mapping with
  | Some s => s
  | None => EmptyString
  end.

Section WithEnv.

Variable E : Env.
Local Open Scope monad_scope.

Definition initializeProvider (name : string) (mp : UniversalMultiDataProvider)
  : M UniversalMultiDataProvider :=
  try_catch
    (call (EvProvider name "ping") (axios_ping E name) ;;;
     ret (set_active mp name))
    (fun _ => ret mp).

(** The three probes, in the order [initialize] starts them. *)
Definition initialize_multi (mp : UniversalMultiDataProvider)
  : M (UniversalMultiDataProvider * bool) :=
  mp <- initializeProvider "binance" mp ;;
  mp <- initializeProvider "coinbase" mp ;;
  mp <- initializeProvider "coingecko" mp ;;
  let activeProviders := filter (is_active mp) (map fst (providers mp)) in
  ret (mp, 0 <? Z.of_nat (List.length activeProviders)).

Definition initialize (fb : UniversalDataFallback) : M (UniversalDataFallback * bool) :=
  if initialized fb then ret (fb, true)
  else
    r <- initialize_multi (multiProvider fb) ;;
    ret ({| multiProvider := fst r; initialized := snd r |}, snd r).

Definition fetchBinanceOnDemand (binanceSymbol universalSymbol : string)
  : M (option ProviderData) :=
  try_catch
    (data <- call (EvProvider "binance" binanceSymbol)
                  (axios_ticker E "binance" binanceSymbol) ;;
     ret (Some {| provider := "binance"; price := price data;
                  volume24h := volume24h data; change24h := change24h data |}))
    (fun _ => ret None).

Definition fetchCoinbaseOnDemand (coinbaseSymbol universalSymbol : string)
  : M (option ProviderData) :=
  try_catch
    (data <- call (EvProvider "coinbase" coinbaseSymbol)
                  (axios_ticker E "coinbase" coinbaseSymbol) ;;
     ret (Some {| provider := "coinbase"; price := price data;
                  volume24h := volume24h data; change24h := None |}))
    (fun _ => ret None).

Definition fetchCoinGeckoOnDemand (coinGeckoId universalSymbol : string)
  : M (option ProviderData) :=
  try_catch
    (data <- call (EvProvider "coingecko" coinGeckoId)
                  (axios_ticker E "coingecko" coinGeckoId) ;;
     ret (Some {| provider := "coingecko"; price := price data;
                  volume24h := volume24h data; change24h := change24h data |}))
    (fun _ => ret None).

(** The three [if (provider === ...) data = await ...] of the loop body:
    [data] stays [null] for any other name. *)
Definition fetchOnDemand (name mappedSymbol universalSymbol : string)
  : M (option ProviderData) :=
  if String.eqb name "binance" then fetchBinanceOnDemand mappedSymbol universalSymbol
  else if String.eqb name "coinbase" then fetchCoinbaseOnDemand mappedSymbol universalSymbol
  else if String.eqb name "coingecko" then fetchCoinGeckoOnDemand mappedSymbol universalSymbol
  else ret None.

(** The loop of [getUniversalData] over the sorted provider names. *)
Fixpoint try_providers (mp : UniversalMultiDataProvider)
  (mapping : list (string * string)) (universalSymbol : string)
  (names : list string) : M (option ProviderData) :=
  match names with
  | [] => ret None
  | name :: names' =>
      if (is_active mp name && mapped mapping name)%bool then
        data <- fetchOnDemand name (mapped_symbol mapping name) universalSymbol ;;
        match data with
        | Some d => ret (Some d)
        | None => try_providers mp mapping universalSymbol names'
        end
      else try_providers mp mapping universalSymbol names'
  end.

Definition getUniversalData (mp : UniversalMultiDataProvider) (sym : string)
  : M (option ProviderData) :=
  match JS.lookup sym (universalSymbolMap mp) with
  | None => ret None
  | Some mapping =>
      try_providers mp mapping sym
        (JS.sort_by (priority_of mp) (map fst (providers mp)))
  end.

(** *** The words of the specification for the lookup *)

(** The providers a lookup may ask: the active ones the symbol has a mapping
    for, by ascending priority. *)
Definition candidates (mp : UniversalMultiDataProvider)
  (mapping : list (string * string)) : list string :=
  filter (fun name => (is_active mp name && mapped mapping name)%bool)
         (JS.sort_by (priority_of mp) (map fst (providers mp))).

(** [first_non_null mapping sym h names r evs]: asked in the order of [names]
    from the history [h], the providers answer [null] up to the first one
    that answers [r], which is returned as it is and ends the lookup; [r] is
    [None] when all of them answer [null].  [evs] are the calls made. *)
Inductive first_non_null (mapping : list (string * string)) (sym : string)
  : History -> list string -> option ProviderData -> list Event -> Prop :=
| fnn_exhausted (h : History) :
    first_non_null mapping sym h [] None []
| fnn_hit (h : History) (name : string) (rest : list string)
    (d : ProviderData) (evs : list Event) :
    fetchOnDemand name (mapped_symbol mapping name) sym h = (Ok (Some d), evs) ->
    first_non_null mapping sym h (name :: rest) (Some d) evs
| fnn_miss (h : History) (name : string) (rest : list string)
    (r : option ProviderData) (evs evs' : list Event) :
    fetchOnDemand name (mapped_symbol mapping name) sym h = (Ok None, evs) ->
    first_non_null mapping sym (h ++ evs) rest r evs' ->
    first_non_null mapping sym h (name :: rest) r (evs ++ evs').

Definition convertToStandardFormat (sym : string) (backupData : ProviderData)
  (date_now : Z) : StandardFormat :=
  {| std_symbol := sym;
     ticker := {| lastPrice := price backupData;
                  price24hPcnt := JSNum.or_zero (change24h backupData);
                  ticker_volume24h := JSNum.or_zero (volume24h backupData);
                  timestamp := date_now;
                  isValid := true;
                  dataQuality := "BACKUP_PROVIDER" |};
     backupProvider := provider backupData |}.

Definition getBackupData (fb : UniversalDataFallback) (sym : string)
  : M (option StandardFormat) :=
  emit (EvGetBackupData sym) ;;;
  if negb (initialized fb) then ret None
  else
    data <- getUniversalData (multiProvider fb) sym ;;
    match data with
    | Some d =>
        date_now <- now E ;;
        ret (Some (convertToStandardFormat sym d date_now))
    | None => ret None
    end.

End WithEnv.

End Fallback.

(* ------------------------------------------------------------------ *)
(** ** MemoryManager (memory.js) *)

Module MemoryManager.

Section WithEnv.

Variable E : Env.
Local Open Scope monad_scope.

(** [cursor.limit(n)]: a limit of 0 is no limit. *)
Definition cursor_limit {A} (n : nat) (l : list A) : list A :=
  match n with
  | O => l
  | _ => firstn n l
  end.

(** [find(filter).sort({ timestamp: -1 }).limit(n).toArray()] *)
Definition find_latest (keep : ChatMessage -> bool) (n : nat) : Event -> M (list ChatMessage) :=
  fun ev =>
    docs <- call ev (db_chatMessages E) ;;
    ret (cursor_limit n (JS.sort_by (fun m => - msg_timestamp m) (filter keep docs))).

Definition getRecentMessages (chatId : string) (limit : nat) : M (list Turn) :=
  msgs <- find_latest (fun m => String.eqb (msg_chatId m) chatId) limit
                      (EvFindMessages chatId) ;;
  ret (map (fun m => {| role := if String.eqb (msg_type m) "ai"
                                then "assistant" else "user";
                        turn_content := content m;
                        turn_timestamp := msg_timestamp m |})
           (rev msgs)).

(** [msgs[1]?.content || null] *)
Definition getLastUserMessage (chatId : string) : M (option string) :=
  msgs <- find_latest (fun m => (String.eqb (msg_chatId m) chatId
                                 && String.eqb (msg_type m) "user")%bool) 2
                      (EvFindMessages chatId) ;;
  ret (match nth_error msgs 1 with
       | Some m => if JS.truthy_string (content m) then Some (content m) else None
       | None => None
       end).

Definition getChatMemory (chatId : string) : M LongTerm :=
  memory <- call (EvGetChatMemory chatId) (db_chatMemory E chatId) ;;
  ret (match memory with
       | Some m => m
       | None => {| summary := EmptyString; facts := []; tags := [] |}
       end).

(** Only [experienceLevel] of the profile is read by the engine. *)
Definition getUserProfile (uid : string) : M string :=
  call (EvGetUserProfile uid) (db_userProfile E uid).

Definition upsertChatMemory (chatId : string) (update : LongTerm) : M unit :=
  call (EvUpsertChatMemory chatId) (db_upsertChatMemory E chatId update).

End WithEnv.

Definition deriveTags (userQuery : string) : list string :=
  let query := JS.toLowerCase userQuery in
  let symbols := ["btc"; "bitcoin"; "eth"; "ethereum"; "sol"; "solana"; "ada"; "cardano"] in
  map JS.toUpperCase (filter (JS.includes query) symbols)
  ++ (if JS.includes query "price" then ["price"] else [])
  ++ (if (JS.includes query "technical" || JS.includes query "analysis")%bool
      then ["technical-analysis"] else [])
  ++ (if JS.includes query "news" then ["news"] else [])
  ++ (if JS.includes query "prediction" then ["prediction"] else []).

End MemoryManager.

(* ------------------------------------------------------------------ *)
(** ** LivePriceFetcher (live-price.js) *)

Module LivePriceFetcher.

Definition priceAPIs : list string := ["coinbase"; "coingecko"; "binance"].

Definition symbolMap_keys : list string :=
  ["BTC"; "BITCOIN"; "ETH"; "ETHEREUM"; "SOL"; "SOLANA"].

Definition extractSymbolFromQuery (query : string) : option string :=
  let upperQuery := JS.toUpperCase query in
  match find (JS.includes upperQuery) symbolMap_keys with
  | Some key => Some key
  | None =>
      if (JS.includes upperQuery "BTC" || JS.includes upperQuery "BITCOIN")%bool
      then Some "BTC"
      else if (JS.includes upperQuery "ETH" || JS.includes upperQuery "ETHEREUM")%bool
      then Some "ETH"
      else if (JS.includes upperQuery "SOL" || JS.includes upperQuery "SOLANA")%bool
      then Some "SOL"
      else None
  end.

Section WithEnv.

Variable E : Env.
Local Open Scope monad_scope.

(** [price && price > 0] *)
Definition usable_price (p : option num) : option num :=
  match p with
  | Some n => if JSNum.gt n 0%float then Some n else None
  | None => None
  end.

(** The loop over [priceAPIs]: a [Some] is the [return] of the loop body. *)
Fixpoint try_apis (sym : string) (apis : list string) : M (option LivePrice) :=
  match apis with
  | [] => ret None
  | api :: apis' =>
      r <- try_catch
             (parsed <- call (EvPriceApi api sym) (axios_price E api sym) ;;
              match usable_price parsed with
              | Some p =>
                  fun h =>
                    (Ok (Some {| lp_symbol := sym; lp_price := p; lp_source := api;
                                 lp_timestamp := Date_toISOString E h;
                                 isLive := true |}), [])
              | None => ret None
              end)
             (fun _ => ret None) ;;
      match r with
      | Some lp => ret (Some lp)
      | None => try_apis sym apis'
      end
  end.

Definition fetchLivePrice (query : string) : M (option LivePrice) :=
  emit (EvFetchLivePrice query) ;;;
  match extractSymbolFromQuery query with
  | None => ret None
  | Some sym => try_apis sym priceAPIs
  end.

End WithEnv.

End LivePriceFetcher.

(* ------------------------------------------------------------------ *)
(** ** SallyBrain (sally-brain.js) *)

Module SallyBrain.

Definition symbolMap : list (string * string) :=
  [("btc", "BTCUSDT"); ("bitcoin", "BTCUSDT");
   ("eth", "ETHUSDT"); ("ethereum", "ETHUSDT");
   ("sol", "SOLUSDT"); ("solana", "SOLUSDT")].

Definition createFallbackPlan (userQuery : string) : Plan :=
  let lowerQuery := JS.toLowerCase userQuery in
  let detectedSymbol :=
    match find (fun kv => JS.includes lowerQuery (fst kv)) symbolMap with
    | Some kv => snd kv
    | None => "BTCUSDT"
    end in
  let tickers := ("tickers", Some {| symbol := detectedSymbol; extra := [] |}) in
  let requiredData :=
    if (JS.includes lowerQuery "price" || JS.includes lowerQuery "cost")%bool then
      {| bybit := Some [tickers];
         livePrice := true;
         webSearch := Some [(detectedSymbol ++ " current price")%string];
         technicalIndicators := Some [] |}
    else if (JS.includes lowerQuery "analysis" || JS.includes lowerQuery "technical")%bool then
      {| bybit := Some [("kline",
                         Some {| symbol := detectedSymbol;
                                 extra := [("interval", "D"); ("limit", "50")] |});
                        tickers];
         livePrice := false;
         webSearch := Some [(detectedSymbol ++ " technical analysis")%string];
         technicalIndicators := Some ["SMA20"; "RSI14"; "MACD"] |}
    else
      {| bybit := Some [tickers];
         livePrice := false;
         webSearch := Some [(userQuery ++ " cryptocurrency")%string];
         technicalIndicators := Some [] |} in
  {| isCasual := false; response := EmptyString; requiredData := Some requiredData |}.

Definition casualKeywords : list string :=
  ["hi"; "hello"; "thanks"; "thank you"; "hey"; "good morning"; "good evening"].

Definition casual_greeting : string :=
  "Hello! I'm Sally, your dynamic crypto analysis AI. I can handle ANY crypto question by intelligently deciding what data sources and analysis methods to use. What would you like to know?".

(** The local [isCasualOnly] of [createDynamicDataPlan]. *)
Definition isCasualOnly (userQuery : string) : bool :=
  let lowerQuery := JS.toLowerCase userQuery in
  existsb (fun word => (String.eqb (JS.trim lowerQuery) word
                        || String.eqb (JS.trim lowerQuery) (word ++ "!")%string)%bool)
          casualKeywords.

Section WithEnv.

Variable E : Env.
Local Open Scope monad_scope.

Definition createDynamicDataPlan (queryObj : EnhancedQuery) : M Plan :=
  if (isCasualOnly (userQuery queryObj)
      && (0 =? Z.of_nat (List.length (recentContext queryObj))))%bool then
    ret {| isCasual := true; response := casual_greeting; requiredData := None |}
  else
    try_catch
      (call (EvPlanningOracle (userQuery queryObj)) (llm_plan E queryObj))
      (fun _ => ret (createFallbackPlan (userQuery queryObj))).

Definition generateFinalAnalysis (queryObj : EnhancedQuery) : M string :=
  call (EvFinalAnalysis (userQuery queryObj))
       (llm_text E (EvFinalAnalysis (userQuery queryObj))).

Definition summarizeConversationForMemory (recentMessages : list Turn) : M string :=
  match recentMessages with
  | [] => ret EmptyString
  | _ =>
      try_catch
        (text <- call EvSummarize (llm_text E EvSummarize) ;; ret (JS.trim text))
        (fun _ => ret EmptyString)
  end.

Definition extractFacts (recentMessages : list Turn) : M (list string) :=
  match recentMessages with
  | [] => ret []
  | _ =>
      try_catch
        (raw <- call EvExtractFacts (llm_text E EvExtractFacts) ;;
         fun _ => (parse_facts E raw, []))
        (fun _ => ret [])
  end.

Definition searchAndSummarizeWeb (searchQuery : string) : M string :=
  context <- (fun h => (Ok (fetchTavilyContext E searchQuery h), [EvWebSearch searchQuery])) ;;
  ret (match context with
       | Some c => if JS.truthy_string (JS.trim c) then JS.trim c
                   else "No web results found."
       | None => "No web results found."
       end).

End WithEnv.

End SallyBrain.

(* ------------------------------------------------------------------ *)
(** ** AnalysisEngine (analysis.js) *)

Module AnalysisEngine.

(** [aggregatedData]: [sources], the results stored under their [dataType]
    ([aggregatedData[dataType] = result]; a [dataType] whose fetch can
    succeed is ["tickers"], ["fundingRateHistory"], ["longShortRatio"] or
    starts with ["kline"], so that it never names one of the other fields),
    and the fields the later steps set. *)
Record AggregatedData : Type := {
  sources : list SourceResult;
  data : list (string * Payload);
  fallbackTickers : option StandardFormat;
  agg_livePrice : option LivePrice;
  webContent : option (list (string * string));
  enhancedIndicators : option TechnicalIndicators.IndicatorResults;
  confidenceScore : option Z
}.

Definition empty_aggregatedData : AggregatedData :=
  {| sources := []; data := []; fallbackTickers := None; agg_livePrice := None;
     webContent := None; enhancedIndicators := None; confidenceScore := None |}.

(** [aggregatedData.sources.push(s)] *)
Definition push_source (a : AggregatedData) (s : SourceResult) : AggregatedData :=
  {| sources := sources a ++ [s]; data := data a;
     fallbackTickers := fallbackTickers a; agg_livePrice := agg_livePrice a;
     webContent := webContent a; enhancedIndicators := enhancedIndicators a;
     confidenceScore := confidenceScore a |}.

Definition set_data (a : AggregatedData) (dataType : string) (p : Payload)
  : AggregatedData :=
  {| sources := sources a; data := JS.assign dataType p (data a);
     fallbackTickers := fallbackTickers a; agg_livePrice := agg_livePrice a;
     webContent := webContent a; enhancedIndicators := enhancedIndicators a;
     confidenceScore := confidenceScore a |}.

Definition set_fallbackTickers (a : AggregatedData) (d : StandardFormat)
  : AggregatedData :=
  {| sources := sources a; data := data a;
     fallbackTickers := Some d; agg_livePrice := agg_livePrice a;
     webContent := webContent a; enhancedIndicators := enhancedIndicators a;
     confidenceScore := confidenceScore a |}.

Definition set_livePrice (a : AggregatedData) (p : LivePrice) : AggregatedData :=
  {| sources := sources a; data := data a;
     fallbackTickers := fallbackTickers a; agg_livePrice := Some p;
     webContent := webContent a; enhancedIndicators := enhancedIndicators a;
     confidenceScore := confidenceScore a |}.

Definition set_webContent (a : AggregatedData) (w : list (string * string))
  : AggregatedData :=
  {| sources := sources a; data := data a;
     fallbackTickers := fallbackTickers a; agg_livePrice := agg_livePrice a;
     webContent := Some w; enhancedIndicators := enhancedIndicators a;
     confidenceScore := confidenceScore a |}.

Definition set_enhancedIndicators (a : AggregatedData)
  (r : TechnicalIndicators.IndicatorResults)
  : AggregatedData :=
  {| sources := sources a; data := data a;
     fallbackTickers := fallbackTickers a; agg_livePrice := agg_livePrice a;
     webContent := webContent a; enhancedIndicators := Some r;
     confidenceScore := confidenceScore a |}.

Definition set_confidenceScore (a : AggregatedData) (c : Z) : AggregatedData :=
  {| sources := sources a; data := data a;
     fallbackTickers := fallbackTickers a; agg_livePrice := agg_livePrice a;
     webContent := webContent a; enhancedIndicators := enhancedIndicators a;
     confidenceScore := Some c |}.

(** [Math.round]: to the nearest integer, a half goes up. *)
Definition Math_round (x : Q) : Z := Qfloor (x + (1 # 2)).

(** The divisor is positive where the quotient is taken, so that the numbers
    of this function are rationals.  The doubles of the source round to the
    same integer: the product of the ratio by 30 is off by less than 2^-47,
    which the addition of 50 absorbs when the exact sum is a half-integer,
    and which is too small to cross a half-integer otherwise (the exact sum
    is at least 1 / (2 * totalSources) away from it). *)
Definition calculateConfidenceScore (aggregatedData : AggregatedData) : Z :=
  let confidence := inject_Z 50 in
  let successfulSources :=
    Z.of_nat (List.length (filter (fun s => String.eqb (status s) "success")
                                  (sources aggregatedData))) in
  let totalSources := Z.of_nat (List.length (sources aggregatedData)) in
  let confidence :=
    if 0 <? totalSources
    then (confidence + (inject_Z successfulSources / inject_Z totalSources) * inject_Z 30)%Q
    else confidence in
  let confidence :=
    match agg_livePrice aggregatedData with
    | Some _ => (confidence + inject_Z 10)%Q
    | None => confidence
    end in
  let confidence :=
    match enhancedIndicators aggregatedData with
    | Some _ => (confidence + inject_Z 10)%Q
    | None => confidence
    end in
  let confidence :=
    match webContent aggregatedData with
    | Some (_ :: _) => (confidence + inject_Z 5)%Q
    | _ => confidence
    end in
  Z.min (Z.max (Math_round confidence) 0) 100.

Definition isLastQuestionQuery (query : string) : bool :=
  let s := JS.toLowerCase (JS.trim query) in
  (String.eqb s "what did i ask just now"
   || String.eqb s "what did i ask just now?"
   || String.eqb s "what did i ask"
   || String.eqb s "what was my last question"
   || String.eqb s "last question?"
   || String.eqb s "what was my previous question"
   || String.eqb s "my last question")%bool.

(** The engine: [this.memory] is set when a database manager was given; the
    fallback pool is the module-level [universalDataFallback]. *)
Record Engine : Type := {
  memory : bool;
  universalDataFallback : Fallback.UniversalDataFallback
}.

Record Options : Type := {
  chatId : string;       (* [EmptyString] when absent *)
  userId : string
}.

Record Answer : Type := {
  isAnalysis : bool;
  answer : string;                                (* [response] *)
  dataSources : option (list SourceResult);
  hasLivePrice : option bool;
  answer_confidenceScore : option Z
}.

Section WithEnv.

Variable E : Env.
Variable this : Engine.
Local Open Scope monad_scope.

Definition bybit_method (method : string) (params : option Params)
  : M BybitResponse :=
  call (EvBybit method params) (bybitClient E method params).

Definition fetchBybitData (dataType : string) (params : option Params)
  : M Payload :=
  response <-
    (if JS.startsWith dataType "kline" then bybit_method "getKline" params
     else if String.eqb dataType "tickers" then bybit_method "getTickers" params
     else if String.eqb dataType "fundingRateHistory"
          then bybit_method "getFundingRateHistory" params
     else if String.eqb dataType "longShortRatio"
          then bybit_method "getLongShortRatio" params
     else throw ("Unsupported Bybit dataType: " ++ dataType)%string) ;;
  if negb (retCode response =? 0) then
    throw ("Bybit API Error for " ++ dataType ++ ": " ++ retMsg response)%string
  else
    match result response with
    | None => throw "Cannot read properties of undefined (reading 'list')"
    | Some r =>
        ret (match list_ r with
             | Some rows => PList rows
             | None => PObject (body_ r)
             end)
    end.

Definition tryFallbackData (sym : string) (aggregatedData : AggregatedData)
  : M AggregatedData :=
  try_catch
    (fallbackData <- Fallback.getBackupData E (universalDataFallback this) sym ;;
     match fallbackData with
     | Some d =>
         ret (push_source (set_fallbackTickers aggregatedData d)
                {| type := "fallback";
                   resource := (backupProvider d ++ "_ticker")%string;
                   status := "success";
                   error := None |})
     | None => ret aggregatedData
     end)
    (fun message =>
       ret (push_source aggregatedData
              {| type := "fallback"; resource := "universal_fallback";
                 status := "failed"; error := Some message |})).

(** The body of the loop over [Object.entries(requiredData.bybit)].  Its
    [catch] reads [params.symbol], which throws a TypeError out of the loop
    when [params] is [null]. *)
Definition bybit_step (aggregatedData : AggregatedData)
  (entry : string * option Params) : M AggregatedData :=
  let '(dataType, params) := entry in
  try_catch
    (fetched <- fetchBybitData dataType params ;;
     ret (push_source (set_data aggregatedData dataType fetched)
            {| type := "bybit"; resource := dataType;
               status := "success"; error := None |}))
    (fun message =>
       let aggregatedData :=
         push_source aggregatedData
           {| type := "bybit"; resource := dataType;
              status := "failed"; error := Some message |} in
       if (JS.includes dataType "tickers" || String.eqb dataType "tickers")%bool
       then
         match params with
         | Some p => tryFallbackData (symbol p) aggregatedData
         | None => throw "Cannot read properties of null (reading 'symbol')"
         end
       else ret aggregatedData).

Definition livePrice_step (userQuery : string) (aggregatedData : AggregatedData)
  : M AggregatedData :=
  try_catch
    (found <- LivePriceFetcher.fetchLivePrice E userQuery ;;
     match found with
     | Some p =>
         ret (push_source (set_livePrice aggregatedData p)
                {| type := "live_price"; resource := "live_price_api";
                   status := "success"; error := None |})
     | None => ret aggregatedData
     end)
    (fun message =>
       ret (push_source aggregatedData
              {| type := "live_price"; resource := "live_price_api";
                 status := "failed"; error := Some message |})).

(** The body of the loop over [requiredData.webSearch]. *)
Definition web_step (aggregatedData : AggregatedData) (query : string)
  : M AggregatedData :=
  try_catch
    (found <- SallyBrain.searchAndSummarizeWeb E query ;;
     let w := match webContent aggregatedData with Some w => w | None => [] end in
     ret (push_source (set_webContent aggregatedData (w ++ [(query, found)]))
            {| type := "web"; resource := query;
               status := "success"; error := None |}))
    (fun message =>
       ret (push_source aggregatedData
              {| type := "web"; resource := query;
                 status := "failed"; error := Some message |})).

(** [parseInt(...) || d] *)
Definition period_or (parsed : option Z) (d : Z) : Z :=
  match parsed with
  | Some 0 | None => d
  | Some p => p
  end.

(** The body of the loop of [calculateRequestedIndicators]; its [try] has
    nothing to catch, [indicator] being a string. *)
Definition calculate_indicator (closes : list num) (klines : list (list string))
  (results : TechnicalIndicators.IndicatorResults) (indicator : string)
  : TechnicalIndicators.IndicatorResults :=
  let upperIndicator := JS.toUpperCase indicator in
  if JS.startsWith upperIndicator "SMA" then
    let period := period_or (JS.parseInt (JS.remove_first upperIndicator "SMA")) 20 in
    JS.assign ("sma" ++ JS.string_of_Z period)%string
      (TechnicalIndicators.IValue (TechnicalIndicators.SMA closes period)) results
  else if JS.startsWith upperIndicator "EMA" then
    let period := period_or (JS.parseInt (JS.remove_first upperIndicator "EMA")) 12 in
    JS.assign ("ema" ++ JS.string_of_Z period)%string
      (TechnicalIndicators.IValue (TechnicalIndicators.EMA closes period)) results
  else if JS.startsWith upperIndicator "RSI" then
    let period := period_or (JS.parseInt (JS.remove_first upperIndicator "RSI")) 14 in
    JS.assign ("rsi" ++ JS.string_of_Z period)%string
      (TechnicalIndicators.IValue (TechnicalIndicators.RSI closes period)) results
  else if String.eqb upperIndicator "MACD" then
    JS.assign "macd"
      (TechnicalIndicators.IMacd (TechnicalIndicators.MACD closes 12 26 9)) results
  else if String.eqb upperIndicator "VWAP" then
    JS.assign "vwap"
      (TechnicalIndicators.IVwap (TechnicalIndicators.VWAP (parseFloat E) klines))
      results
  else if (String.eqb upperIndicator "BOLLINGERBANDS"
           || String.eqb upperIndicator "BOLLINGER BANDS")%bool then
    JS.assign "bollingerBands"
      (TechnicalIndicators.IBollinger
         (TechnicalIndicators.BollingerBands (Math_sqrt E) closes 20 2%float))
      results
  else if JS.startsWith upperIndicator "HMA" then
    let period := period_or (JS.parseInt (JS.remove_first upperIndicator "HMA")) 9 in
    JS.assign ("hma" ++ JS.string_of_Z period)%string
      (TechnicalIndicators.IValue (TechnicalIndicators.HMA closes period)) results
  else results.

(** [[...klineData]] throws when the result of the fetch is not the list of
    candles but the object of the envelope. *)
Definition calculateRequestedIndicators (klineData : Payload)
  (indicatorNames : list string) : outcome TechnicalIndicators.IndicatorResults :=
  match klineData with
  | PObject _ => Throw "klineData is not iterable"
  | PList rows =>
      let klines := rev rows in
      let closes :=
        map (fun k => JSNum.or_zero (option_map (parseFloat E) (nth_error k 4)))
            klines in
      Ok (fold_left (calculate_indicator closes klines) indicatorNames [])
  end.

Definition indicators_step (names : list string) (kline : Payload)
  (aggregatedData : AggregatedData) : M AggregatedData :=
  try_catch
    (computed <- (fun _ => (calculateRequestedIndicators kline names, [])) ;;
     ret (push_source (set_enhancedIndicators aggregatedData computed)
            {| type := "calculation"; resource := "technicalIndicators";
               status := "success"; error := None |}))
    (fun message =>
       ret (push_source aggregatedData
              {| type := "calculation"; resource := "technicalIndicators";
                 status := "failed"; error := Some message |})).

(** Steps 2 and 3 of [handleUserQuery]: the fetches of the plan, then the
    confidence score. *)
Definition aggregate (userQuery : string) (requiredData : RequiredData)
  : M AggregatedData :=
  let aggregatedData := empty_aggregatedData in
  aggregatedData <-
    match bybit requiredData with
    | Some entries => for_of entries bybit_step aggregatedData
    | None => ret aggregatedData
    end ;;
  aggregatedData <-
    (if livePrice requiredData then livePrice_step userQuery aggregatedData
     else ret aggregatedData) ;;
  aggregatedData <-
    match webSearch requiredData with
    | Some queries => for_of queries web_step (set_webContent aggregatedData [])
    | None => ret aggregatedData
    end ;;
  aggregatedData <-
    match technicalIndicators requiredData, JS.lookup "kline" (data aggregatedData) with
    | Some names, Some kline => indicators_step names kline aggregatedData
    | _, _ => ret aggregatedData
    end ;;
  ret (set_confidenceScore aggregatedData (calculateConfidenceScore aggregatedData)).

Definition default_requiredData : RequiredData :=
  {| bybit := None; livePrice := false; webSearch := None;
     technicalIndicators := None |}.

(** Step 5: the update of the long-term memory, in its own [try]. *)
Definition update_memory (userQuery chat : string) (recent : list Turn) : M unit :=
  try_catch
    (newSummary <- SallyBrain.summarizeConversationForMemory E recent ;;
     newFacts <- SallyBrain.extractFacts E recent ;;
     let tags := MemoryManager.deriveTags userQuery in
     MemoryManager.upsertChatMemory E chat
       {| summary := newSummary; facts := newFacts; tags := tags |})
    (fun _ => ret tt).

Definition handleUserQuery (userQuery : string) (options : Options) : M Answer :=
  try_catch
    (if (isLastQuestionQuery userQuery && JS.truthy_string (chatId options)
         && memory this)%bool
     then
       lastQuestion <- MemoryManager.getLastUserMessage E (chatId options) ;;
       ret {| isAnalysis := false;
              answer := match lastQuestion with
                        | Some q => ("Your previous question was: " ++ JS.quote ++ q ++ JS.quote)%string
                        | None => "No previous question found in this chat."
                        end;
              dataSources := None; hasLivePrice := None;
              answer_confidenceScore := None |}
     else
       let with_memory := (memory this && JS.truthy_string (chatId options))%bool in
       recent <- (if with_memory
                  then MemoryManager.getRecentMessages E (chatId options) 12
                  else ret []) ;;
       longTerm <- (if with_memory
                    then MemoryManager.getChatMemory E (chatId options)
                    else ret {| summary := EmptyString; facts := []; tags := [] |}) ;;
       level <- (if (with_memory && JS.truthy_string (userId options))%bool
                 then MemoryManager.getUserProfile E (userId options)
                 else ret "beginner") ;;
       let enhancedQuery :=
         {| userQuery := userQuery; recentContext := recent;
            longTermSummary := summary longTerm; longTermFacts := facts longTerm;
            experienceLevel := level |} in
       plan <- SallyBrain.createDynamicDataPlan E enhancedQuery ;;
       if isCasual plan then
         ret {| isAnalysis := false; answer := response plan;
                dataSources := None; hasLivePrice := None;
                answer_confidenceScore := None |}
       else
         let requiredData :=
           match requiredData plan with
           | Some r => r
           | None => default_requiredData
           end in
         aggregatedData <- aggregate userQuery requiredData ;;
         finalResponse <- SallyBrain.generateFinalAnalysis E enhancedQuery ;;
         (if with_memory
          then update_memory userQuery (chatId options) recent
          else ret tt) ;;;
         ret {| isAnalysis := true; answer := finalResponse;
                dataSources := Some (sources aggregatedData);
                hasLivePrice := Some (match agg_livePrice aggregatedData with
                                      | Some _ => true | None => false end);
                answer_confidenceScore := confidenceScore aggregatedData |})
    (fun message => throw ("Dynamic Analysis failed: " ++ message)%string).

End WithEnv.

End AnalysisEngine.

(* ------------------------------------------------------------------ *)
(** ** The words of the specification *)

(** *** Orders *)

Module Order.

Definition ascending {A} (key : A -> Z) : A -> A -> Prop :=
  fun a b => key a <= key b.

Definition strictly_ascending {A} (key : A -> Z) : A -> A -> Prop :=
  fun a b => key a < key b.

End Order.

(** *** Computations *)

Module Effects.

(** A computation that never throws. *)
Definition never_throws {A} (m : M A) : Prop :=
  forall h, exists a, fst (m h) = Ok a.

(** A computation whose calls all satisfy [P]. *)
Definition emits (P : Event -> Prop) {A} (m : M A) : Prop :=
  forall h, Forall P (snd (m h)).

Definition is_backup_call (ev : Event) : bool :=
  match ev with EvGetBackupData _ => true | _ => false end.


Definition is_web_search (ev : Event) : bool :=
  match ev with EvWebSearch _ => true | _ => false end.

(** How many of the calls satisfy [p]. *)
Definition count (p : Event -> bool) (evs : list Event) : nat :=
  List.length (filter p evs).

(** The calls of the first step of the aggregator. *)
Definition market_event (ev : Event) : Prop :=
  match ev with
  | EvBybit _ _ | EvGetBackupData _ | EvProvider _ _ => True
  | _ => False
  end.

Definition provider_event (ev : Event) : Prop :=
  match ev with EvProvider _ _ => True | _ => False end.

Definition price_api_event (ev : Event) : Prop :=
  match ev with EvPriceApi _ _ => True | _ => False end.

End Effects.

(** *** RSI *)

Module IndicatorSpec.

Import TechnicalIndicators JSNum.
Local Open Scope num_scope.

(** The loop of RSI as a fold on the changes of the window, from the pair
    (gains, losses). *)
Definition rsi_fold (ds : list num) (acc : num * num) : num * num :=
  fold_left (fun acc d => if is_gain d then (fst acc + d, snd acc)
                          else (fst acc, snd acc - d)) ds acc.

(** The change is a number: the difference of two finite prices is. *)
Definition is_number (d : num) : bool := negb (isNaN d).

(** The number has no minus sign: it is 0, above 0, or NaN. *)
Definition unsigned (x : num) : Prop :=
  match Prim2SF x with
  | S754_zero true | S754_infinity true | S754_finite true _ _ => False
  | _ => True
  end.

(** The number is finite: neither an infinity nor NaN. *)
Definition finite (x : num) : Prop :=
  match Prim2SF x with
  | S754_zero _ | S754_finite _ _ _ => True
  | _ => False
  end.

(** The number is one of the two zeros. *)
Definition is_zero (x : num) : Prop :=
  match Prim2SF x with
  | S754_zero _ => True
  | _ => False
  end.

End IndicatorSpec.

(** *** The confidence score *)

Module ScoreSpec.

Import AnalysisEngine.

(** What the score depends on. *)
Record Features : Type := {
  successCount : Z;
  totalCount : Z;
  livePricePresent : bool;
  indicatorValuesPresent : bool;
  webContentNonEmpty : bool
}.

Definition features (a : AggregatedData) : Features :=
  {| successCount :=
       Z.of_nat (count_occ string_dec (map status (sources a)) "success");
     totalCount := Z.of_nat (List.length (sources a));
     livePricePresent := match agg_livePrice a with Some _ => true | None => false end;
     indicatorValuesPresent :=
       match enhancedIndicators a with Some _ => true | None => false end;
     webContentNonEmpty :=
       match webContent a with Some (_ :: _) => true | _ => false end |}.

(** 10 for a live price, 10 for indicator values, 5 for web content. *)
Definition bonuses (f : Features) : Z :=
  (if livePricePresent f then 10 else 0)
  + (if indicatorValuesPresent f then 10 else 0)
  + (if webContentNonEmpty f then 5 else 0).

(** The score before it is rounded and clamped. *)
Definition score_formula (f : Features) : Q :=
  (inject_Z 50
   + (if 0 <? totalCount f
      then inject_Z 30 * (inject_Z (successCount f) / inject_Z (totalCount f))
      else 0)
   + inject_Z (bonuses f))%Q.

(** The score in integer arithmetic. *)
Definition score_closed (f : Features) : Z :=
  let b := 50 + bonuses f in
  let r := if 0 <? totalCount f
           then (2 * totalCount f * b + 60 * successCount f + totalCount f)
                / (2 * totalCount f)
           else b in
  Z.min (Z.max r 0) 100.

End ScoreSpec.

(** *** The last question *)

Module MemorySpec.

(** The fixed phrasings of the question about the last question. *)
Definition last_question_phrasings : list string :=
  ["what did i ask just now"; "what did i ask just now?"; "what did i ask";
   "what was my last question"; "last question?";
   "what was my previous question"; "my last question"].

(** The user turns of a chat. *)
Definition is_user_turn (chat : string) (m : ChatMessage) : bool :=
  (String.eqb (msg_chatId m) chat && String.eqb (msg_type m) "user")%bool.

Definition previous_question (q : string) : string :=
  ("Your previous question was: " ++ JS.quote ++ q ++ JS.quote)%string.

(** The chat route stores a user message only when it is not blank. *)
Definition user_turns_not_empty (docs : list ChatMessage) : Prop :=
  Forall (fun m => msg_type m = "user" -> content m <> EmptyString) docs.

End MemorySpec.

(** *** The aggregator *)

Module AggregatorSpec.

Import AnalysisEngine.

(** A ticker-class [dataType]: the test of the [catch] of the market loop. *)
Definition ticker_class (dataType : string) : bool :=
  (JS.includes dataType "tickers" || String.eqb dataType "tickers")%bool.

(** The [TypeError] of [params.symbol] on [null]. *)
Definition null_symbol_error : string :=
  "Cannot read properties of null (reading 'symbol')".

(** A market request whose failure cannot throw out of the loop: it has
    parameters, or it is not ticker-class so that its symbol is not read. *)
Definition safe_entry (entry : string * option Params) : bool :=
  (negb (ticker_class (fst entry))
   || match snd entry with Some _ => true | None => false end)%bool.

(** The market requests of the plan are all safe. *)
Definition market_safe (rd : RequiredData) : bool :=
  match bybit rd with
  | Some entries => forallb safe_entry entries
  | None => true
  end.

Definition has_type (t : string) (s : SourceResult) : bool := String.eqb (type s) t.

Definition failed_market (dataType message : string) : SourceResult :=
  {| type := "bybit"; resource := dataType; status := "failed";
     error := Some message |}.

Definition fallback_success (d : StandardFormat) : SourceResult :=
  {| type := "fallback"; resource := (backupProvider d ++ "_ticker")%string;
     status := "success"; error := None |}.

Definition live_price_success : SourceResult :=
  {| type := "live_price"; resource := "live_price_api"; status := "success";
     error := None |}.

Definition web_success (query : string) : SourceResult :=
  {| type := "web"; resource := query; status := "success"; error := None |}.

(** The entry the live-price step appends. *)
Definition live_price_entries (found : option LivePrice) : list SourceResult :=
  match found with Some _ => [live_price_success] | None => [] end.

(** What the market step leaves untouched. *)
Definition market_only (a : AggregatedData) : Prop :=
  agg_livePrice a = None /\ webContent a = None /\ enhancedIndicators a = None /\
  Forall (fun s => type s = "bybit" \/ type s = "fallback") (sources a).

End AggregatorSpec.

(* ------------------------------------------------------------------ *)
(** ** Worlds to run the engine in *)

Module Examples.

Import AnalysisEngine.

(** A world where the database holds [docs], the backup providers and the
    live-price APIs answer as [tickers] and [prices] say, and every other
    call fails.  No run below reads a number, so that the numeric built-ins
    are left undefined. *)
Definition world
  (tickers : string -> outcome ProviderData)
  (prices : string -> outcome (option num))
  (docs : list ChatMessage) : Env :=
  {| bybitClient := fun _ _ _ => Throw "network unreachable";
     axios_ticker := fun name _ _ => tickers name;
     axios_price := fun api _ _ => prices api;
     fetchTavilyContext := fun _ _ => None;
     llm_plan := fun _ _ => Throw "timeout";
     llm_text := fun _ _ => Throw "timeout";
     parse_facts := fun _ => Ok [];
     db_chatMessages := fun _ => Ok docs;
     db_chatMemory := fun _ _ => Ok None;
     db_userProfile := fun _ _ => Ok "beginner";
     db_upsertChatMemory := fun _ _ _ => Ok tt;
     parseFloat := fun _ => nan;
     Math_sqrt := fun _ => nan;
     axios_ping := fun _ _ => Throw "network unreachable";
     Date_now := fun _ => 1700000000000;
     Date_toISOString := fun _ => "2023-11-14T22:13:20.000Z" |}.

(** Nothing answers. *)
Definition offline : Env :=
  world (fun _ => Throw "network unreachable")
        (fun _ => Throw "network unreachable") [].

Definition quote_of (p : Z) : ProviderData :=
  {| provider := EmptyString; price := JSNum.of_Z p;
     volume24h := None; change24h := None |}.

(** Coinbase answers 42000 and CoinGecko 42100; Binance does not answer. *)
Definition two_providers : Env :=
  world (fun name => if String.eqb name "coinbase" then Ok (quote_of 42000)
                     else if String.eqb name "coingecko" then Ok (quote_of 42100)
                     else Throw "network unreachable")
        (fun _ => Throw "network unreachable") [].

(** The pool after a start in which the three probes succeeded. *)
Definition pool_all_active : Fallback.UniversalDataFallback :=
  {| Fallback.multiProvider :=
       Fallback.set_active
         (Fallback.set_active
            (Fallback.set_active Fallback.new_UniversalMultiDataProvider "binance")
            "coinbase")
         "coingecko";
     Fallback.initialized := true |}.

(** The pool after a start in which the probe of Binance failed. *)
Definition pool_without_binance : Fallback.UniversalDataFallback :=
  {| Fallback.multiProvider :=
       Fallback.set_active
         (Fallback.set_active Fallback.new_UniversalMultiDataProvider "coinbase")
         "coingecko";
     Fallback.initialized := true |}.

Definition engine : Engine :=
  {| memory := true; universalDataFallback := pool_all_active |}.

Definition btc : Params := {| symbol := "BTCUSDT"; extra := [] |}.

Definition live_price_only : RequiredData :=
  {| bybit := None; livePrice := true; webSearch := None;
     technicalIndicators := None |}.

(** The two user turns of the scenario, oldest first, and an answer between
    them. *)
Definition two_turns : list ChatMessage :=
  [{| msg_chatId := "chat-1"; msg_type := "user";
      content := "what's ETH price"; msg_timestamp := 1000 |};
   {| msg_chatId := "chat-1"; msg_type := "ai";
      content := "ETH trades at 2000"; msg_timestamp := 2000 |};
   {| msg_chatId := "chat-1"; msg_type := "user";
      content := "analyze BTC"; msg_timestamp := 3000 |}].

Definition chat_1 : Options := {| chatId := "chat-1"; userId := "u-1" |}.


Definition failed_source : SourceResult :=
  {| type := "bybit"; resource := "tickers"; status := "failed";
     error := Some "network unreachable" |}.

Definition ok_source : SourceResult :=
  {| type := "web"; resource := "news"; status := "success"; error := None |}.

Definition with_sources (l : list SourceResult) : AggregatedData :=
  {| sources := l; data := []; fallbackTickers := None; agg_livePrice := None;
     webContent := None; enhancedIndicators := None; confidenceScore := None |}.

Definition rising_closes : list num :=
  map JSNum.of_Z [1; 2; 3; 4; 5; 6; 7; 8; 9; 10; 11; 12; 13; 14; 15].

(** One fall of 1, a rise of 10^20, and no change after it. *)
Definition spike_closes : list num :=
  map JSNum.of_Z [1; 0; 10 ^ 20; 10 ^ 20; 10 ^ 20; 10 ^ 20; 10 ^ 20; 10 ^ 20;
                  10 ^ 20; 10 ^ 20; 10 ^ 20; 10 ^ 20; 10 ^ 20; 10 ^ 20; 10 ^ 20].

End Examples.

(* ------------------------------------------------------------------ *)
(** ** Further words on the engine *)

Module EngineSpec.

Import AnalysisEngine AggregatorSpec.

(** The [dataType]s [fetchBybitData] has a client method for. *)
Definition supported (dataType : string) : bool :=
  (JS.startsWith dataType "kline" || String.eqb dataType "tickers"
   || String.eqb dataType "fundingRateHistory"
   || String.eqb dataType "longShortRatio")%bool.

(** The market requests and the web searches of a plan. *)
Definition plan_entries (rd : RequiredData) : list (string * option Params) :=
  match bybit rd with Some l => l | None => [] end.

Definition plan_queries (rd : RequiredData) : list string :=
  match webSearch rd with Some qs => qs | None => [] end.

(** [plan.requiredData || {}] *)
Definition required_of (plan : Plan) : RequiredData :=
  match requiredData plan with
  | Some r => r
  | None => default_requiredData
  end.

(** The query object [handleUserQuery] builds when it loads no memory. *)
Definition query_without_memory (userQuery : string) : EnhancedQuery :=
  {| userQuery := userQuery; recentContext := [];
     longTermSummary := EmptyString; longTermFacts := [];
     experienceLevel := "beginner" |}.

(** The engine loads the memory of the chat. *)
Definition with_memory (this : Engine) (options : Options) : bool :=
  (memory this && JS.truthy_string (chatId options))%bool.

(** The names [calculateRequestedIndicators] has a branch for. *)
Definition recognized (indicator : string) : bool :=
  let u := JS.toUpperCase indicator in
  (JS.startsWith u "SMA" || JS.startsWith u "EMA" || JS.startsWith u "RSI"
   || String.eqb u "MACD" || String.eqb u "VWAP"
   || String.eqb u "BOLLINGERBANDS" || String.eqb u "BOLLINGER BANDS"
   || JS.startsWith u "HMA")%bool.

(** The calls of the live-price step. *)
Definition live_price_event (ev : Event) : Prop :=
  match ev with
  | EvFetchLivePrice _ | EvPriceApi _ _ => True
  | _ => False
  end.

Definition is_some {A} (o : option A) : bool :=
  match o with Some _ => true | None => false end.

(** A name of an indicator on which the model is exact: its characters are
    ASCII, and it is short enough for the period it names to be below 2^53,
    where the integer of the model is the double of the code. *)
Definition plain_name (indicator : string) : bool :=
  (JS.is_ascii indicator && Nat.leb (String.length indicator) 18)%bool.

End EngineSpec.

(** *** Memory *)

Module MemoryWords.

(** The turn [getRecentMessages] makes of a stored message. *)
Definition turn_of (m : ChatMessage) : Turn :=
  {| role := if String.eqb (msg_type m) "ai" then "assistant" else "user";
     turn_content := content m;
     turn_timestamp := msg_timestamp m |}.

Definition in_chat (chat : string) (m : ChatMessage) : bool :=
  String.eqb (msg_chatId m) chat.

(** The tags [deriveTags] can give. *)
Definition tag_vocabulary : list string :=
  ["BTC"; "BITCOIN"; "ETH"; "ETHEREUM"; "SOL"; "SOLANA"; "ADA"; "CARDANO";
   "price"; "technical-analysis"; "news"; "prediction"].

End MemoryWords.

(** *** The start of the fallback pool *)

Module PoolWords.

Import Fallback.

Definition binance_ping : Event := EvProvider "binance" "ping".
Definition coinbase_ping : Event := EvProvider "coinbase" "ping".
Definition coingecko_ping : Event := EvProvider "coingecko" "ping".

Definition succeeds {A} (o : outcome A) : bool :=
  match o with Ok _ => true | Throw _ => false end.

(** The probe of [name] succeeded, in a start from the history [h]. *)
Definition probe_ok (E : Env) (h : History) (name : string) : bool :=
  if String.eqb name "binance" then succeeds (axios_ping E "binance" h)
  else if String.eqb name "coinbase"
       then succeeds (axios_ping E "coinbase" (h ++ [binance_ping]))
  else if String.eqb name "coingecko"
       then succeeds (axios_ping E "coingecko" (h ++ [binance_ping; coinbase_ping]))
  else false.

(** [name] is a key of [this.providers]. *)
Definition is_provider (mp : UniversalMultiDataProvider) (name : string) : bool :=
  match JS.lookup name (providers mp) with Some _ => true | None => false end.

Definition provider_names : list string := ["binance"; "coinbase"; "coingecko"].

End PoolWords.

(** *** Windows and weights of the indicators *)

Module IndicatorWords.

(** The last [period] values. *)
Definition last_values (period : Z) (values : list num) : list num :=
  skipn (List.length values - Z.to_nat period) values.

(** The values weighted by [o + 1], [o + 2], ..., added to [s] in their
    order. *)
Fixpoint weighted_sum (o : nat) (values : list num) (s : num) : num :=
  match values with
  | [] => s
  | v :: rest =>
      weighted_sum (S o) rest
        (JSNum.add s (JSNum.mul v (JSNum.of_Z (Z.of_nat o + 1))))
  end.

(** The weights 1, 2, ..., [n], added up in their order. *)
Definition weight_total (n : nat) : num :=
  fold_left JSNum.add (map (fun k => JSNum.of_Z (Z.of_nat k + 1)) (seq 0 n))
            0%float.

End IndicatorWords.

(** *** Failures of the handler *)

Module FailureSpec.

Import AnalysisEngine Effects AggregatorSpec EngineSpec.

(** The call [ev], made on the history [h], is a read of the database or the
    final analysis, and it failed with [cause]. *)
Definition failed_call (E : Env) (query : string) (options : Options)
  (h : History) (ev : Event) (cause : string) : Prop :=
  (ev = EvFindMessages (chatId options) /\ db_chatMessages E h = Throw cause)
  \/ (ev = EvGetChatMemory (chatId options)
      /\ db_chatMemory E (chatId options) h = Throw cause)
  \/ (ev = EvGetUserProfile (userId options)
      /\ db_userProfile E (userId options) h = Throw cause)
  \/ (ev = EvFinalAnalysis query
      /\ llm_text E (EvFinalAnalysis query) h = Throw cause).

(** On the history [h] the planning oracle answers, for this query, a plan
    of analysis with a ticker-class request whose parameters are [null]. *)
Definition null_request_planned (E : Env) (query : string) (h : History) : Prop :=
  exists queryObj plan dataType,
    userQuery queryObj = query /\
    llm_plan E queryObj h = Ok plan /\
    isCasual plan = false /\
    In (dataType, None) (plan_entries (required_of plan)) /\
    ticker_class dataType = true.

(** Why a run of the handler from the history [h], with the calls [evs],
    failed with [cause]: the last call of the run is a read of the database
    or the final analysis and failed with it; or the cause is the
    [TypeError] of the symbol of [null], and the run ends with the call of
    the planning oracle, which planned a request with [null], followed by
    calls for market data only. *)
Definition handler_failure (E : Env) (query : string) (options : Options)
  (h : History) (evs : list Event) (cause : string) : Prop :=
  (exists asked ev,
      evs = asked ++ [ev] /\ failed_call E query options (h ++ asked) ev cause)
  \/ (cause = null_symbol_error /\
      exists asked fetches,
        evs = asked ++ EvPlanningOracle query :: fetches /\
        Forall market_event fetches /\
        null_request_planned E query (h ++ asked)).

End FailureSpec.

(** *** Further scenarios *)

Module Scenarios.

Import AnalysisEngine.

(** A request without chat. *)
Definition no_chat : Options := {| chatId := EmptyString; userId := "u-1" |}.

(** A plan that only asks two web searches. *)
Definition news_only : RequiredData :=
  {| bybit := None; livePrice := false;
     webSearch := Some ["bitcoin news"; "btc etf"];
     technicalIndicators := None |}.

Definition chatty : Plan :=
  {| isCasual := true; response := "Happy to help!"; requiredData := None |}.

Definition price_plan : Plan :=
  {| isCasual := false; response := EmptyString;
     requiredData := Some Examples.live_price_only |}.

(** A world where the two oracles answer [plan] and [text], and nothing else
    answers. *)
Definition assistant (plan : Plan) (text : string) : Env :=
  {| bybitClient := fun _ _ _ => Throw "network unreachable";
     axios_ticker := fun _ _ _ => Throw "network unreachable";
     axios_price := fun _ _ _ => Throw "network unreachable";
     fetchTavilyContext := fun _ _ => None;
     llm_plan := fun _ _ => Ok plan;
     llm_text := fun _ _ => Ok text;
     parse_facts := fun _ => Ok [];
     db_chatMessages := fun _ => Ok [];
     db_chatMemory := fun _ _ => Ok None;
     db_userProfile := fun _ _ => Ok "beginner";
     db_upsertChatMemory := fun _ _ _ => Ok tt;
     parseFloat := fun _ => nan;
     Math_sqrt := fun _ => nan;
     axios_ping := fun _ _ => Throw "network unreachable";
     Date_now := fun _ => 1700000000000;
     Date_toISOString := fun _ => "2023-11-14T22:13:20.000Z" |}.

(** A world whose database holds the three messages of [Examples.two_turns]. *)
Definition with_history : Env :=
  Examples.world (fun _ => Throw "network unreachable")
                 (fun _ => Throw "network unreachable") Examples.two_turns.

(** The ticker the pool makes of the answer of Coinbase in
    [Examples.two_providers]. *)
Definition coinbase_ticker : StandardFormat :=
  {| std_symbol := "BTCUSDT";
     ticker := {| lastPrice := JSNum.of_Z 42000; price24hPcnt := 0%float;
                  ticker_volume24h := 0%float; timestamp := 1700000000000;
                  isValid := true; dataQuality := "BACKUP_PROVIDER" |};
     backupProvider := "coinbase" |}.

(** CoinGecko answers a price of 42000; the other price APIs do not
    answer. *)
Definition coingecko_price : Env :=
  Examples.world (fun _ => Throw "network unreachable")
                 (fun api => if String.eqb api "coingecko"
                             then Ok (Some (JSNum.of_Z 42000))
                             else Throw "network unreachable") [].

(** A plan whose request of the tickers has [null] for parameters. *)
Definition null_tickers : Plan :=
  {| isCasual := false; response := EmptyString;
     requiredData :=
       Some {| bybit := Some [("tickers", None)]; livePrice := false;
               webSearch := None; technicalIndicators := None |} |}.

End Scenarios.

(* ------------------------------------------------------------------ *)
(** * Proofs *)

(** ** Sorting by a key *)

Module SortFacts.

Import Order.

Section Sorting.

Context {A : Type} (key : A -> Z).

Lemma insert_by_perm (k : A) (l : list A) :
  Permutation (k :: l) (JS.insert_by key k l).
Proof.
  induction l as [|x l IH]; cbn; [reflexivity|].
  destruct (key k <=? key x); [reflexivity|].
  rewrite perm_swap. apply perm_skip, IH.
Qed.

Lemma sort_by_perm (l : list A) : Permutation l (JS.sort_by key l).
Proof.
  induction l as [|k l IH]; cbn; [reflexivity|].
  rewrite <- insert_by_perm. apply perm_skip, IH.
Qed.

Lemma insert_by_sorted (k : A) (l : list A) :
  StronglySorted (ascending key) l -> StronglySorted (ascending key) (JS.insert_by key k l).
Proof.
  induction 1 as [|x l Hs IH Hx]; cbn.
  - repeat constructor.
  - destruct (Z.leb_spec (key k) (key x)) as [Hle|Hlt].
    + constructor; [constructor; assumption|].
      constructor; [exact Hle|].
      eapply Forall_impl; [|exact Hx]. unfold ascending. intros; lia.
    + constructor; [exact IH|].
      rewrite <- insert_by_perm. constructor; [unfold ascending; lia|exact Hx].
Qed.

Lemma sort_by_sorted (l : list A) : StronglySorted (ascending key) (JS.sort_by key l).
Proof.
  induction l as [|k l IH]; cbn; [constructor|].
  apply insert_by_sorted, IH.
Qed.

Lemma sorted_filter (R : A -> A -> Prop) (keep : A -> bool) (l : list A) :
  StronglySorted R l -> StronglySorted R (filter keep l).
Proof.
  induction 1 as [|x l Hs IH Hx]; cbn; [constructor|].
  destruct (keep x); [|exact IH].
  constructor; [exact IH|].
  apply Forall_forall. intros y Hy. apply filter_In in Hy.
  rewrite Forall_forall in Hx. apply Hx, Hy.
Qed.

Lemma sorted_strict (l : list A) :
  NoDup (map key l) -> StronglySorted (ascending key) l ->
  StronglySorted (strictly_ascending key) l.
Proof.
  intros Hnd Hs. induction Hs as [|x l Hs IH Hx]; [constructor|].
  cbn in Hnd. inversion Hnd as [|? ? Hnotin Hnd']; subst.
  constructor; [apply IH, Hnd'|].
  apply Forall_forall. intros y Hy. rewrite Forall_forall in Hx.
  specialize (Hx y Hy). unfold ascending in Hx. unfold strictly_ascending.
  assert (key x <> key y).
  { intros e. apply Hnotin. rewrite e. apply in_map, Hy. }
  lia.
Qed.

End Sorting.

End SortFacts.
(** ** The indicator library *)

Module IndicatorFacts.

Import TechnicalIndicators JSNum IndicatorSpec.

(** C3. Each of SMA, EMA, RSI, MACD, BollingerBands, HMA and WMA returns
    [null] on a sequence shorter than the length its parameters require.
    The functions are total and no operation they use can throw: an array
    read past the end is [undefined], arithmetic on it is NaN. *)
Theorem indicators_insufficient_data (c : call) (values : list num) :
  len values < required_length c -> returns_null c values.
Proof.
  intros H.
  destruct c; simpl in *;
    unfold SMA, EMA, RSI, MACD, BollingerBands, HMA, WMA;
    apply Z.ltb_lt in H; rewrite H; reflexivity.
Qed.

Lemma indicators_insufficient_data_witness :
  RSI (map of_Z [100; 101; 102]) 14 = Null.
Proof.
  apply (indicators_insufficient_data (CallRSI 14) (map of_Z [100; 101; 102])).
  vm_compute. reflexivity.
Defined.

Lemma read_app_at (pre : list num) (a : num) (post : list num) :
  read (pre ++ a :: post) (Z.of_nat (List.length pre)) = a.
Proof.
  unfold read, JS.get.
  destruct (Z.ltb_spec (Z.of_nat (List.length pre)) 0); [lia|].
  rewrite Nat2Z.id, nth_error_app2 by lia.
  rewrite Nat.sub_diag. reflexivity.
Qed.

(** The loop of RSI over the indices reads the changes of the closes in
    turn. *)
Lemma rsi_loop (w pre : list num) (acc : num * num) :
  fold_left (rsi_step (pre ++ w))
            (map (fun k => Z.of_nat (List.length pre) + 1 + Z.of_nat k)
                 (seq 0 (List.length w - 1)))
            acc
  = rsi_fold (deltas w) acc.
Proof.
  revert pre acc. induction w as [|a w IH]; intros pre acc.
  - reflexivity.
  - destruct w as [|b w].
    + reflexivity.
    + replace (List.length (a :: b :: w) - 1)%nat
        with (S (List.length (b :: w) - 1)) by (cbn; lia).
      rewrite <- cons_seq, <- seq_shift. cbn [map fold_left]. rewrite map_map.
      specialize (IH (pre ++ [a])).
      rewrite <- app_assoc in IH. cbn [app] in IH.
      replace (map (fun x => Z.of_nat (List.length pre) + 1 + Z.of_nat (S x))
                   (seq 0 (List.length (b :: w) - 1)))
        with (map (fun k => Z.of_nat (List.length (pre ++ [a])) + 1 + Z.of_nat k)
                  (seq 0 (List.length (b :: w) - 1))).
      2:{ apply map_ext. intros k. rewrite length_app. cbn. lia. }
      assert (Hstep : rsi_step (pre ++ a :: b :: w) acc
                        (Z.of_nat (List.length pre) + 1 + Z.of_nat 0)
                      = if is_gain (sub b a)
                        then (add (fst acc) (sub b a), snd acc)
                        else (fst acc, sub (snd acc) (sub b a))).
      { unfold rsi_step. destruct acc as [g l].
        replace (Z.of_nat (List.length pre) + 1 + Z.of_nat 0 - 1)
          with (Z.of_nat (List.length pre)) by lia.
        replace (Z.of_nat (List.length pre) + 1 + Z.of_nat 0)
          with (Z.of_nat (List.length (pre ++ [a]))) by (rewrite length_app; cbn; lia).
        rewrite read_app_at.
        replace (pre ++ a :: b :: w) with ((pre ++ [a]) ++ b :: w)
          by (rewrite <- app_assoc; reflexivity).
        rewrite read_app_at. reflexivity. }
      rewrite Hstep, IH. reflexivity.
Qed.

(** The value RSI computes on at least [period + 1] closes, in terms of the
    changes of the window. *)
Lemma RSI_fold (closes : list num) (period : Z) :
  1 <= period -> period + 1 <= Z.of_nat (List.length closes) ->
  RSI closes period =
    let gl := rsi_fold (window closes (Z.to_nat period)) (0%float, 0%float) in
    let avgGain := div (fst gl) (of_Z period) in
    let avgLoss := div (snd gl) (of_Z period) in
    if strict_eq avgLoss 0%float then Number 100%float
    else Number (sub 100%float (div 100%float (add 1%float (div avgGain avgLoss)))).
Proof.
  intros Hp Hlen. unfold RSI, len.
  destruct (Z.ltb_spec (Z.of_nat (List.length closes)) (period + 1)); [lia|].
  unfold JS.range.
  replace (Z.to_nat (Z.of_nat (List.length closes)
                     - (Z.of_nat (List.length closes) - period)))
    with (Z.to_nat period) by lia.
  set (P := Z.to_nat period).
  set (pre := firstn (List.length closes - (P + 1)) closes).
  set (w := skipn (List.length closes - (P + 1)) closes).
  assert (Hc : closes = pre ++ w) by (symmetry; apply firstn_skipn).
  assert (Hpre : List.length pre = (List.length closes - (P + 1))%nat)
    by (unfold pre; rewrite length_firstn; lia).
  assert (Hw : List.length w = (P + 1)%nat)
    by (unfold w; rewrite length_skipn; lia).
  replace (map (fun k => Z.of_nat (List.length closes) - period + Z.of_nat k) (seq 0 P))
    with (map (fun k => Z.of_nat (List.length pre) + 1 + Z.of_nat k)
              (seq 0 (List.length w - 1))).
  2:{ rewrite Hw. replace (P + 1 - 1)%nat with P by lia.
      apply map_ext. intros k. rewrite Hpre. lia. }
  rewrite Hc at 1. rewrite rsi_loop.
  unfold window. fold w.
  destruct (rsi_fold (deltas w) (0%float, 0%float)) as [g l]. reflexivity.
Qed.

(** *** Signs of doubles *)

Lemma unsigned_zero : unsigned 0%float.
Proof. exact I. Qed.

Lemma gain_is_no_loss (d : num) : is_gain d = true -> is_loss d = false.
Proof.
  unfold is_gain, is_loss, gt, lt. rewrite !ltb_spec.
  change (Prim2SF 0%float) with (S754_zero false).
  destruct (Prim2SF d) as [s|s| |s m e]; try destruct s; cbn;
    congruence.
Qed.

(** A change that is a number, and neither a gain nor a loss, is a zero. *)
Lemma no_change_is_zero (d : num) :
  is_number d = true -> is_gain d = false -> is_loss d = false -> is_zero d.
Proof.
  unfold is_number, isNaN, is_gain, is_loss, gt, lt, is_zero.
  rewrite !ltb_spec, eqb_spec.
  change (Prim2SF 0%float) with (S754_zero false).
  destruct (Prim2SF d) as [s|s| |s m e]; try destruct s; cbn;
    try discriminate; intros; exact I.
Qed.

(** Taking a zero away from a number without minus sign leaves it as it
    is. *)
Lemma sub_zero (l d : num) : unsigned l -> is_zero d -> sub l d = l.
Proof.
  unfold unsigned, is_zero, sub. intros Hl Hd.
  apply Prim2SF_inj. rewrite sub_spec. unfold SF64sub.
  destruct (Prim2SF l) as [[]|[]| |[] m e], (Prim2SF d) as [[]|[]| |[] m' e'];
    try contradiction; reflexivity.
Qed.

Lemma binary_round_sign (mx : positive) (ex : Z) :
  match binary_round prec emax false mx ex with
  | S754_zero true | S754_infinity true | S754_finite true _ _ => False
  | _ => True
  end.
Proof.
  unfold binary_round, binary_round_aux.
  destruct (shl_align _ _ _) as [mz ez].
  destruct (shr_fexp _ _ _ _ _) as [mrs' e'].
  destruct (shr_fexp _ _ _ _ _) as [mrs'' e''].
  destruct (shr_m mrs''); [exact I| |exact I].
  destruct (Z.leb _ _); exact I.
Qed.

(** Taking a loss away from a number without minus sign gives such a
    number. *)
Lemma sub_loss_unsigned (l d : num) :
  unsigned l -> is_loss d = true -> unsigned (sub l d).
Proof.
  unfold unsigned, is_loss, lt, sub. rewrite ltb_spec, sub_spec.
  change (Prim2SF 0%float) with (S754_zero false). unfold SF64sub.
  destruct (Prim2SF l) as [[]|[]| |[] m e], (Prim2SF d) as [[]|[]| |[] m' e'];
    cbn; try contradiction; try discriminate; try (intros; exact I).
  intros _ _. apply binary_round_sign.
Qed.

(** *** Differences of finite doubles *)

Lemma shr_1_nonneg (mrs : shr_record) : 0 <= shr_m mrs -> 0 <= shr_m (shr_1 mrs).
Proof.
  destruct mrs as [m r s]. cbn. destruct m as [|[p|p|]|[p|p|]]; cbn; lia.
Qed.

Lemma iter_shr_1_nonneg (p : positive) (mrs : shr_record) :
  0 <= shr_m mrs -> 0 <= shr_m (iter_pos shr_1 p mrs).
Proof.
  revert mrs. induction p as [p IH|p IH|]; intros mrs H; cbn.
  - apply IH, IH, shr_1_nonneg, H.
  - apply IH, IH, H.
  - apply shr_1_nonneg, H.
Qed.

Lemma shr_fexp_nonneg (m e : Z) (l : location) :
  0 <= m -> 0 <= shr_m (fst (shr_fexp prec emax m e l)).
Proof.
  intros H. unfold shr_fexp, shr.
  assert (H0 : 0 <= shr_m (shr_record_of_loc m l))
    by (destruct l as [|[]]; exact H).
  destruct (fexp prec emax (Zdigits2 m + e) - e); cbn [fst];
    [exact H0|apply iter_shr_1_nonneg, H0|exact H0].
Qed.

Lemma round_nearest_even_nonneg (m : Z) (l : location) :
  0 <= m -> 0 <= round_nearest_even m l.
Proof.
  intros H. destruct l as [|[]]; cbn; try destruct (Z.even m); lia.
Qed.

(** Rounding never makes NaN. *)
Lemma binary_round_number (s : bool) (mx : positive) (ex : Z) :
  binary_round prec emax s mx ex <> S754_nan.
Proof.
  unfold binary_round. destruct (shl_align _ _ _) as [mz ez].
  unfold binary_round_aux.
  pose proof (shr_fexp_nonneg (Z.pos mz) ez loc_Exact ltac:(lia)) as H1.
  destruct (shr_fexp prec emax (Z.pos mz) ez loc_Exact) as [mrs' e'].
  cbn [fst] in H1.
  pose proof (shr_fexp_nonneg _ e' loc_Exact
                (round_nearest_even_nonneg _ (loc_of_shr_record mrs') H1)) as H2.
  destruct (shr_fexp prec emax _ e' loc_Exact) as [mrs'' e''].
  cbn [fst] in H2.
  destruct (shr_m mrs''); [discriminate| |lia].
  destruct (Z.leb _ _); discriminate.
Qed.

Lemma SFeqb_same (x : spec_float) : x <> S754_nan -> SFeqb x x = true.
Proof.
  destruct x as [s|s| |s m e]; unfold SFeqb; cbn; intros H.
  - reflexivity.
  - destruct s; reflexivity.
  - congruence.
  - rewrite Z.compare_refl, Pos.compare_cont_refl. destruct s; reflexivity.
Qed.

(** The difference of two finite doubles is a number: it may be an
    infinity, and it is never NaN. *)
Lemma finite_difference_is_number (a b : num) :
  finite a -> finite b -> is_number (sub b a) = true.
Proof.
  unfold finite, is_number, isNaN, sub. intros Ha Hb.
  rewrite eqb_spec, sub_spec, Bool.negb_involutive. apply SFeqb_same.
  unfold SF64sub.
  destruct (Prim2SF a) as [sa|sa| |sa ma ea]; try contradiction;
    destruct (Prim2SF b) as [sb|sb| |sb mb eb]; try contradiction; cbn.
  - destruct sa, sb; discriminate.
  - discriminate.
  - discriminate.
  - unfold binary_normalize.
    destruct (_ - _); [discriminate|apply binary_round_number..].
Qed.

(** The changes between finite closes are numbers. *)
Lemma finite_closes_changes (closes : list num) :
  Forall finite closes -> Forall (fun d => is_number d = true) (deltas closes).
Proof.
  induction closes as [|a closes IH]; intros H; [constructor|].
  inversion H as [|? ? Ha Hrest]; subst.
  destruct closes as [|b closes]; [constructor|].
  cbn [deltas]. constructor; [|apply IH; exact Hrest].
  inversion Hrest; subst. apply finite_difference_is_number; assumption.
Qed.

Lemma finite_closes_window (closes : list num) (period : nat) :
  Forall finite closes ->
  Forall (fun d => is_number d = true) (window closes period).
Proof.
  intros H. unfold window. apply finite_closes_changes.
  rewrite <- (firstn_skipn (List.length closes - (period + 1)) closes) in H.
  apply Forall_app in H. exact (proj2 H).
Qed.

(** On changes that are numbers, the two sums of the loop are the sum of
    the gains and the sum of the sizes of the losses. *)
Lemma rsi_fold_totals (ds : list num) (g l : num) :
  Forall (fun d => is_number d = true) ds -> unsigned l ->
  rsi_fold ds (g, l)
  = (fold_left add (filter is_gain ds) g, fold_left sub (filter is_loss ds) l).
Proof.
  intros Hds. revert g l. induction Hds as [|d ds Hd _ IH]; intros g l Hl.
  - reflexivity.
  - unfold rsi_fold. cbn [fold_left filter fst snd]. fold (rsi_fold ds).
    destruct (is_gain d) eqn:Hg.
    + rewrite (gain_is_no_loss d Hg). cbn [fold_left]. apply IH. exact Hl.
    + destruct (is_loss d) eqn:Hloss.
      * cbn [fold_left]. apply IH. apply sub_loss_unsigned; assumption.
      * rewrite (sub_zero l d Hl (no_change_is_zero d Hd Hg Hloss)).
        apply IH. exact Hl.
Qed.




(** The arithmetic of the code is that of doubles: after a fall of 1 and a
    rise of 10^20 the average loss is not 0, and the quotient
    [100 / (1 + avgGain / avgLoss)] is so small that taking it away from 100
    gives 100 again. *)
Example RSI_of_a_spike :
  strict_eq (averageLoss Examples.spike_closes 14) 0%float = false /\
  RSI Examples.spike_closes 14 = Number 100%float.
Proof. split; vm_compute; reflexivity. Qed.

End IndicatorFacts.

(** ** The confidence score *)

Module ScoreFacts.

Import AnalysisEngine ScoreSpec.

Lemma filter_success_count (l : list SourceResult) :
  List.length (filter (fun s => String.eqb (status s) "success") l)
  = count_occ string_dec (map status l) "success".
Proof.
  induction l as [|s l IH]; [reflexivity|]. cbn [filter map count_occ].
  destruct (String.eqb_spec (status s) "success") as [e|n];
    destruct (string_dec (status s) "success"); try contradiction; cbn; congruence.
Qed.

(** The number the code rounds is the formula on the features. *)
Lemma confidence_eq_formula (a : AggregatedData) :
  exists c : Q,
    calculateConfidenceScore a = Z.min (Z.max (Math_round c) 0) 100 /\
    (c == score_formula (features a))%Q.
Proof.
  unfold calculateConfidenceScore, score_formula, bonuses, features.
  cbn [successCount totalCount livePricePresent indicatorValuesPresent webContentNonEmpty].
  rewrite filter_success_count.
  eexists. split; [reflexivity|].
  destruct (0 <? Z.of_nat (List.length (sources a)));
    destruct (agg_livePrice a); destruct (enhancedIndicators a);
    destruct (webContent a) as [[|? ?]|];
    rewrite ?inject_Z_plus; cbn [inject_Z]; ring.
Qed.

Lemma Math_round_nearest (x : Q) :
  (inject_Z (Math_round x) - (1 # 2) <= x < inject_Z (Math_round x) + (1 # 2))%Q.
Proof.
  unfold Math_round.
  pose proof (Qfloor_le (x + (1 # 2))) as H1.
  pose proof (Qlt_floor (x + (1 # 2))) as H2.
  rewrite inject_Z_plus in H2. change (inject_Z 1) with 1%Q in H2. split; lra.
Qed.

Lemma Math_round_comp (x y : Q) : (x == y)%Q -> Math_round x = Math_round y.
Proof. intros H. unfold Math_round. apply Qfloor_comp. rewrite H. reflexivity. Qed.

Lemma Math_round_formula (f : Features) :
  Math_round (score_formula f)
  = if 0 <? totalCount f
    then (2 * totalCount f * (50 + bonuses f) + 60 * successCount f + totalCount f)
         / (2 * totalCount f)
    else 50 + bonuses f.
Proof.
  unfold Math_round, score_formula.
  destruct (Z.ltb_spec 0 (totalCount f)) as [Ht|Ht].
  - rewrite Zdiv_Qdiv. apply Qfloor_comp.
    rewrite !inject_Z_plus, !inject_Z_mult.
    assert (~ inject_Z (totalCount f) == 0)%Q.
    { intros C. apply (inject_Z_injective (totalCount f) 0) in C. lia. }
    change (inject_Z 2) with (2#1). change (inject_Z 50) with (50#1).
    change (inject_Z 60) with (60#1). change (inject_Z 30) with (30#1).
    rewrite ?inject_Z_plus. change (inject_Z 50) with (50#1). field. assumption.
  - replace (50 + bonuses f) with (Qfloor (inject_Z (50 + bonuses f) + (1#2))).
    + apply Qfloor_comp. rewrite inject_Z_plus. ring.
    + set (n := 50 + bonuses f).
      assert (E : (inject_Z n + (1#2) == inject_Z (2 * n + 1) / inject_Z 2)%Q).
      { rewrite inject_Z_plus, inject_Z_mult. change (inject_Z 2) with (2#1).
        change (inject_Z 1) with (1#1). field. }
      rewrite (Qfloor_comp _ _ E), <- Zdiv_Qdiv.
      symmetry. apply Z.div_unique with (r := 1); lia.
Qed.

Lemma score_is_closed (a : AggregatedData) :
  calculateConfidenceScore a = score_closed (features a).
Proof.
  destruct (confidence_eq_formula a) as [c [Hs Hc]].
  rewrite Hs, (Math_round_comp _ _ Hc), Math_round_formula. reflexivity.
Qed.

Lemma bonuses_range (f : Features) : 0 <= bonuses f <= 25.
Proof.
  unfold bonuses.
  destruct (livePricePresent f), (indicatorValuesPresent f), (webContentNonEmpty f); lia.
Qed.

Lemma features_counts (a : AggregatedData) :
  0 <= successCount (features a) <= totalCount (features a).
Proof.
  unfold features; cbn [successCount totalCount].
  rewrite <- filter_success_count.
  pose proof (filter_length_le (fun s => String.eqb (status s) "success") (sources a)).
  lia.
Qed.

(** C2. The score is the integer nearest to 50 + 30 * (successCount /
    totalCount) (the ratio only when totalCount > 0) + 10 for a live price
    + 10 for indicator values + 5 for non-empty web content, a half going
    up, clamped to [0, 100]; it depends on nothing else, so that two
    aggregated data with the same features have the same score. *)
Theorem confidence_score_formula (a : AggregatedData) :
  (exists r : Z,
      (inject_Z r - (1 # 2) <= score_formula (features a) < inject_Z r + (1 # 2))%Q /\
      calculateConfidenceScore a = Z.min (Z.max r 0) 100) /\
  (forall b : AggregatedData,
      features b = features a ->
      calculateConfidenceScore b = calculateConfidenceScore a).
Proof.
  split.
  - destruct (confidence_eq_formula a) as [c [Hs Hc]].
    exists (Math_round (score_formula (features a))). split.
    + apply Math_round_nearest.
    + rewrite Hs, (Math_round_comp _ _ Hc). reflexivity.
  - intros b Hf. rewrite !score_is_closed, Hf. reflexivity.
Qed.

(** C9. The score lies in [0, 100], and with the total count, the live
    price, the indicators and the web content fixed it does not decrease
    when the success count increases. *)
Theorem confidence_score_monotone (a : AggregatedData) :
  0 <= calculateConfidenceScore a <= 100 /\
  (forall b : AggregatedData,
      totalCount (features a) = totalCount (features b) ->
      livePricePresent (features a) = livePricePresent (features b) ->
      indicatorValuesPresent (features a) = indicatorValuesPresent (features b) ->
      webContentNonEmpty (features a) = webContentNonEmpty (features b) ->
      successCount (features a) <= successCount (features b) ->
      calculateConfidenceScore a <= calculateConfidenceScore b).
Proof.
  split.
  - rewrite score_is_closed. unfold score_closed. lia.
  - intros b Ht Hl Hi Hw Hs. rewrite !score_is_closed. unfold score_closed, bonuses.
    rewrite <- Ht, <- Hl, <- Hi, <- Hw.
    destruct (Z.ltb_spec 0 (totalCount (features a))) as [Hp|Hp]; [|lia].
    apply Z.min_le_compat_r, Z.max_le_compat_r, Z.div_le_mono; lia.
Qed.

Lemma confidence_score_monotone_witness :
  calculateConfidenceScore
    (Examples.with_sources [Examples.failed_source; Examples.failed_source])
  <= calculateConfidenceScore
       (Examples.with_sources [Examples.ok_source; Examples.failed_source]).
Proof.
  apply (confidence_score_monotone
           (Examples.with_sources [Examples.failed_source; Examples.failed_source]));
    vm_compute; congruence.
Defined.

(** C10. The score is at least 50: its range is [50, 100], and when no
    source succeeded it is exactly 50 plus the bonuses for what is
    present. *)
Theorem confidence_score_at_least_50 (a : AggregatedData) :
  50 <= calculateConfidenceScore a <= 100 /\
  (successCount (features a) = 0 ->
   calculateConfidenceScore a = 50 + bonuses (features a)).
Proof.
  rewrite score_is_closed. unfold score_closed.
  pose proof (bonuses_range (features a)) as Hb.
  pose proof (features_counts a) as Hc.
  destruct (Z.ltb_spec 0 (totalCount (features a))) as [Hp|Hp].
  - set (t := totalCount (features a)) in *. set (s := successCount (features a)) in *.
    set (b := bonuses (features a)) in *.
    assert (H50 : 50 + b <= (2 * t * (50 + b) + 60 * s + t) / (2 * t)).
    { apply Z.div_le_lower_bound; nia. }
    split; [lia|].
    intros Hs0. rewrite Hs0.
    replace ((2 * t * (50 + b) + 60 * 0 + t) / (2 * t)) with (50 + b).
    + lia.
    + apply Z.div_unique with (r := t); lia.
  - split; [lia|]. intros _. lia.
Qed.

Lemma confidence_score_formula_witness :
  calculateConfidenceScore
    (Examples.with_sources [Examples.failed_source; Examples.ok_source])
  = calculateConfidenceScore
      (Examples.with_sources [Examples.ok_source; Examples.failed_source]).
Proof.
  apply (confidence_score_formula
           (Examples.with_sources [Examples.ok_source; Examples.failed_source])).
  reflexivity.
Defined.

Lemma confidence_score_at_least_50_witness :
  calculateConfidenceScore
    (Examples.with_sources [Examples.failed_source; Examples.failed_source]) = 50.
Proof.
  apply (confidence_score_at_least_50
           (Examples.with_sources [Examples.failed_source; Examples.failed_source])).
  reflexivity.
Defined.

End ScoreFacts.

(** ** Computations *)

Module MonadFacts.

Import Effects.

Lemma never_throws_run {A} (m : M A) (h : History) :
  never_throws m -> exists a evs, m h = (Ok a, evs).
Proof.
  intros H. destruct (H h) as [a Ha]. destruct (m h) as [r evs]. cbn in Ha.
  subst r. eauto.
Qed.

Lemma never_throws_ret {A} (a : A) : never_throws (ret a).
Proof. intros h. exists a. reflexivity. Qed.

Lemma never_throws_emit (ev : Event) : never_throws (emit ev).
Proof. intros h. exists tt. reflexivity. Qed.

Lemma never_throws_bind {A B} (m : M A) (k : A -> M B) :
  never_throws m -> (forall a, never_throws (k a)) -> never_throws (bind m k).
Proof.
  intros Hm Hk h. unfold bind.
  destruct (never_throws_run m h Hm) as [a [evs Ha]]. rewrite Ha.
  destruct (never_throws_run (k a) (h ++ evs) (Hk a)) as [b [evs' Hb]].
  rewrite Hb. exists b. reflexivity.
Qed.

Lemma never_throws_try_catch {A} (m : M A) (handler : string -> M A) :
  (forall message, never_throws (handler message)) ->
  never_throws (try_catch m handler).
Proof.
  intros Hh h. unfold try_catch. destruct (m h) as [[a|message] evs].
  - exists a. reflexivity.
  - destruct (never_throws_run (handler message) (h ++ evs) (Hh message))
      as [b [evs' Hb]].
    rewrite Hb. exists b. reflexivity.
Qed.

Lemma never_throws_for_of {A S} (l : list A) (body : S -> A -> M S) (s : S) :
  (forall s x, never_throws (body s x)) -> never_throws (for_of l body s).
Proof.
  intros Hb. revert s. induction l as [|x l IH]; intros s; cbn.
  - apply never_throws_ret.
  - apply never_throws_bind; [apply Hb|exact IH].
Qed.

Lemma emits_ret (P : Event -> Prop) {A} (a : A) : emits P (ret a).
Proof. intros h. constructor. Qed.

Lemma emits_throw (P : Event -> Prop) {A} (message : string) :
  emits P (@throw A message).
Proof. intros h. constructor. Qed.

Lemma emits_call (P : Event -> Prop) {A} (ev : Event) (o : History -> outcome A) :
  P ev -> emits P (call ev o).
Proof. intros H h. cbn. constructor; [exact H|constructor]. Qed.

Lemma emits_emit (P : Event -> Prop) (ev : Event) : P ev -> emits P (emit ev).
Proof. intros H h. cbn. constructor; [exact H|constructor]. Qed.

Lemma emits_pure (P : Event -> Prop) {A} (f : History -> outcome A) :
  emits P (fun h => (f h, [])).
Proof. intros h. constructor. Qed.

Lemma emits_bind (P : Event -> Prop) {A B} (m : M A) (k : A -> M B) :
  emits P m -> (forall a, emits P (k a)) -> emits P (bind m k).
Proof.
  intros Hm Hk h. unfold bind. specialize (Hm h).
  destruct (m h) as [[a|message] evs]; cbn in *; [|exact Hm].
  specialize (Hk a (h ++ evs)). destruct (k a (h ++ evs)) as [r evs'].
  cbn in *. apply Forall_app. split; assumption.
Qed.

Lemma emits_try_catch (P : Event -> Prop) {A} (m : M A) (handler : string -> M A) :
  emits P m -> (forall message, emits P (handler message)) ->
  emits P (try_catch m handler).
Proof.
  intros Hm Hh h. unfold try_catch. specialize (Hm h).
  destruct (m h) as [[a|message] evs]; cbn in *; [exact Hm|].
  specialize (Hh message (h ++ evs)). destruct (handler message (h ++ evs)) as [r evs'].
  cbn in *. apply Forall_app. split; assumption.
Qed.

Lemma emits_for_of (P : Event -> Prop) {A S} (l : list A) (body : S -> A -> M S)
  (s : S) :
  (forall s x, emits P (body s x)) -> emits P (for_of l body s).
Proof.
  intros Hb. revert s. induction l as [|x l IH]; intros s; cbn.
  - apply emits_ret.
  - apply emits_bind; [apply Hb|exact IH].
Qed.

Lemma emits_run (P : Event -> Prop) {A} (m : M A) (h : History) r evs :
  emits P m -> m h = (r, evs) -> Forall P evs.
Proof. intros H e. specialize (H h). rewrite e in H. exact H. Qed.

End MonadFacts.

(** ** The fallback pool *)

Module FallbackFacts.

Import Fallback Order Effects MonadFacts SortFacts.

Section WithEnv.

Variable E : Env.

Lemma emits_fetchOnDemand (name m sym : string) :
  emits provider_event (fetchOnDemand E name m sym).
Proof.
  unfold fetchOnDemand, fetchBinanceOnDemand,
    fetchCoinbaseOnDemand, fetchCoinGeckoOnDemand.
  repeat match goal with
         | |- context [if ?b then _ else _] => destruct b
         end;
    repeat first [ apply emits_try_catch | apply emits_bind | apply emits_ret
                 | apply emits_call; exact I | intros ].
Qed.

Lemma emits_try_providers mp mapping sym names :
  emits provider_event (try_providers E mp mapping sym names).
Proof.
  induction names as [|name names IH]; cbn [try_providers].
  - apply emits_ret.
  - destruct (is_active mp name && mapped mapping name)%bool;
      [|exact IH].
    apply emits_bind; [apply emits_fetchOnDemand|].
    intros [d|]; [apply emits_ret|exact IH].
Qed.

Lemma emits_getUniversalData mp sym :
  emits provider_event (getUniversalData E mp sym).
Proof.
  unfold getUniversalData.
  destruct (JS.lookup sym (universalSymbolMap mp));
    [apply emits_try_providers|apply emits_ret].
Qed.

Lemma never_throws_fetchOnDemand (name m sym : string) :
  never_throws (fetchOnDemand E name m sym).
Proof.
  unfold fetchOnDemand, fetchBinanceOnDemand,
    fetchCoinbaseOnDemand, fetchCoinGeckoOnDemand.
  repeat match goal with
         | |- context [if ?b then _ else _] => destruct b
         end;
    first [ apply never_throws_try_catch; intros; apply never_throws_ret
          | apply never_throws_ret ].
Qed.

Lemma never_throws_getUniversalData mp sym :
  never_throws (getUniversalData E mp sym).
Proof.
  unfold getUniversalData.
  destruct (JS.lookup sym (universalSymbolMap mp)) as [mapping|];
    [|apply never_throws_ret].
  induction (JS.sort_by (priority_of mp) (map fst (providers mp)))
    as [|name names IH]; cbn [try_providers]; [apply never_throws_ret|].
  destruct (is_active mp name && mapped mapping name)%bool;
    [|exact IH].
  apply never_throws_bind; [apply never_throws_fetchOnDemand|].
  intros [d|]; [apply never_throws_ret|exact IH].
Qed.

(** [getBackupData] never throws, and the pool is entered once. *)
Lemma getBackupData_run (fb : UniversalDataFallback) (sym : string)
  (h : History) :
  exists r evs,
    getBackupData E fb sym h = (Ok r, EvGetBackupData sym :: evs) /\
    Forall provider_event evs.
Proof.
  unfold getBackupData, bind, emit. cbn [app].
  destruct (initialized fb); cbn [negb].
  - destruct (never_throws_run _ (h ++ [EvGetBackupData sym])
                (never_throws_getUniversalData (multiProvider fb) sym))
      as [d [evs Hd]].
    pose proof (emits_run _ _ _ _ _
                  (emits_getUniversalData (multiProvider fb) sym) Hd) as Hev.
    rewrite Hd. destruct d as [d|]; unfold now, ret;
      eexists; exists evs; rewrite app_nil_r; split; [reflexivity|exact Hev|reflexivity|exact Hev].
  - exists None, []. split; [reflexivity|constructor].
Qed.

Lemma try_providers_first_non_null (mp : UniversalMultiDataProvider)
  (mapping : list (string * string)) (sym : string) (names : list string)
  (h : History) :
  exists r evs,
    try_providers E mp mapping sym names h = (Ok r, evs) /\
    first_non_null E mapping sym h
      (filter (fun name => (is_active mp name && mapped mapping name)%bool) names)
      r evs.
Proof.
  revert h. induction names as [|name names IH]; intros h.
  - exists None, []. split; [reflexivity|constructor].
  - cbn [try_providers filter].
    destruct (is_active mp name && mapped mapping name)%bool; [|apply IH].
    destruct (never_throws_run _ h
                (never_throws_fetchOnDemand name (mapped_symbol mapping name) sym))
      as [[d|] [evs Hf]]; unfold bind; rewrite Hf.
    + exists (Some d), (evs ++ []). split; [reflexivity|].
      rewrite app_nil_r. apply fnn_hit, Hf.
    + destruct (IH (h ++ evs)) as [r [evs' [Hr Hn]]]. rewrite Hr.
      exists r, (evs ++ evs'). split; [reflexivity|].
      eapply fnn_miss; eassumption.
Qed.

(** C5. The lookup asks the active providers the symbol has a mapping for,
    by ascending priority (strictly ascending when the priorities are
    distinct, as those of the pool are); a provider that is inactive or has
    no mapping is not asked; the first answer that is not [null] is
    returned, from that provider alone, and ends the lookup; the result is
    [null] when the symbol has no mapping or every provider asked answers
    [null].  [getBackupData] never throws: on a pool that is initialized it
    returns that answer in the standard format, and [null] otherwise. *)
Theorem fallback_lookup_order (fb : UniversalDataFallback) (sym : string)
  (h : History) :
  let mp := multiProvider fb in
  (* getUniversalData *)
  match JS.lookup sym (universalSymbolMap mp) with
  | None => getUniversalData E mp sym h = (Ok None, [])
  | Some mapping =>
      (exists r evs,
          getUniversalData E mp sym h = (Ok r, evs) /\
          first_non_null E mapping sym h (candidates mp mapping) r evs) /\
      (forall name,
          In name (candidates mp mapping) <->
          In name (map fst (providers mp)) /\
          is_active mp name = true /\ mapped mapping name = true) /\
      StronglySorted (ascending (priority_of mp)) (candidates mp mapping) /\
      (NoDup (map (priority_of mp) (map fst (providers mp))) ->
       StronglySorted (strictly_ascending (priority_of mp)) (candidates mp mapping))
  end /\
  (* getBackupData *)
  (exists r evs,
      getBackupData E fb sym h = (Ok r, EvGetBackupData sym :: evs) /\
      (initialized fb = false -> r = None /\ evs = []) /\
      (initialized fb = true ->
       exists d, getUniversalData E mp sym (h ++ [EvGetBackupData sym]) = (Ok d, evs) /\
                 r = option_map
                       (fun d => convertToStandardFormat sym d
                                   (Date_now E (h ++ EvGetBackupData sym :: evs))) d)).
Proof.
  intros mp.
  assert (Hsorted : forall mapping,
             StronglySorted (ascending (priority_of mp)) (candidates mp mapping)).
  { intros mapping. apply sorted_filter, sort_by_sorted. }
  assert (Htotal : forall h', exists r evs, getUniversalData E mp sym h' = (Ok r, evs)).
  { intros h'. unfold getUniversalData.
    destruct (JS.lookup sym (universalSymbolMap mp)) as [mapping|].
    - destruct (try_providers_first_non_null mp mapping sym
                  (JS.sort_by (priority_of mp) (map fst (providers mp))) h')
        as [r [evs [Hr _]]]. eauto.
    - exists None, []. reflexivity. }
  split.
  - unfold getUniversalData.
    destruct (JS.lookup sym (universalSymbolMap mp)) as [mapping|]; [|reflexivity].
    split; [|split; [|split]].
    + apply try_providers_first_non_null.
    + intros name. unfold candidates. rewrite filter_In, andb_true_iff.
      split; intros [Hin Hk]; (split; [|exact Hk]).
      * eapply Permutation_in; [symmetry; apply sort_by_perm|exact Hin].
      * eapply Permutation_in; [apply sort_by_perm|exact Hin].
    + apply Hsorted.
    + intros Hnd. apply sorted_filter, sorted_strict; [|apply sort_by_sorted].
      eapply Permutation_NoDup; [|exact Hnd].
      apply Permutation_map, sort_by_perm.
  - unfold getBackupData, bind, emit. cbn [app].
    destruct (initialized fb).
    + cbn [negb].
      destruct (Htotal (h ++ [EvGetBackupData sym])) as [d [evs Hd]].
      subst mp. cbv zeta. rewrite Hd. destruct d as [d|]; unfold now, ret; cbn.
      * exists (Some (convertToStandardFormat sym d
                        (Date_now E ((h ++ [EvGetBackupData sym]) ++ evs)))),
               (evs ++ []).
        rewrite app_nil_r, <- app_assoc. cbn [app].
        split; [reflexivity|]. split; [discriminate|].
        intros _. exists (Some d). split; reflexivity.
      * exists None, (evs ++ []). rewrite app_nil_r.
        split; [reflexivity|]. split; [discriminate|].
        intros _. exists None. split; reflexivity.
    + cbn. exists None, []. split; [reflexivity|].
      split; [auto|discriminate].
Qed.
End WithEnv.

(** The scenario of the specification: P1 inactive, P2 answers X, P3 would
    answer Y; the result is X, and P3 is not asked. *)
Example first_active_provider_wins :
  getUniversalData Examples.two_providers
    (multiProvider Examples.pool_without_binance) "BTCUSDT" []
  = (Ok (Some {| provider := "coinbase"; price := JSNum.of_Z 42000;
                 volume24h := None; change24h := None |}),
     [EvProvider "coinbase" "BTC-USD"]).
Proof. reflexivity. Qed.

Lemma fallback_lookup_order_witness :
  StronglySorted
    (strictly_ascending (priority_of (multiProvider Examples.pool_without_binance)))
    ["coinbase"; "coingecko"].
Proof.
  pose proof (fallback_lookup_order Examples.two_providers
                Examples.pool_without_binance "BTCUSDT" []) as H.
  cbv zeta in H. destruct H as [H _].
  change (JS.lookup "BTCUSDT"
            (universalSymbolMap (multiProvider Examples.pool_without_binance)))
    with (Some [("binance", "BTCUSDT"); ("coinbase", "BTC-USD");
                ("coingecko", "bitcoin")]) in H.
  destruct H as (_ & _ & _ & Hs). apply Hs.
  repeat constructor; cbn; intuition discriminate.
Defined.

End FallbackFacts.

(** ** The planner *)

Module PlannerFacts.

Import SallyBrain.



End PlannerFacts.

(** ** The last question *)

Module MemoryFacts.

Import AnalysisEngine MemoryManager MemorySpec Order SortFacts.

Lemma sorted_latest_first (l : list ChatMessage) (m1 m2 : ChatMessage)
  (rest : list ChatMessage) :
  JS.sort_by (fun m => - msg_timestamp m) l = m1 :: m2 :: rest ->
  Permutation l (m1 :: m2 :: rest) /\
  msg_timestamp m2 <= msg_timestamp m1 /\
  Forall (fun m => msg_timestamp m <= msg_timestamp m2) rest.
Proof.
  intros Hs.
  pose proof (sort_by_perm (fun m => - msg_timestamp m) l) as Hp.
  pose proof (sort_by_sorted (fun m => - msg_timestamp m) l) as Hsorted.
  rewrite Hs in Hp, Hsorted. split; [exact Hp|].
  inversion Hsorted as [|? ? Hs1 H1]; subst.
  inversion Hs1 as [|? ? Hs2 H2]; subst.
  inversion H1 as [|? ? H12 _]; subst. unfold ascending in H12.
  split; [lia|].
  eapply Forall_impl; [|exact H2]. unfold ascending. intros; lia.
Qed.

Lemma isLastQuestionQuery_phrasings (query : string) :
  In (JS.toLowerCase (JS.trim query)) last_question_phrasings ->
  isLastQuestionQuery query = true.
Proof.
  unfold isLastQuestionQuery, last_question_phrasings. cbn [In].
  intros H. repeat (destruct H as [<-|H]; [reflexivity|]). contradiction.
Qed.

(** C6. When the trimmed, lower-cased query is one of the fixed phrasings,
    a chat is given and the engine has its memory, the engine reads the
    messages and answers without planning: [isAnalysis] is false, and the
    answer quotes the second most recent user turn of the chat, or says that
    no previous question was found when the chat has fewer than two user
    turns.  The read of the database is taken to succeed, and the stored
    user turns are not empty, as the chat route stores them. *)
Theorem last_question_bypass (E : Env) (this : Engine) (userQuery : string)
  (options : Options) (h : History) (docs : list ChatMessage) :
  In (JS.toLowerCase (JS.trim userQuery)) last_question_phrasings ->
  JS.truthy_string (chatId options) = true ->
  memory this = true ->
  db_chatMessages E h = Ok docs ->
  user_turns_not_empty docs ->
  let users := filter (is_user_turn (chatId options)) docs in
  exists text,
    handleUserQuery E this userQuery options h
    = (Ok {| isAnalysis := false; answer := text; dataSources := None;
             hasLivePrice := None; answer_confidenceScore := None |},
       [EvFindMessages (chatId options)]) /\
    ((List.length users < 2)%nat ->
     text = "No previous question found in this chat.") /\
    ((2 <= List.length users)%nat ->
     exists m1 m2 rest,
       Permutation users (m1 :: m2 :: rest) /\
       msg_timestamp m2 <= msg_timestamp m1 /\
       Forall (fun m => msg_timestamp m <= msg_timestamp m2) rest /\
       text = previous_question (content m2)).
Proof.
  intros Hq Hchat Hmem Hdb Hwf users.
  apply isLastQuestionQuery_phrasings in Hq.
  unfold handleUserQuery. rewrite Hq, Hchat, Hmem. cbn [andb].
  unfold getLastUserMessage, find_latest, try_catch, bind, call, ret.
  rewrite Hdb. cbn [app].
  fold (is_user_turn (chatId options)). fold users.
  pose proof (sort_by_perm (fun m => - msg_timestamp m) users) as Hperm.
  destruct (JS.sort_by (fun m => - msg_timestamp m) users) as [|m1 [|m2 rest]] eqn:Hs.
  - eexists. split; [reflexivity|]. split; [reflexivity|].
    intros Hlen. apply Permutation_length in Hperm. cbn in Hperm. lia.
  - eexists. split; [reflexivity|]. split; [reflexivity|].
    intros Hlen. apply Permutation_length in Hperm. cbn in Hperm. lia.
  - unfold cursor_limit. cbn [firstn nth_error].
    assert (Hm2 : content m2 <> EmptyString).
    { assert (Hin : In m2 users).
      { eapply Permutation_in; [symmetry; exact Hperm|]. right; left; reflexivity. }
      apply filter_In in Hin. destruct Hin as [Hin Hu].
      unfold user_turns_not_empty in Hwf.
      rewrite Forall_forall in Hwf. apply (Hwf m2 Hin).
      unfold is_user_turn in Hu. apply andb_true_iff in Hu.
      apply String.eqb_eq, Hu. }
    destruct (content m2) as [|c s] eqn:Hc; [contradiction|]. cbn [JS.truthy_string].
    eexists. split; [reflexivity|]. split.
    + intros Hlen. apply Permutation_length in Hperm. cbn in Hperm. lia.
    + intros _. exists m1, m2, rest.
      destruct (sorted_latest_first users m1 m2 rest Hs) as [Hp [H12 Hrest]].
      repeat split; try assumption.
      unfold previous_question. rewrite Hc. reflexivity.
Qed.

(** The scenario of the specification: the user turns "what's ETH price" and
    then "analyze BTC" are stored; the answer quotes "what's ETH price". *)
Example what_did_i_ask_just_now :
  handleUserQuery (Examples.world (fun _ => Throw "x") (fun _ => Throw "x")
                     Examples.two_turns)
    Examples.engine "What did I ask just now" Examples.chat_1 []
  = (Ok {| isAnalysis := false;
           answer := previous_question "what's ETH price";
           dataSources := None; hasLivePrice := None;
           answer_confidenceScore := None |},
     [EvFindMessages "chat-1"]).
Proof. reflexivity. Qed.

Lemma last_question_bypass_witness :
  exists text,
    handleUserQuery (Examples.world (fun _ => Throw "x") (fun _ => Throw "x")
                       Examples.two_turns)
      Examples.engine "What did I ask just now" Examples.chat_1 []
    = (Ok {| isAnalysis := false; answer := text; dataSources := None;
             hasLivePrice := None; answer_confidenceScore := None |},
       [EvFindMessages "chat-1"]).
Proof.
  destruct (last_question_bypass
              (Examples.world (fun _ => Throw "x") (fun _ => Throw "x")
                 Examples.two_turns)
              Examples.engine "What did I ask just now" Examples.chat_1 []
              Examples.two_turns) as [text [H _]].
  - cbn. tauto.
  - reflexivity.
  - reflexivity.
  - reflexivity.
  - repeat constructor; discriminate.
  - exists text. exact H.
Defined.

End MemoryFacts.

(** ** The aggregator *)

Module AggregatorFacts.

Import AnalysisEngine Effects AggregatorSpec MonadFacts FallbackFacts.

Section WithEnv.

Variable E : Env.
Variable this : Engine.

Lemma count_provider_events (p : Event -> bool) (evs : list Event) :
  (forall name m, p (EvProvider name m) = false) ->
  Forall provider_event evs -> filter p evs = [].
Proof.
  intros Hp H. induction H as [|ev evs Hev _ IH]; [reflexivity|].
  destruct ev; try contradiction. cbn. rewrite Hp. exact IH.
Qed.

(** X28. When a Bybit fetch that has parameters fails, its failed entry is
    appended.  If the [dataType] is ticker-class, the fallback pool is then
    asked once for the symbol of the request, and a [fallback] entry with
    status [success] follows when the pool returns data; when the pool
    returns [null] nothing more is appended.  A failed fetch that is not
    ticker-class makes no call and appends no other entry. *)
Theorem bybit_step_failed_fetch (aggregatedData : AggregatedData)
  (dataType : string) (params : Params) (h : History) (message : string)
  (evs : list Event) :
  fetchBybitData E dataType (Some params) h = (Throw message, evs) ->
  exists (fallbackData : option StandardFormat) (evs' : list Event)
         (aggregatedData' : AggregatedData),
    bybit_step E this aggregatedData (dataType, Some params) h
    = (Ok aggregatedData', evs ++ evs') /\
    (if ticker_class dataType
     then Fallback.getBackupData E (universalDataFallback this) (symbol params)
            (h ++ evs) = (Ok fallbackData, evs')
          /\ count is_backup_call evs' = 1%nat
     else fallbackData = None /\ evs' = []) /\
    sources aggregatedData'
    = sources aggregatedData
      ++ failed_market dataType message
         :: match fallbackData with
            | Some d => [fallback_success d]
            | None => []
            end.
Proof.
  intros Hfetch. unfold bybit_step, try_catch at 1, bind. rewrite Hfetch.
  fold (ticker_class dataType). destruct (ticker_class dataType).
  - destruct (getBackupData_run E (universalDataFallback this) (symbol params) (h ++ evs))
      as [r [evs' [Hr Hev]]].
    unfold tryFallbackData, try_catch, bind. rewrite Hr.
    exists r, (EvGetBackupData (symbol params) :: evs').
    destruct r as [d|]; cbn [ret]; eexists; rewrite ?app_nil_r;
      (split; [reflexivity|split; [split; [reflexivity|]|]]).
    + unfold count. cbn. rewrite count_provider_events; auto.
    + cbn. rewrite <- app_assoc. reflexivity.
    + unfold count. cbn. rewrite count_provider_events; auto.
    + reflexivity.
  - exists None, []. eexists. split; [reflexivity|]. split; [split; reflexivity|].
    reflexivity.
Qed.


(** *** The steps of the aggregator *)

Lemma for_of_invariant {A S} (I : S -> Prop) (body : S -> A -> M S) (l : list A) :
  (forall s x h s' evs, I s -> body s x h = (Ok s', evs) -> I s') ->
  forall s h s' evs, I s -> for_of l body s h = (Ok s', evs) -> I s'.
Proof.
  intros Hbody. induction l as [|x l IH]; intros s h s' evs Hs Hrun; cbn in Hrun.
  - unfold ret in Hrun. congruence.
  - unfold bind in Hrun. destruct (body s x h) as [[s1|message] e1] eqn:H1;
      [|discriminate].
    destruct (for_of l body s1 (h ++ e1)) as [r e2] eqn:H2.
    inversion Hrun; subst. eapply IH; [|exact H2]. eapply Hbody; eassumption.
Qed.

Lemma never_throws_tryFallbackData sym a : never_throws (tryFallbackData E this sym a).
Proof. apply never_throws_try_catch. intros. apply never_throws_ret. Qed.

Lemma never_throws_bybit_step a entry :
  safe_entry entry = true -> never_throws (bybit_step E this a entry).
Proof.
  destruct entry as [dataType params]. unfold safe_entry, bybit_step.
  cbn [fst snd]. fold (ticker_class dataType). intros Hsafe.
  apply never_throws_try_catch. intros message.
  destruct (ticker_class dataType); [|apply never_throws_ret].
  destruct params as [p|]; [apply never_throws_tryFallbackData|discriminate].
Qed.

Lemma never_throws_for_of_safe {A S} (l : list A) (body : S -> A -> M S)
  (safe : A -> bool) (s : S) :
  (forall s x, safe x = true -> never_throws (body s x)) ->
  forallb safe l = true -> never_throws (for_of l body s).
Proof.
  intros Hb. revert s. induction l as [|x l IH]; intros s Hl; cbn in *.
  - apply never_throws_ret.
  - apply andb_true_iff in Hl. destruct Hl as [Hx Hl].
    apply never_throws_bind; [apply Hb; exact Hx|].
    intros s'. apply IH. exact Hl.
Qed.

Lemma emits_getBackupData fb sym :
  emits market_event (Fallback.getBackupData E fb sym).
Proof.
  intros h. destruct (getBackupData_run E fb sym h) as [r [evs [Hr Hev]]].
  rewrite Hr. cbn. constructor; [exact I|].
  eapply Forall_impl; [|exact Hev]. intros [] H; try contradiction; exact I.
Qed.

Lemma emits_fetchBybitData dataType params :
  emits market_event (fetchBybitData E dataType params).
Proof.
  unfold fetchBybitData. apply emits_bind.
  - repeat match goal with
           | |- context [if ?b then _ else _] => destruct b
           end; first [apply emits_call; exact I | apply emits_throw].
  - intros response. destruct (negb _); [apply emits_throw|].
    destruct (result response); [apply emits_ret|apply emits_throw].
Qed.

Lemma emits_bybit_step a entry : emits market_event (bybit_step E this a entry).
Proof.
  destruct entry as [dataType params]. unfold bybit_step.
  apply emits_try_catch.
  - apply emits_bind; [apply emits_fetchBybitData|intros; apply emits_ret].
  - intros message. destruct (_ || _)%bool; [|apply emits_ret].
    destruct params as [p|]; [|apply emits_throw].
    unfold tryFallbackData. apply emits_try_catch.
    + apply emits_bind; [apply emits_getBackupData|].
      intros [d|]; apply emits_ret.
    + intros; apply emits_ret.
Qed.

Lemma market_only_push (a : AggregatedData) (s : SourceResult) :
  market_only a -> type s = "bybit" \/ type s = "fallback" ->
  market_only (push_source a s).
Proof.
  intros (H1 & H2 & H3 & H4) Hs. repeat split; try assumption.
  cbn. apply Forall_app. split; [exact H4|]. constructor; [exact Hs|constructor].
Qed.

Lemma bybit_step_market_only a entry h a' evs :
  market_only a -> bybit_step E this a entry h = (Ok a', evs) -> market_only a'.
Proof.
  intros Ha. destruct entry as [dataType params].
  unfold bybit_step, try_catch at 1, bind.
  destruct (fetchBybitData E dataType params h) as [[p|message] e1].
  - cbn. intros Hrun. inversion Hrun; subst.
    apply market_only_push; [|left; reflexivity].
    destruct Ha as (H1 & H2 & H3 & H4). repeat split; assumption.
  - destruct (_ || _)%bool.
    + destruct params as [params|]; [|cbn; discriminate].
      unfold tryFallbackData, try_catch, bind.
      destruct (getBackupData_run E (universalDataFallback this) (symbol params) (h ++ e1))
        as [r [e2 [Hr _]]].
      rewrite Hr. destruct r as [d|]; cbn; intros Hrun; inversion Hrun; subst.
      * apply market_only_push; [|right; reflexivity].
        assert (Hf : market_only (push_source a
                   {| type := "bybit"; resource := dataType; status := "failed";
                      error := Some message |})).
        { apply market_only_push; [exact Ha|left; reflexivity]. }
        destruct Hf as (H1 & H2 & H3 & H4). repeat split; assumption.
      * apply market_only_push; [exact Ha|left; reflexivity].
    + cbn. intros Hrun. inversion Hrun; subst.
      apply market_only_push; [exact Ha|left; reflexivity].
Qed.

(** The live-price lookup catches the error of every API it asks. *)
Lemma try_apis_run (sym : string) (apis : list string) (h : History) :
  exists found evs,
    LivePriceFetcher.try_apis E sym apis h = (Ok found, evs) /\
    Forall price_api_event evs.
Proof.
  revert h. induction apis as [|api apis IH]; intros h; cbn [LivePriceFetcher.try_apis].
  - exists None, []. split; [reflexivity|constructor].
  - unfold bind at 1, try_catch, bind, call.
    destruct (axios_price E api sym h) as [parsed|message].
    + destruct (LivePriceFetcher.usable_price parsed) as [p|]; cbn.
      * eexists. eexists. split; [reflexivity|]. repeat constructor.
      * destruct (IH (h ++ [EvPriceApi api sym])) as [found [evs [Hr Hev]]].
        rewrite Hr. exists found, (EvPriceApi api sym :: evs).
        split; [reflexivity|]. constructor; [exact I|exact Hev].
    + cbn. destruct (IH (h ++ [EvPriceApi api sym])) as [found [evs [Hr Hev]]].
      rewrite Hr. exists found, (EvPriceApi api sym :: evs).
      split; [reflexivity|]. constructor; [exact I|exact Hev].
Qed.

Lemma fetchLivePrice_run (query : string) (h : History) :
  exists found evs,
    LivePriceFetcher.fetchLivePrice E query h = (Ok found, EvFetchLivePrice query :: evs) /\
    Forall price_api_event evs.
Proof.
  unfold LivePriceFetcher.fetchLivePrice, bind, emit. cbn [app].
  destruct (LivePriceFetcher.extractSymbolFromQuery query) as [sym|].
  - destruct (try_apis_run sym LivePriceFetcher.priceAPIs (h ++ [EvFetchLivePrice query]))
      as [found [evs [Hr Hev]]].
    rewrite Hr. exists found, evs. split; [reflexivity|exact Hev].
  - exists None, []. split; [reflexivity|constructor].
Qed.

Lemma livePrice_step_run (query : string) (a : AggregatedData) (h : History) :
  exists found evs a',
    LivePriceFetcher.fetchLivePrice E query h = (Ok found, EvFetchLivePrice query :: evs) /\
    Forall price_api_event evs /\
    livePrice_step E query a h = (Ok a', EvFetchLivePrice query :: evs) /\
    sources a' = sources a ++ live_price_entries found /\
    agg_livePrice a' = match found with Some p => Some p | None => agg_livePrice a end /\
    data a' = data a /\ webContent a' = webContent a /\
    enhancedIndicators a' = enhancedIndicators a.
Proof.
  destruct (fetchLivePrice_run query h) as [found [evs [Hr Hev]]].
  exists found, evs. unfold livePrice_step, try_catch, bind. rewrite Hr.
  destruct found as [p|]; cbn; eexists; rewrite ?app_nil_r;
    repeat split; try reflexivity; try assumption.
Qed.

Lemma searchAndSummarizeWeb_run (query : string) (h : History) :
  exists found,
    SallyBrain.searchAndSummarizeWeb E query h = (Ok found, [EvWebSearch query]).
Proof.
  unfold SallyBrain.searchAndSummarizeWeb, bind, ret. cbn. eexists. reflexivity.
Qed.

Lemma web_loop_run (queries : list string) (a : AggregatedData) (h : History) :
  exists a',
    for_of queries (web_step E) a h = (Ok a', map EvWebSearch queries) /\
    sources a' = sources a ++ map web_success queries /\
    agg_livePrice a' = agg_livePrice a /\ data a' = data a /\
    enhancedIndicators a' = enhancedIndicators a.
Proof.
  revert a h. induction queries as [|q queries IH]; intros a h; cbn [for_of map].
  - exists a. rewrite app_nil_r. repeat split; reflexivity.
  - unfold bind. unfold web_step at 1, try_catch, bind.
    destruct (searchAndSummarizeWeb_run q h) as [found Hf]. rewrite Hf. cbn [ret app].
    match goal with
    | |- context [for_of queries (web_step E) ?a1 ?h1] =>
        destruct (IH a1 h1) as [a' (Hr & Hs & Hl & Hd & Hi)]
    end.
    rewrite Hr. exists a'. split; [reflexivity|].
    rewrite Hs, Hl, Hd, Hi. cbn. rewrite <- app_assoc. repeat split; reflexivity.
Qed.



Lemma market_only_empty : market_only empty_aggregatedData.
Proof. repeat split; constructor. Qed.

(** What a market stage that returns has done. *)
Lemma market_stage_ok (rd : RequiredData) (h : History) (a : AggregatedData)
  (evs : list Event) :
  match bybit rd with
  | Some l => for_of l (bybit_step E this) empty_aggregatedData
  | None => ret empty_aggregatedData
  end h = (Ok a, evs) ->
  Forall market_event evs /\ market_only a.
Proof.
  destruct (bybit rd) as [l|]; intros Hr.
  - split.
    + eapply emits_run; [|exact Hr]. apply emits_for_of. apply emits_bybit_step.
    + eapply for_of_invariant; [|apply market_only_empty|exact Hr].
      intros. eapply bybit_step_market_only; eassumption.
  - inversion Hr; subst. split; [constructor|apply market_only_empty].
Qed.

Lemma market_stage_run (rd : RequiredData) (h : History) :
  market_safe rd = true ->
  exists a evs,
    match bybit rd with
    | Some l => for_of l (bybit_step E this) empty_aggregatedData
    | None => ret empty_aggregatedData
    end h = (Ok a, evs) /\
    Forall market_event evs /\ market_only a.
Proof.
  intros Hsafe.
  assert (Hrun : exists a evs,
             match bybit rd with
             | Some l => for_of l (bybit_step E this) empty_aggregatedData
             | None => ret empty_aggregatedData
             end h = (Ok a, evs)).
  { unfold market_safe in Hsafe. destruct (bybit rd) as [l|].
    - exact (never_throws_run _ h
               (never_throws_for_of_safe l (bybit_step E this) safe_entry
                  empty_aggregatedData
                  (fun a x => never_throws_bybit_step a x) Hsafe)).
    - exists empty_aggregatedData, []. reflexivity. }
  destruct Hrun as (a & evs & Hr). exists a, evs.
  split; [exact Hr|exact (market_stage_ok rd h a evs Hr)].
Qed.

(** A turn of the market loop only throws the [TypeError] of the symbol of
    [null], on a ticker-class request without parameters. *)
Lemma bybit_step_throws a entry h c evs :
  bybit_step E this a entry h = (Throw c, evs) ->
  c = null_symbol_error /\ snd entry = None /\ ticker_class (fst entry) = true.
Proof.
  destruct entry as [dataType params]. unfold bybit_step, try_catch at 1, bind.
  fold (ticker_class dataType). cbn [fst snd].
  destruct (fetchBybitData E dataType params h) as [[p|message] e1];
    [cbn; discriminate|].
  destruct (ticker_class dataType); [|cbn; discriminate].
  destruct params as [params|].
  - destruct (never_throws_run _ (h ++ e1)
                (never_throws_tryFallbackData (symbol params)
                   (push_source a (failed_market dataType message))))
      as (a' & e2 & Hr).
    unfold failed_market in Hr. rewrite Hr. discriminate.
  - cbn. intros Hrun. inversion Hrun. auto.
Qed.

Lemma market_loop_throws entries a h c evs :
  for_of entries (bybit_step E this) a h = (Throw c, evs) ->
  c = null_symbol_error /\
  exists dataType, In (dataType, None) entries /\ ticker_class dataType = true.
Proof.
  revert a h evs. induction entries as [|entry entries IH]; intros a h evs Hrun.
  - discriminate.
  - cbn [for_of] in Hrun. unfold bind in Hrun.
    destruct (bybit_step E this a entry h) as [[a1|message] e1] eqn:H1.
    + destruct (for_of entries (bybit_step E this) a1 (h ++ e1)) as [r e2] eqn:H2.
      inversion Hrun; subst.
      destruct (IH _ _ _ H2) as (Hc & dataType & Hin & Ht).
      split; [exact Hc|]. exists dataType. split; [right; exact Hin|exact Ht].
    + inversion Hrun; subst.
      destruct (bybit_step_throws _ _ _ _ _ H1) as (Hc & Hp & Ht).
      split; [exact Hc|]. exists (fst entry). split; [|exact Ht].
      left. destruct entry as [dataType params]. cbn in *. subst. reflexivity.
Qed.




Lemma filter_web_events_web (queries : list string) :
  filter is_web_search (map EvWebSearch queries) = map EvWebSearch queries.
Proof. induction queries; [reflexivity|cbn; congruence]. Qed.

Lemma filter_type_market (t : string) (l : list SourceResult) :
  t <> "bybit" -> t <> "fallback" ->
  Forall (fun s => type s = "bybit" \/ type s = "fallback") l ->
  filter (has_type t) l = [].
Proof.
  intros H1 H2 H. induction H as [|s l Hs _ IH]; [reflexivity|].
  cbn. unfold has_type at 1.
  destruct (String.eqb_spec (type s) t) as [e|n]; [|exact IH].
  destruct Hs; congruence.
Qed.



End WithEnv.

(** C1, at a failing input.  The plan asks the tickers of BTCUSDT.  The
    fetch fails, the pool is asked and its three providers fail, so that it
    returns [null]: the only entry is that of the failed fetch, and no entry
    of type [fallback] records the failure of the pool, which the [catch]
    of [tryFallbackData] is there to record. *)
Theorem failed_fallback_leaves_no_entry :
  fst (fetchBybitData Examples.offline "tickers" (Some Examples.btc) [])
  = Throw "network unreachable" /\
  Fallback.getBackupData Examples.offline Examples.pool_all_active "BTCUSDT"
    [EvBybit "getTickers" (Some Examples.btc)]
  = (Ok None, [EvGetBackupData "BTCUSDT"; EvProvider "binance" "BTCUSDT";
               EvProvider "coinbase" "BTC-USD"; EvProvider "coingecko" "bitcoin"]) /\
  option_map sources
    (match fst (bybit_step Examples.offline Examples.engine empty_aggregatedData
                  ("tickers", Some Examples.btc) []) with
     | Ok a => Some a
     | Throw _ => None
     end)
  = Some [failed_market "tickers" "network unreachable"].
Proof. repeat split; reflexivity. Qed.

Lemma bybit_step_failed_fetch_witness :
  exists fallbackData evs' aggregatedData',
    bybit_step Examples.two_providers Examples.engine empty_aggregatedData
      ("tickers", Some Examples.btc) []
    = (Ok aggregatedData', [EvBybit "getTickers" (Some Examples.btc)] ++ evs') /\
    sources aggregatedData'
    = failed_market "tickers" "network unreachable"
      :: match fallbackData with
         | Some d => [fallback_success d]
         | None => []
         end.
Proof.
  destruct (bybit_step_failed_fetch Examples.two_providers Examples.engine
              empty_aggregatedData "tickers" Examples.btc []
              "network unreachable" [EvBybit "getTickers" (Some Examples.btc)])
    as (fallbackData & evs' & a' & Hrun & _ & Hsources).
  - reflexivity.
  - exists fallbackData, evs', a'. split; [exact Hrun|exact Hsources].
Defined.

(** C4, at a failing input.  The plan asks for the live price of the query
    "Bitcoin price".  The lookup is made and its three APIs fail, so that it
    returns [null]: the aggregation returns without any entry, and no entry
    of type [live_price] records the failure, which the [catch] of the
    live-price step is there to record. *)
Theorem failed_live_price_leaves_no_entry :
  LivePriceFetcher.fetchLivePrice Examples.offline "Bitcoin price" []
  = (Ok None, [EvFetchLivePrice "Bitcoin price"; EvPriceApi "coinbase" "BITCOIN";
               EvPriceApi "coingecko" "BITCOIN"; EvPriceApi "binance" "BITCOIN"]) /\
  option_map sources
    (match fst (aggregate Examples.offline Examples.engine "Bitcoin price"
                  Examples.live_price_only []) with
     | Ok a => Some a
     | Throw _ => None
     end)
  = Some [].
Proof. split; reflexivity. Qed.


End AggregatorFacts.

(* ------------------------------------------------------------------ *)
(** ** More on the aggregator and on the handler *)

Module EngineFacts.

Import AnalysisEngine Effects AggregatorSpec EngineSpec ScoreSpec FailureSpec.
Import MonadFacts FallbackFacts AggregatorFacts ScoreFacts.

Section WithEnv.

Variable E : Env.
Variable this : Engine.

(** A turn of the market loop appends the entry of its fetch, and at most a
    fallback entry after it. *)
Lemma bybit_step_entry a entry h a' evs :
  bybit_step E this a entry h = (Ok a', evs) ->
  exists new,
    sources a' = sources a ++ new /\
    map resource (filter (has_type "bybit") new) = [fst entry].
Proof.
  destruct entry as [dataType params].
  unfold bybit_step, try_catch at 1, bind.
  destruct (fetchBybitData E dataType params h) as [[p|message] e1].
  - cbn. intros Hrun. inversion Hrun; subst. eexists. split; reflexivity.
  - destruct (_ || _)%bool.
    + destruct params as [params|]; [|cbn; discriminate].
      unfold tryFallbackData, try_catch, bind.
      destruct (getBackupData_run E (universalDataFallback this) (symbol params) (h ++ e1))
        as [r [e2 [Hr _]]].
      rewrite Hr. destruct r as [d|]; cbn; intros Hrun; inversion Hrun; subst; cbn.
      * exists [failed_market dataType message; fallback_success d].
        split; [rewrite <- app_assoc; reflexivity|reflexivity].
      * eexists. split; reflexivity.
    + cbn. intros Hrun. inversion Hrun; subst. eexists. split; reflexivity.
Qed.

Lemma market_loop_entries entries a h a' evs :
  for_of entries (bybit_step E this) a h = (Ok a', evs) ->
  map resource (filter (has_type "bybit") (sources a'))
  = map resource (filter (has_type "bybit") (sources a)) ++ map fst entries.
Proof.
  revert a h evs. induction entries as [|entry entries IH]; intros a h evs Hrun.
  - cbn in Hrun. inversion Hrun; subst. cbn. rewrite app_nil_r. reflexivity.
  - cbn [for_of] in Hrun. unfold bind in Hrun.
    destruct (bybit_step E this a entry h) as [[a1|message] e1] eqn:H1; [|discriminate].
    destruct (for_of entries (bybit_step E this) a1 (h ++ e1)) as [r e2] eqn:H2.
    inversion Hrun; subst.
    destruct (bybit_step_entry _ _ _ _ _ H1) as [new [Hs Hn]].
    rewrite (IH _ _ _ H2), Hs, filter_app, map_app, Hn, <- app_assoc. reflexivity.
Qed.

(** What the web loop stores: a pair per query, with a content that is not
    empty. *)
Lemma web_loop_content (queries : list string) (a : AggregatedData) (h : History)
  (w : list (string * string)) :
  webContent a = Some w ->
  exists a' wc,
    for_of queries (web_step E) a h = (Ok a', map EvWebSearch queries) /\
    webContent a' = Some (w ++ wc) /\
    map fst wc = queries /\
    Forall (fun qc => snd qc <> EmptyString) wc.
Proof.
  revert a h w. induction queries as [|q queries IH]; intros a h w Hw; cbn [for_of map].
  - exists a, []. rewrite app_nil_r. repeat split; [exact Hw|constructor].
  - unfold bind. unfold web_step at 1, try_catch, bind.
    unfold SallyBrain.searchAndSummarizeWeb at 1, bind, ret. cbn [app].
    rewrite Hw.
    set (found := match fetchTavilyContext E q h with
                  | Some c => if JS.truthy_string (JS.trim c) then JS.trim c
                              else "No web results found."
                  | None => "No web results found."
                  end).
    assert (Hfound : found <> EmptyString).
    { unfold found. destruct (fetchTavilyContext E q h) as [c|]; [|discriminate].
      destruct (JS.trim c) eqn:Ht; cbn; [discriminate|]. discriminate. }
    match goal with
    | |- context [for_of queries (web_step E) ?a1 ?h1] =>
        destruct (IH a1 h1 (w ++ [(q, found)]) eq_refl) as (a' & wc & Hr & Hc & Hq & Hn)
    end.
    rewrite Hr. exists a', ((q, found) :: wc).
    split; [reflexivity|]. split; [rewrite Hc, <- app_assoc; reflexivity|].
    split; [cbn; rewrite Hq; reflexivity|].
    constructor; [exact Hfound|exact Hn].
Qed.

(** The run of the aggregator, step by step, once its market stage has
    returned. *)
Lemma aggregate_run (userQuery : string) (rd : RequiredData) (h : History)
  (a1 : AggregatedData) (e1 : list Event) :
  match bybit rd with
  | Some l => for_of l (bybit_step E this) empty_aggregatedData
  | None => ret empty_aggregatedData
  end h = (Ok a1, e1) ->
  exists a4 lives e2 wc calc,
    aggregate E this userQuery rd h
    = (Ok (set_confidenceScore a4 (calculateConfidenceScore a4)),
       e1 ++ e2 ++ map EvWebSearch (plan_queries rd)) /\
    market_only a1 /\
    Forall market_event e1 /\ Forall live_price_event e2 /\
    sources a4 = sources a1 ++ lives ++ map web_success (plan_queries rd) ++ calc /\
    Forall (fun s => type s = "live_price") lives /\
    Forall (fun s => type s = "calculation") calc /\
    webContent a4 = option_map (fun _ => wc) (webSearch rd) /\
    map fst wc = plan_queries rd /\
    Forall (fun qc => snd qc <> EmptyString) wc.
Proof.
  intros H1. unfold aggregate.
  destruct (market_stage_ok E this rd h a1 e1 H1) as (Hev1 & Hm1).
  assert (H2 : exists a2 lives e2,
             (if livePrice rd then livePrice_step E userQuery a1 else ret a1) (h ++ e1)
             = (Ok a2, e2) /\
             sources a2 = sources a1 ++ lives /\
             Forall (fun s => type s = "live_price") lives /\
             webContent a2 = webContent a1 /\ data a2 = data a1 /\
             Forall live_price_event e2).
  { destruct (livePrice rd).
    - destruct (livePrice_step_run E userQuery a1 (h ++ e1))
        as (found & e2 & a2 & _ & Hev2 & H2 & Hs2 & _ & Hd2 & Hw2 & _).
      exists a2, (live_price_entries found), (EvFetchLivePrice userQuery :: e2).
      repeat split; try assumption.
      + destruct found; repeat constructor.
      + constructor; [exact I|].
        eapply Forall_impl; [|exact Hev2]. intros [] Hp; try contradiction; exact I.
    - exists a1, [], []. cbn. rewrite app_nil_r. repeat split; constructor. }
  destruct H2 as (a2 & lives & e2 & H2 & Hs2 & Hl2 & Hw2 & Hd2 & Hev2).
  destruct Hm1 as (Hm_live & Hm_web & Hm_ind & Hm_src).
  assert (H3 : forall h3, exists a3 wc,
             match webSearch rd with
             | Some qs => for_of qs (web_step E) (set_webContent a2 [])
             | None => ret a2
             end h3 = (Ok a3, map EvWebSearch (plan_queries rd)) /\
             sources a3 = sources a2 ++ map web_success (plan_queries rd) /\
             data a3 = data a2 /\
             webContent a3 = option_map (fun _ => wc) (webSearch rd) /\
             map fst wc = plan_queries rd /\
             Forall (fun qc => snd qc <> EmptyString) wc).
  { intros h3. unfold plan_queries. destruct (webSearch rd) as [qs|].
    - destruct (web_loop_run E qs (set_webContent a2 []) h3) as (a3 & Hr & Hs & _ & Hd & _).
      destruct (web_loop_content qs (set_webContent a2 []) h3 [] eq_refl)
        as (a3' & wc & Hr' & Hc & Hq & Hn).
      rewrite Hr in Hr'. inversion Hr'; subst a3'.
      exists a3, wc. repeat split; assumption.
    - exists a2, []. cbn. rewrite app_nil_r. repeat split; try reflexivity.
      + rewrite Hw2. exact Hm_web.
      + constructor. }
  assert (H4 : forall a3 h4, exists a4 calc,
             match technicalIndicators rd, JS.lookup "kline" (data a3) with
             | Some names, Some kline => indicators_step E names kline a3
             | _, _ => ret a3
             end h4 = (Ok a4, []) /\
             sources a4 = sources a3 ++ calc /\
             Forall (fun s => type s = "calculation") calc /\
             webContent a4 = webContent a3).
  { intros a3 h4.
    destruct (technicalIndicators rd) as [names|];
      [destruct (JS.lookup "kline" (data a3)) as [kline|]|].
    - unfold indicators_step, try_catch, bind.
      destruct (calculateRequestedIndicators E kline names) as [r|message]; cbn;
        eexists; eexists; (split; [reflexivity|]); cbn;
        (split; [reflexivity|]); split; try reflexivity; repeat constructor.
    - exists a3, []. cbn. rewrite app_nil_r. repeat split; constructor.
    - exists a3, []. cbn. rewrite app_nil_r. repeat split; constructor. }
  unfold bind at 1. rewrite H1.
  unfold bind at 1. rewrite H2.
  unfold bind at 1.
  destruct (H3 ((h ++ e1) ++ e2)) as (a3 & wc & Hr3 & Hs3 & Hd3 & Hc3 & Hq3 & Hn3).
  rewrite Hr3.
  unfold bind at 1.
  destruct (H4 a3 (((h ++ e1) ++ e2) ++ map EvWebSearch (plan_queries rd)))
    as (a4 & calc & Hr4 & Hs4 & Hc4 & Hw4).
  rewrite Hr4. cbn [ret].
  exists a4, lives, e2, wc, calc.
  rewrite !app_nil_r.
  split; [reflexivity|].
  split; [repeat split; assumption|].
  split; [exact Hev1|]. split; [exact Hev2|].
  split; [rewrite Hs4, Hs3, Hs2, <- !app_assoc; reflexivity|].
  split; [exact Hl2|]. split; [exact Hc4|].
  split; [rewrite Hw4; exact Hc3|]. split; assumption.
Qed.

(** The run of the aggregator for a plan whose market requests are safe. *)
Lemma aggregate_safe_run (userQuery : string) (rd : RequiredData) (h : History) :
  market_safe rd = true ->
  exists a1 e1 a4 lives e2 wc calc,
    aggregate E this userQuery rd h
    = (Ok (set_confidenceScore a4 (calculateConfidenceScore a4)),
       e1 ++ e2 ++ map EvWebSearch (plan_queries rd)) /\
    match bybit rd with
    | Some l => for_of l (bybit_step E this) empty_aggregatedData
    | None => ret empty_aggregatedData
    end h = (Ok a1, e1) /\
    market_only a1 /\
    Forall market_event e1 /\ Forall live_price_event e2 /\
    sources a4 = sources a1 ++ lives ++ map web_success (plan_queries rd) ++ calc /\
    Forall (fun s => type s = "live_price") lives /\
    Forall (fun s => type s = "calculation") calc /\
    webContent a4 = option_map (fun _ => wc) (webSearch rd) /\
    map fst wc = plan_queries rd /\
    Forall (fun qc => snd qc <> EmptyString) wc.
Proof.
  intros Hsafe.
  destruct (market_stage_run E this rd h Hsafe) as (a1 & e1 & H1 & _).
  destruct (aggregate_run userQuery rd h a1 e1 H1)
    as (a4 & lives & e2 & wc & calc & Hrun & Hrest).
  exists a1, e1, a4, lives, e2, wc, calc.
  split; [exact Hrun|]. split; [exact H1|exact Hrest].
Qed.

(** The aggregation only throws out of its market stage. *)
Lemma aggregate_throws (userQuery : string) (rd : RequiredData) (h : History)
  (c : string) (evs : list Event) :
  aggregate E this userQuery rd h = (Throw c, evs) ->
  c = null_symbol_error /\
  Forall market_event evs /\
  exists dataType,
    In (dataType, None) (plan_entries rd) /\ ticker_class dataType = true.
Proof.
  intros Hrun.
  destruct (match bybit rd with
            | Some l => for_of l (bybit_step E this) empty_aggregatedData
            | None => ret empty_aggregatedData
            end h) as [[a1|message] e1] eqn:H1.
  - destruct (aggregate_run userQuery rd h a1 e1 H1)
      as (a4 & lives & e2 & wc & calc & Hok & _).
    rewrite Hok in Hrun. discriminate.
  - unfold aggregate, bind at 1 in Hrun. rewrite H1 in Hrun.
    inversion Hrun; subst.
    assert (Hev : Forall market_event evs).
    { eapply emits_run; [|exact H1].
      destruct (bybit rd); [apply emits_for_of, emits_bybit_step|apply emits_ret]. }
    unfold plan_entries. destruct (bybit rd) as [l|]; [|discriminate].
    destruct (market_loop_throws E this _ _ _ _ _ H1) as (Hc & dataType & Hin & Ht).
    split; [exact Hc|]. split; [exact Hev|]. exists dataType. auto.
Qed.

Lemma score_range (a : AggregatedData) : 50 <= calculateConfidenceScore a <= 100.
Proof.
  rewrite score_is_closed. unfold score_closed.
  pose proof (bonuses_range (features a)) as Hb.
  pose proof (features_counts a) as Hc.
  destruct (Z.ltb_spec 0 (totalCount (features a))) as [Hp|Hp]; [|lia].
  assert (50 + bonuses (features a)
          <= (2 * totalCount (features a) * (50 + bonuses (features a))
              + 60 * successCount (features a) + totalCount (features a))
             / (2 * totalCount (features a))).
  { apply Z.div_le_lower_bound; nia. }
  lia.
Qed.

Lemma filter_type_other (t : string) (l : list SourceResult) (t' : string) :
  t <> t' -> Forall (fun s => type s = t') l -> filter (has_type t) l = [].
Proof.
  intros Hne H. induction H as [|s l Hs _ IH]; [reflexivity|].
  cbn. unfold has_type at 1. rewrite Hs.
  destruct (String.eqb_spec t' t); [congruence|exact IH].
Qed.

Lemma filter_type_web_success (t : string) (queries : list string) :
  filter (has_type t) (map web_success queries)
  = if String.eqb "web" t then map web_success queries else [].
Proof.
  destruct (String.eqb "web" t) eqn:He;
    induction queries as [|q queries IH]; cbn [map filter]; try reflexivity;
    unfold has_type at 1; cbn [type web_success]; rewrite He, IH; reflexivity.
Qed.

Lemma filter_events (p : Event -> bool) (P : Event -> Prop) (evs : list Event) :
  (forall ev, P ev -> p ev = false) -> Forall P evs -> filter p evs = [].
Proof.
  intros Hp H. induction H as [|ev evs Hev _ IH]; [reflexivity|].
  cbn. rewrite (Hp ev Hev). exact IH.
Qed.

(** X1. For a plan none of whose ticker requests has [null] for parameters,
    the aggregation returns whatever fails: its result has one market entry
    per market request of the plan, in the order of the plan, and a
    confidence score between 50 and 100. *)
Theorem aggregate_returns (userQuery : string) (rd : RequiredData)
  (h : History) :
  market_safe rd = true ->
  exists a evs c,
    aggregate E this userQuery rd h = (Ok a, evs) /\
    map resource (filter (has_type "bybit") (sources a)) = map fst (plan_entries rd) /\
    confidenceScore a = Some c /\ 50 <= c <= 100.
Proof.
  intros Hsafe.
  destruct (aggregate_safe_run userQuery rd h Hsafe)
    as (a1 & e1 & a4 & lives & e2 & wc & calc & Hrun & H1 & Hm1 & _ & _ & Hs & Hl & Hc & _).
  eexists. eexists. exists (calculateConfidenceScore a4).
  split; [exact Hrun|]. cbn [set_confidenceScore sources confidenceScore].
  split; [|split; [reflexivity|apply score_range]].
  rewrite Hs, !filter_app, !map_app.
  rewrite (filter_type_other "bybit" lives "live_price"); [|discriminate|exact Hl].
  rewrite (filter_type_other "bybit" calc "calculation"); [|discriminate|exact Hc].
  rewrite filter_type_web_success.
  change (String.eqb "web" "bybit") with false. cbn [map app].
  rewrite !app_nil_r.
  unfold plan_entries. destruct (bybit rd) as [l|].
  - apply market_loop_entries in H1. exact H1.
  - cbn in H1. inversion H1; subst. reflexivity.
Qed.

(** X2. For a plan none of whose ticker requests has [null] for parameters,
    every web search of the plan is made and recorded as a success, in the
    order of the plan, with a content that is not empty: a search that
    finds nothing is stored as "No web results found." and never as a
    failure. *)
Theorem web_searches_always_succeed (userQuery : string) (rd : RequiredData)
  (h : History) (queries : list string) :
  market_safe rd = true ->
  webSearch rd = Some queries ->
  exists a evs wc,
    aggregate E this userQuery rd h = (Ok a, evs) /\
    filter (has_type "web") (sources a) = map web_success queries /\
    filter is_web_search evs = map EvWebSearch queries /\
    webContent a = Some wc /\
    map fst wc = queries /\
    Forall (fun qc => snd qc <> EmptyString) wc.
Proof.
  intros Hsafe Hq.
  destruct (aggregate_safe_run userQuery rd h Hsafe)
    as (a1 & e1 & a4 & lives & e2 & wc & calc & Hrun & H1 & Hm1 & Hev1 & Hev2 & Hs & Hl & Hc & Hw & Hf & Hn).
  assert (Hqs : plan_queries rd = queries) by (unfold plan_queries; rewrite Hq; reflexivity).
  rewrite Hqs in *. rewrite Hq in Hw. cbn in Hw.
  eexists. eexists. exists wc. split; [exact Hrun|].
  cbn [set_confidenceScore sources webContent].
  split; [|split; [|split; [exact Hw|split; assumption]]].
  - destruct Hm1 as (_ & _ & _ & Hm_src).
    rewrite Hs, !filter_app.
    rewrite (filter_type_market "web"); [|discriminate|discriminate|exact Hm_src].
    rewrite (filter_type_other "web" lives "live_price"); [|discriminate|exact Hl].
    rewrite (filter_type_other "web" calc "calculation"); [|discriminate|exact Hc].
    rewrite filter_type_web_success.
    change (String.eqb "web" "web") with true. cbn [app]. rewrite app_nil_r. reflexivity.
  - rewrite !filter_app.
    rewrite (filter_events is_web_search market_event e1);
      [|intros []; cbn; tauto|exact Hev1].
    rewrite (filter_events is_web_search live_price_event e2);
      [|intros []; cbn; tauto|exact Hev2].
    apply filter_web_events_web.
Qed.

Lemma no_last_question_without_memory (query : string) (options : Options) :
  with_memory this options = false ->
  (isLastQuestionQuery query && JS.truthy_string (chatId options)
   && memory this)%bool = false.
Proof.
  unfold with_memory.
  destruct (isLastQuestionQuery query), (JS.truthy_string (chatId options)),
    (memory this); cbn; congruence.
Qed.

(** The handler up to its plan, when it loads no memory. *)
Lemma handleUserQuery_without_memory (query : string) (options : Options)
  (h : History) :
  with_memory this options = false ->
  handleUserQuery E this query options h
  = try_catch
      (bind (SallyBrain.createDynamicDataPlan E (query_without_memory query))
         (fun plan =>
            if isCasual plan then
              ret {| isAnalysis := false; answer := response plan;
                     dataSources := None; hasLivePrice := None;
                     answer_confidenceScore := None |}
            else
              bind (aggregate E this query (required_of plan))
                (fun aggregatedData =>
                   bind (SallyBrain.generateFinalAnalysis E
                           (query_without_memory query))
                     (fun finalResponse =>
                        ret {| isAnalysis := true; answer := finalResponse;
                               dataSources := Some (sources aggregatedData);
                               hasLivePrice :=
                                 Some (is_some (agg_livePrice aggregatedData));
                               answer_confidenceScore :=
                                 confidenceScore aggregatedData |}))))
      (fun message => throw ("Dynamic Analysis failed: " ++ message)%string) h.
Proof.
  intros Hm. unfold handleUserQuery.
  rewrite (no_last_question_without_memory query options Hm).
  unfold with_memory in Hm. rewrite Hm. cbn [andb].
  unfold try_catch, bind, ret, query_without_memory, required_of, is_some.
  cbn [summary facts app]. rewrite !app_nil_r.
  destruct (SallyBrain.createDynamicDataPlan E _ h) as [[plan|m] e0]; [|reflexivity].
  destruct (isCasual plan); [reflexivity|].
  destruct (aggregate E this query _ (h ++ e0)) as [[a|m] e1]; [|reflexivity].
  destruct (SallyBrain.generateFinalAnalysis E _ ((h ++ e0) ++ e1)) as [[t|m] e2];
    cbn; rewrite ?app_nil_r; reflexivity.
Qed.

(** X3. Without memory, a query that is only a greeting is answered with the
    greeting of the planner, and no call leaves the process: neither the
    planning oracle nor any fetch. *)
Theorem greeting_makes_no_call (query : string) (options : Options)
  (h : History) :
  with_memory this options = false ->
  SallyBrain.isCasualOnly query = true ->
  handleUserQuery E this query options h
  = (Ok {| isAnalysis := false; answer := SallyBrain.casual_greeting;
           dataSources := None; hasLivePrice := None;
           answer_confidenceScore := None |}, []).
Proof.
  intros Hm Hc. rewrite (handleUserQuery_without_memory _ _ _ Hm).
  unfold try_catch, bind, SallyBrain.createDynamicDataPlan, query_without_memory.
  cbn [userQuery recentContext List.length]. rewrite Hc. reflexivity.
Qed.

(** X4. Without memory, when the planning oracle answers a casual plan to an
    ASCII query that is not a greeting, its response is the answer, and the
    oracle call is the only call made: no fetch follows. *)
Theorem casual_plan_makes_no_fetch (query : string) (options : Options)
  (h : History) (plan : Plan) :
  JS.is_ascii query = true ->
  with_memory this options = false ->
  SallyBrain.isCasualOnly query = false ->
  llm_plan E (query_without_memory query) h = Ok plan ->
  isCasual plan = true ->
  handleUserQuery E this query options h
  = (Ok {| isAnalysis := false; answer := response plan;
           dataSources := None; hasLivePrice := None;
           answer_confidenceScore := None |},
     [EvPlanningOracle query]).
Proof.
  intros _ Hm Hc Hplan Hcasual. rewrite (handleUserQuery_without_memory _ _ _ Hm).
  unfold try_catch, bind, SallyBrain.createDynamicDataPlan.
  change (userQuery (query_without_memory query)) with query.
  rewrite Hc. cbn [andb]. unfold try_catch, call. rewrite Hplan, Hcasual.
  reflexivity.
Qed.

(** X5. Without memory, when the planning oracle answers, to an ASCII query
    that is not a greeting, a plan that is not casual and none of whose
    ticker requests has [null] for parameters, the handler runs the
    aggregation of the plan, which returns, and then asks for the final
    analysis.  Its text is the answer, with the sources and the score of
    the aggregation; its failure is rethrown as
    "Dynamic Analysis failed: ...", after all the fetches were made. *)
Theorem analysis_answer (query : string) (options : Options) (h : History)
  (plan : Plan) :
  JS.is_ascii query = true ->
  with_memory this options = false ->
  SallyBrain.isCasualOnly query = false ->
  llm_plan E (query_without_memory query) h = Ok plan ->
  isCasual plan = false ->
  market_safe (required_of plan) = true ->
  exists a evs c,
    aggregate E this query (required_of plan) (h ++ [EvPlanningOracle query])
    = (Ok a, evs) /\
    confidenceScore a = Some c /\ 50 <= c <= 100 /\
    handleUserQuery E this query options h
    = (match llm_text E (EvFinalAnalysis query)
               (h ++ EvPlanningOracle query :: evs) with
       | Ok text =>
           Ok {| isAnalysis := true; answer := text;
                 dataSources := Some (sources a);
                 hasLivePrice := Some (is_some (agg_livePrice a));
                 answer_confidenceScore := Some c |}
       | Throw message => Throw ("Dynamic Analysis failed: " ++ message)%string
       end,
       EvPlanningOracle query :: evs ++ [EvFinalAnalysis query]).
Proof.
  intros _ Hm Hc Hplan Hcasual Hsafe.
  destruct (aggregate_safe_run query (required_of plan)
              (h ++ [EvPlanningOracle query]) Hsafe)
    as (a1 & e1 & a4 & lives & e2 & wc & calc & Hrun & _).
  set (evs := e1 ++ e2 ++ map EvWebSearch (plan_queries (required_of plan))) in *.
  eexists. exists evs, (calculateConfidenceScore a4).
  split; [exact Hrun|]. split; [reflexivity|]. split; [apply score_range|].
  rewrite (handleUserQuery_without_memory _ _ _ Hm).
  unfold try_catch at 1, bind at 1, SallyBrain.createDynamicDataPlan.
  change (userQuery (query_without_memory query)) with query.
  rewrite Hc. cbn [andb]. unfold try_catch at 1, call. rewrite Hplan, Hcasual.
  unfold bind at 1. rewrite Hrun.
  unfold bind, SallyBrain.generateFinalAnalysis, call, ret.
  change (userQuery (query_without_memory query)) with query.
  replace ((h ++ [EvPlanningOracle query]) ++ evs)
    with (h ++ EvPlanningOracle query :: evs) by (rewrite <- app_assoc; reflexivity).
  destruct (llm_text E (EvFinalAnalysis query) _) as [text|message];
    cbn; rewrite ?app_nil_r; reflexivity.
Qed.

(** X6. A [dataType] without client method is refused before any request is
    sent.  For the others exactly one request is sent, and data is returned
    only from an envelope whose [retCode] is 0 and that has a [result]. *)
Theorem fetchBybitData_requests (dataType : string) (params : option Params)
  (h : History) :
  (supported dataType = false ->
   fetchBybitData E dataType params h
   = (Throw ("Unsupported Bybit dataType: " ++ dataType)%string, [])) /\
  (supported dataType = true ->
   exists method,
     snd (fetchBybitData E dataType params h) = [EvBybit method params] /\
     forall p, fst (fetchBybitData E dataType params h) = Ok p ->
               exists envelope r,
                 bybitClient E method params h = Ok envelope /\
                 retCode envelope = 0 /\ result envelope = Some r).
Proof.
  unfold supported, fetchBybitData.
  assert (Hcall : forall method,
             exists m,
               snd (bind (bybit_method E method params)
                      (fun response =>
                         if negb (retCode response =? 0)
                         then throw ("Bybit API Error for " ++ dataType ++ ": "
                                     ++ retMsg response)%string
                         else match result response with
                              | None => throw "Cannot read properties of undefined (reading 'list')"
                              | Some r => ret match list_ r with
                                              | Some rows => PList rows
                                              | None => PObject (body_ r)
                                              end
                              end) h)
               = [EvBybit m params] /\
               forall p,
                 fst (bind (bybit_method E method params)
                        (fun response =>
                           if negb (retCode response =? 0)
                           then throw ("Bybit API Error for " ++ dataType ++ ": "
                                       ++ retMsg response)%string
                           else match result response with
                                | None => throw "Cannot read properties of undefined (reading 'list')"
                                | Some r => ret match list_ r with
                                                | Some rows => PList rows
                                                | None => PObject (body_ r)
                                                end
                                end) h) = Ok p ->
                 exists envelope r,
                   bybitClient E m params h = Ok envelope /\
                   retCode envelope = 0 /\ result envelope = Some r).
  { intros method. exists method. unfold bind, bybit_method, call.
    destruct (bybitClient E method params h) as [envelope|message] eqn:Hc.
    - destruct (Z.eqb_spec (retCode envelope) 0) as [Hz|Hz]; cbn [negb].
      + destruct (result envelope) as [r|] eqn:Hr; cbn.
        * split; [reflexivity|]. intros p _. exists envelope, r. auto.
        * split; [reflexivity|]. discriminate.
      + cbn. split; [reflexivity|]. discriminate.
    - cbn. split; [reflexivity|]. discriminate. }
  destruct (JS.startsWith dataType "kline");
    [|destruct (String.eqb dataType "tickers");
      [|destruct (String.eqb dataType "fundingRateHistory");
        [|destruct (String.eqb dataType "longShortRatio")]]];
    cbn [orb]; (split; [try discriminate|try (intros _; apply Hcall)]).
  - intros _. reflexivity.
  - discriminate.
Qed.

Lemma assign_length {A} (k : string) (v : A) (o : list (string * A)) :
  (List.length (JS.assign k v o) <= S (List.length o))%nat.
Proof.
  induction o as [|[k' v'] o IH]; cbn; [lia|].
  destruct (String.eqb k k'); cbn; lia.
Qed.

Lemma calculate_indicator_unrecognized closes klines results indicator :
  recognized indicator = false ->
  calculate_indicator E closes klines results indicator = results.
Proof.
  unfold recognized, calculate_indicator. cbv zeta.
  destruct (JS.startsWith (JS.toUpperCase indicator) "SMA"); [discriminate|].
  destruct (JS.startsWith (JS.toUpperCase indicator) "EMA"); [discriminate|].
  destruct (JS.startsWith (JS.toUpperCase indicator) "RSI"); [discriminate|].
  destruct (String.eqb (JS.toUpperCase indicator) "MACD"); [discriminate|].
  destruct (String.eqb (JS.toUpperCase indicator) "VWAP"); [discriminate|].
  destruct (String.eqb (JS.toUpperCase indicator) "BOLLINGERBANDS"); [discriminate|].
  destruct (String.eqb (JS.toUpperCase indicator) "BOLLINGER BANDS"); [discriminate|].
  destruct (JS.startsWith (JS.toUpperCase indicator) "HMA"); [discriminate|].
  reflexivity.
Qed.

Lemma calculate_indicator_length closes klines results indicator :
  (List.length (calculate_indicator E closes klines results indicator)
   <= List.length results + (if recognized indicator then 1 else 0))%nat.
Proof.
  destruct (recognized indicator) eqn:Hr.
  - unfold calculate_indicator. cbv zeta.
    repeat match goal with
           | |- context [if ?b then _ else _] => destruct b
           end;
      try (eapply Nat.le_trans; [apply assign_length|lia]); lia.
  - rewrite calculate_indicator_unrecognized by exact Hr. lia.
Qed.

(** X7. On the list of candles the indicators never throw, whatever the
    names asked, the names being ASCII and of at most 18 characters: a name
    that is not recognized is skipped and leaves the other results as they
    are, and at most one value is stored per name that is recognized. *)
Theorem unknown_indicators_are_skipped (rows : list (list string))
  (before after : list string) (unknown : string) :
  forallb plain_name (before ++ unknown :: after) = true ->
  recognized unknown = false ->
  exists results,
    calculateRequestedIndicators E (PList rows) (before ++ unknown :: after)
    = Ok results /\
    calculateRequestedIndicators E (PList rows) (before ++ after) = Ok results /\
    (List.length results <= List.length (filter recognized (before ++ after)))%nat.
Proof.
  intros _ Hu. unfold calculateRequestedIndicators. cbv zeta.
  eexists. split; [|split; [reflexivity|]].
  - rewrite !fold_left_app. cbn [fold_left].
    rewrite calculate_indicator_unrecognized by exact Hu. reflexivity.
  - generalize (before ++ after). intros names.
    set (closes := map _ (rev rows)). set (klines := rev rows).
    assert (Hgen : forall results,
               (List.length (fold_left (calculate_indicator E closes klines) names results)
                <= List.length results + List.length (filter recognized names))%nat).
    { induction names as [|n names IH]; intros results; cbn [fold_left filter].
      - cbn. lia.
      - eapply Nat.le_trans; [apply IH|].
        pose proof (calculate_indicator_length closes klines results n) as Hl.
        destruct (recognized n); cbn [List.length]; lia. }
    apply (Hgen []).
Qed.

Lemma bind_run_throws {A B} (m : M A) (k : A -> M B) (h : History) (c : string)
  (evs : list Event) :
  bind m k h = (Throw c, evs) ->
  m h = (Throw c, evs)
  \/ exists a e e',
      m h = (Ok a, e) /\ k a (h ++ e) = (Throw c, e') /\ evs = e ++ e'.
Proof.
  unfold bind. destruct (m h) as [[a|c'] e].
  - destruct (k a (h ++ e)) as [r e'] eqn:Hk. intros H. inversion H; subst.
    right. exists a, e, e'. auto.
  - intros H. left. inversion H. reflexivity.
Qed.

Lemma try_catch_rethrow_run {A} (m : M A) (f : string -> string) (h : History)
  (message : string) (evs : list Event) :
  try_catch m (fun c => throw (f c)) h = (Throw message, evs) ->
  exists c, message = f c /\ m h = (Throw c, evs).
Proof.
  unfold try_catch, throw. destruct (m h) as [[a|c] e]; intros H.
  - discriminate.
  - inversion H. rewrite app_nil_r. eauto.
Qed.

Lemma find_latest_throws_run (keep : ChatMessage -> bool) (n : nat) (ev : Event)
  (h : History) (c : string) (evs : list Event) :
  MemoryManager.find_latest E keep n ev h = (Throw c, evs) ->
  db_chatMessages E h = Throw c /\ evs = [ev].
Proof.
  unfold MemoryManager.find_latest, bind, call, ret.
  destruct (db_chatMessages E h); cbn; intros H; inversion H; auto.
Qed.

(** Where a plan of the planner comes from: the greeting, the oracle, or the
    rule-based fallback. *)
Lemma createDynamicDataPlan_run (queryObj : EnhancedQuery) (h : History)
  (plan : Plan) (evs : list Event) :
  SallyBrain.createDynamicDataPlan E queryObj h = (Ok plan, evs) ->
  isCasual plan = true
  \/ (evs = [EvPlanningOracle (userQuery queryObj)] /\
      llm_plan E queryObj h = Ok plan)
  \/ plan = SallyBrain.createFallbackPlan (userQuery queryObj).
Proof.
  unfold SallyBrain.createDynamicDataPlan.
  destruct (_ && _)%bool.
  - intros H. inversion H. left. reflexivity.
  - unfold try_catch, call, ret.
    destruct (llm_plan E queryObj h) as [p|c]; intros H; inversion H; subst; auto.
Qed.

Lemma fallback_plan_is_safe (query : string) :
  market_safe (required_of (SallyBrain.createFallbackPlan query)) = true.
Proof.
  unfold SallyBrain.createFallbackPlan, required_of. cbv zeta. cbn [requiredData].
  destruct (_ || _)%bool; [reflexivity|].
  destruct (_ || _)%bool; unfold market_safe, safe_entry; cbn [bybit forallb fst snd];
    rewrite ?Bool.orb_true_r; reflexivity.
Qed.

Lemma safe_plan_has_no_null_request (rd : RequiredData) (dataType : string) :
  market_safe rd = true ->
  In (dataType, None) (plan_entries rd) ->
  ticker_class dataType = true ->
  False.
Proof.
  unfold market_safe, plan_entries. destruct (bybit rd) as [l|]; [|intros _ []].
  intros Hs Hin Ht. rewrite forallb_forall in Hs. specialize (Hs _ Hin).
  unfold safe_entry in Hs. cbn [fst snd] in Hs. rewrite Ht in Hs. discriminate.
Qed.

Lemma handler_failure_later (query : string) (options : Options) (h : History)
  (e evs : list Event) (cause : string) :
  handler_failure E query options (h ++ e) evs cause ->
  handler_failure E query options h (e ++ evs) cause.
Proof.
  intros [(asked & ev & -> & H)|(Hc & asked & fetches & -> & Hf & H)].
  - left. exists (e ++ asked), ev. rewrite <- !app_assoc in *. auto.
  - right. split; [exact Hc|]. exists (e ++ asked), fetches.
    rewrite <- !app_assoc in *. auto.
Qed.

Lemma handler_failure_call (query : string) (options : Options) (h : History)
  (ev : Event) (cause : string) :
  failed_call E query options h ev cause ->
  handler_failure E query options h [ev] cause.
Proof.
  intros H. left. exists [], ev. rewrite app_nil_r. auto.
Qed.

Lemma never_throws_createDynamicDataPlan (queryObj : EnhancedQuery) :
  never_throws (SallyBrain.createDynamicDataPlan E queryObj).
Proof.
  unfold SallyBrain.createDynamicDataPlan.
  destruct (_ && _)%bool; [apply never_throws_ret|].
  apply never_throws_try_catch. intros. apply never_throws_ret.
Qed.

Lemma update_memory_run (query chat : string) (recent : list Turn) (h : History) :
  update_memory E query chat recent h
  = (Ok tt,
     match recent with [] => [] | _ => [EvSummarize; EvExtractFacts] end
     ++ [EvUpsertChatMemory chat]).
Proof.
  unfold update_memory, SallyBrain.summarizeConversationForMemory,
    SallyBrain.extractFacts, MemoryManager.upsertChatMemory.
  destruct recent as [|turn recent]; unfold try_catch, bind, call, ret; cbn.
  - destruct (db_upsertChatMemory E chat _ _) as [[]|]; reflexivity.
  - destruct (llm_text E EvSummarize h); cbn;
      destruct (llm_text E EvExtractFacts _); cbn;
      try destruct (parse_facts E _); cbn;
      destruct (db_upsertChatMemory E chat _ _) as [[]|]; reflexivity.
Qed.

(** X22. The update of the long-term memory is best effort: it never
    throws, whatever fails in it.  On an empty recent context it asks no
    oracle and only writes; otherwise it asks for the summary and then for
    the facts, also when the summary failed, and then writes once. *)
Theorem memory_update_is_best_effort (query chat : string) (recent : list Turn)
  (h : History) :
  update_memory E query chat recent h
  = (Ok tt,
     match recent with [] => [] | _ => [EvSummarize; EvExtractFacts] end
     ++ [EvUpsertChatMemory chat]).
Proof. exact (update_memory_run query chat recent h). Qed.

(** X23. The handler only fails with a message "Dynamic Analysis failed: "
    followed by a cause.  Either the last call of the run is a read of the
    database or the final analysis, and the cause is its failure on the
    history of the run; or the cause is the [TypeError] of the symbol of
    [null]: the planning oracle answered in this run a plan with a
    ticker-class request whose parameters are [null], and only calls for
    market data followed.  A failure of the planner, of a fetch with
    parameters, of an indicator or of the memory update never fails the
    answer. *)
Theorem handler_failure_cause (query : string) (options : Options)
  (h : History) (message : string) (evs : list Event) :
  handleUserQuery E this query options h = (Throw message, evs) ->
  exists cause,
    message = ("Dynamic Analysis failed: " ++ cause)%string /\
    handler_failure E query options h evs cause.
Proof.
  intros H. unfold handleUserQuery in H.
  apply (try_catch_rethrow_run _ (fun c => ("Dynamic Analysis failed: " ++ c)%string))
    in H.
  destruct H as (c & -> & H). exists c. split; [reflexivity|].
  destruct (isLastQuestionQuery query && JS.truthy_string (chatId options)
            && memory this)%bool.
  - unfold MemoryManager.getLastUserMessage in H.
    apply bind_run_throws in H. destruct H as [H|(a & e & e' & _ & H & _)];
      [|discriminate].
    apply bind_run_throws in H. destruct H as [H|(a & e & e' & _ & H & _)];
      [|discriminate].
    apply find_latest_throws_run in H. destruct H as [H ->].
    apply handler_failure_call. left. auto.
  - cbv zeta in H.
    apply bind_run_throws in H. destruct H as [H|(recent & e1 & r1 & _ & H & ->)].
    { destruct (memory this && JS.truthy_string (chatId options))%bool;
        [|discriminate].
      unfold MemoryManager.getRecentMessages in H.
      apply bind_run_throws in H. destruct H as [H|(a & e & e' & _ & H & _)];
        [|discriminate].
      apply find_latest_throws_run in H. destruct H as [H ->].
      apply handler_failure_call. left. auto. }
    apply handler_failure_later. revert H. generalize (h ++ e1). clear h e1.
    intros h H.
    apply bind_run_throws in H. destruct H as [H|(longTerm & e2 & r2 & _ & H & ->)].
    { destruct (memory this && JS.truthy_string (chatId options))%bool;
        [|discriminate].
      unfold MemoryManager.getChatMemory in H.
      apply bind_run_throws in H. destruct H as [H|(a & e & e' & _ & H & _)];
        [|discriminate].
      unfold call in H. inversion H; subst.
      apply handler_failure_call. right. left. auto. }
    apply handler_failure_later. revert H. generalize (h ++ e2). clear h e2.
    intros h H.
    apply bind_run_throws in H. destruct H as [H|(level & e3 & r3 & _ & H & ->)].
    { destruct (memory this && JS.truthy_string (chatId options)
                && JS.truthy_string (userId options))%bool; [|discriminate].
      unfold MemoryManager.getUserProfile, call in H. inversion H; subst.
      apply handler_failure_call. right. right. left. auto. }
    apply handler_failure_later. revert H. generalize (h ++ e3). clear h e3.
    intros h H.
    apply bind_run_throws in H. destruct H as [H|(plan & e4 & r4 & Hplan & H & ->)].
    { exfalso. destruct (never_throws_createDynamicDataPlan
                           {| userQuery := query; recentContext := recent;
                              longTermSummary := summary longTerm;
                              longTermFacts := facts longTerm;
                              experienceLevel := level |} h) as [p Hp].
      rewrite H in Hp. discriminate. }
    destruct (isCasual plan) eqn:Hcasual; [discriminate|].
    apply bind_run_throws in H. destruct H as [H|(a & e5 & r5 & Hagg & H & ->)].
    { apply aggregate_throws in H.
      destruct H as (-> & Hev & dataType & Hin & Ht).
      apply createDynamicDataPlan_run in Hplan.
      destruct Hplan as [Hc | [[-> Hplan] | ->]].
      - congruence.
      - right. split; [reflexivity|]. exists [], r4.
        rewrite app_nil_r. split; [reflexivity|]. split; [exact Hev|].
        eexists _, plan, dataType. split; [|split; [exact Hplan|auto]].
        reflexivity.
      - exfalso. eapply safe_plan_has_no_null_request; [|exact Hin|exact Ht].
        apply fallback_plan_is_safe. }
    apply handler_failure_later, handler_failure_later.
    revert H. generalize ((h ++ e4) ++ e5). clear Hagg Hplan. intros h' H.
    apply bind_run_throws in H. destruct H as [H|(text & e6 & r6 & _ & H & ->)].
    { unfold SallyBrain.generateFinalAnalysis, call in H. inversion H; subst.
      apply handler_failure_call. right. right. right. auto. }
    apply bind_run_throws in H. destruct H as [H|(u & e7 & r7 & _ & H & _)];
      [|discriminate].
    destruct (memory this && JS.truthy_string (chatId options))%bool;
      [|discriminate].
    rewrite update_memory_run in H. discriminate.
Qed.

Lemma for_of_throws_at {A S} (before after : list A) (x : A)
  (body : S -> A -> M S) (s s1 : S) (h : History) (e1 e2 : list Event)
  (c : string) :
  for_of before body s h = (Ok s1, e1) ->
  body s1 x (h ++ e1) = (Throw c, e2) ->
  for_of (before ++ x :: after) body s h = (Throw c, e1 ++ e2).
Proof.
  revert s h e1. induction before as [|y before IH]; intros s h e1 H1 H2.
  - cbn in H1. inversion H1; subst. cbn [app for_of]. unfold bind.
    rewrite app_nil_r in H2. rewrite H2. reflexivity.
  - cbn [app for_of] in *. unfold bind in *.
    destruct (body s y h) as [[s'|c'] e] eqn:Hs; [|discriminate].
    destruct (for_of before body s' (h ++ e)) as [r e'] eqn:Hf.
    inversion H1; subst.
    rewrite app_assoc in H2.
    rewrite (IH _ _ _ Hf H2). rewrite app_assoc. reflexivity.
Qed.

(** X26. A ticker-class request whose parameters are [null] aborts the
    aggregation as soon as its fetch fails: after the requests before it,
    which are safe, the fetch is made, its failure is caught, and reading
    the symbol of [null] for the fallback throws out of the loop; no live
    price, web search or indicator follows. *)
Theorem null_ticker_aborts_aggregation (userQuery : string) (rd : RequiredData)
  (h : History) (before after : list (string * option Params))
  (dataType : string) :
  bybit rd = Some (before ++ (dataType, None) :: after) ->
  forallb safe_entry before = true ->
  ticker_class dataType = true ->
  (forall h', exists c, fst (fetchBybitData E dataType None h') = Throw c) ->
  exists evs,
    aggregate E this userQuery rd h = (Throw null_symbol_error, evs) /\
    Forall market_event evs.
Proof.
  intros Hb Hsafe Ht Hfail.
  unfold aggregate. rewrite Hb.
  destruct (never_throws_run _ h
              (never_throws_for_of_safe before (bybit_step E this) safe_entry
                 empty_aggregatedData
                 (fun a x => never_throws_bybit_step E this a x) Hsafe))
    as (a1 & e1 & H1).
  assert (H2 : exists e2,
             bybit_step E this a1 (dataType, None) (h ++ e1)
             = (Throw null_symbol_error, e2)).
  { unfold bybit_step, try_catch at 1, bind. fold (ticker_class dataType).
    destruct (Hfail (h ++ e1)) as [c Hc].
    destruct (fetchBybitData E dataType None (h ++ e1)) as [[p|c'] e2];
      [discriminate|].
    rewrite Ht. unfold throw. eexists. reflexivity. }
  destruct H2 as [e2 H2].
  pose proof (for_of_throws_at before after (dataType, None) (bybit_step E this)
                _ _ _ _ _ _ H1 H2) as H3.
  exists (e1 ++ e2). unfold bind at 1. rewrite H3. split; [reflexivity|].
  eapply emits_run; [|exact H3]. apply emits_for_of, emits_bybit_step.
Qed.

End WithEnv.

Lemma handler_failure_cause_witness :
  exists cause,
    "Dynamic Analysis failed: timeout"
    = ("Dynamic Analysis failed: " ++ cause)%string /\
    FailureSpec.handler_failure Examples.offline "analyze BTC" Scenarios.no_chat
      []
      [EvPlanningOracle "analyze BTC"; EvBybit "getTickers" (Some Examples.btc);
       EvGetBackupData "BTCUSDT"; EvProvider "binance" "BTCUSDT";
       EvProvider "coinbase" "BTC-USD"; EvProvider "coingecko" "bitcoin";
       EvWebSearch "analyze BTC cryptocurrency"; EvFinalAnalysis "analyze BTC"]
      cause.
Proof.
  apply (handler_failure_cause Examples.offline Examples.engine "analyze BTC"
           Scenarios.no_chat [] "Dynamic Analysis failed: timeout").
  vm_compute. reflexivity.
Defined.

Lemma null_ticker_aborts_aggregation_witness :
  exists evs,
    aggregate Examples.offline Examples.engine "analyze BTC"
              (required_of Scenarios.null_tickers) []
    = (Throw null_symbol_error, evs) /\
    Forall market_event evs.
Proof.
  apply (null_ticker_aborts_aggregation Examples.offline Examples.engine
           "analyze BTC" (required_of Scenarios.null_tickers) [] [] [] "tickers").
  - reflexivity.
  - reflexivity.
  - reflexivity.
  - intros h'. exists "network unreachable". reflexivity.
Defined.

(** The handler on a plan whose ticker request has [null] for parameters,
    with Bybit unreachable: the answer fails with the [TypeError]. *)
Example null_ticker_fails_the_answer :
  handleUserQuery (Scenarios.assistant Scenarios.null_tickers "unused")
                  Examples.engine "analyze BTC" Scenarios.no_chat []
  = (Throw "Dynamic Analysis failed: Cannot read properties of null (reading 'symbol')",
     [EvPlanningOracle "analyze BTC"; EvBybit "getTickers" None]).
Proof. vm_compute. reflexivity. Qed.

Lemma aggregate_returns_witness :
  exists a evs c,
    aggregate Examples.offline Examples.engine "btc technical analysis"
              (required_of (SallyBrain.createFallbackPlan "btc technical analysis"))
              [] = (Ok a, evs) /\
    map resource (filter (has_type "bybit") (sources a)) = ["kline"; "tickers"] /\
    confidenceScore a = Some c /\ 50 <= c <= 100.
Proof.
  apply (aggregate_returns Examples.offline Examples.engine
           "btc technical analysis"
           (required_of (SallyBrain.createFallbackPlan "btc technical analysis"))
           []).
  vm_compute. reflexivity.
Defined.

Lemma web_searches_always_succeed_witness :
  exists a evs wc,
    aggregate Examples.offline Examples.engine "bitcoin news"
              Scenarios.news_only [] = (Ok a, evs) /\
    filter (has_type "web") (sources a)
    = map web_success ["bitcoin news"; "btc etf"] /\
    filter is_web_search evs = map EvWebSearch ["bitcoin news"; "btc etf"] /\
    webContent a = Some wc /\
    map fst wc = ["bitcoin news"; "btc etf"] /\
    Forall (fun qc => snd qc <> EmptyString) wc.
Proof.
  apply (web_searches_always_succeed Examples.offline Examples.engine
           "bitcoin news" Scenarios.news_only [] ["bitcoin news"; "btc etf"]).
  - reflexivity.
  - reflexivity.
Defined.

Lemma greeting_makes_no_call_witness :
  handleUserQuery Examples.offline Examples.engine "hello" Scenarios.no_chat []
  = (Ok {| isAnalysis := false; answer := SallyBrain.casual_greeting;
           dataSources := None; hasLivePrice := None;
           answer_confidenceScore := None |}, []).
Proof.
  apply (greeting_makes_no_call Examples.offline Examples.engine "hello"
           Scenarios.no_chat []).
  - reflexivity.
  - vm_compute. reflexivity.
Defined.

Lemma casual_plan_makes_no_fetch_witness :
  handleUserQuery (Scenarios.assistant Scenarios.chatty "unused")
                  Examples.engine "analyze BTC" Scenarios.no_chat []
  = (Ok {| isAnalysis := false; answer := "Happy to help!";
           dataSources := None; hasLivePrice := None;
           answer_confidenceScore := None |},
     [EvPlanningOracle "analyze BTC"]).
Proof.
  apply (casual_plan_makes_no_fetch
           (Scenarios.assistant Scenarios.chatty "unused") Examples.engine
           "analyze BTC" Scenarios.no_chat [] Scenarios.chatty).
  - reflexivity.
  - reflexivity.
  - vm_compute. reflexivity.
  - reflexivity.
  - reflexivity.
Defined.

Lemma analysis_answer_witness :
  exists a evs c,
    aggregate (Scenarios.assistant Scenarios.price_plan "BTC looks steady.")
              Examples.engine "analyze BTC" Examples.live_price_only
              [EvPlanningOracle "analyze BTC"] = (Ok a, evs) /\
    confidenceScore a = Some c /\ 50 <= c <= 100 /\
    handleUserQuery (Scenarios.assistant Scenarios.price_plan "BTC looks steady.")
                    Examples.engine "analyze BTC" Scenarios.no_chat []
    = (Ok {| isAnalysis := true; answer := "BTC looks steady.";
             dataSources := Some (sources a);
             hasLivePrice := Some (is_some (agg_livePrice a));
             answer_confidenceScore := Some c |},
       EvPlanningOracle "analyze BTC" :: evs ++ [EvFinalAnalysis "analyze BTC"]).
Proof.
  apply (analysis_answer
           (Scenarios.assistant Scenarios.price_plan "BTC looks steady.")
           Examples.engine "analyze BTC" Scenarios.no_chat []
           Scenarios.price_plan).
  - reflexivity.
  - reflexivity.
  - vm_compute. reflexivity.
  - reflexivity.
  - reflexivity.
  - reflexivity.
Defined.

Lemma unknown_indicators_are_skipped_witness :
  exists results,
    calculateRequestedIndicators Examples.offline (PList [])
      (["SMA20"] ++ "FOO" :: ["RSI14"]) = Ok results /\
    calculateRequestedIndicators Examples.offline (PList [])
      (["SMA20"] ++ ["RSI14"]) = Ok results /\
    (List.length results
     <= List.length (filter recognized (["SMA20"] ++ ["RSI14"])))%nat.
Proof.
  apply (unknown_indicators_are_skipped Examples.offline [] ["SMA20"] ["RSI14"]
           "FOO").
  - vm_compute. reflexivity.
  - vm_compute. reflexivity.
Defined.

End EngineFacts.

(* ------------------------------------------------------------------ *)
(** ** More on the memory *)

Module MemoryMore.

Import MemoryManager MemoryWords Order SortFacts.

Lemma sorted_app_inv {A} (R : A -> A -> Prop) (l1 l2 : list A) :
  StronglySorted R (l1 ++ l2) ->
  StronglySorted R l1 /\ StronglySorted R l2 /\
  Forall (fun a => Forall (R a) l2) l1.
Proof.
  induction l1 as [|a l1 IH]; cbn; intros H.
  - repeat split; [constructor|exact H|constructor].
  - inversion H as [|? ? Hs Ha]; subst.
    destruct (IH Hs) as (H1 & H2 & H12).
    apply Forall_app in Ha. destruct Ha as [Ha1 Ha2].
    repeat split; [constructor; assumption|exact H2|constructor; assumption].
Qed.

Lemma sorted_app {A} (R : A -> A -> Prop) (l1 l2 : list A) :
  StronglySorted R l1 -> StronglySorted R l2 ->
  Forall (fun a => Forall (R a) l2) l1 ->
  StronglySorted R (l1 ++ l2).
Proof.
  induction 1 as [|a l1 Hs IH Ha]; cbn; intros H2 H12; [exact H2|].
  inversion H12; subst.
  constructor; [apply IH; assumption|]. apply Forall_app. split; assumption.
Qed.

Lemma sorted_rev {A} (R : A -> A -> Prop) (l : list A) :
  StronglySorted R l -> StronglySorted (fun a b => R b a) (rev l).
Proof.
  induction 1 as [|a l Hs IH Ha]; cbn; [constructor|].
  apply sorted_app; [exact IH|repeat constructor|].
  apply Forall_forall. intros b Hb. constructor; [|constructor].
  rewrite Forall_forall in Ha. apply Ha. apply in_rev. exact Hb.
Qed.

Section WithEnv.

Variable E : Env.

Lemma cursor_limit_firstn {A} (n : nat) (l : list A) :
  cursor_limit n l
  = firstn (match n with O => List.length l | _ => n end) l.
Proof. destruct n; [symmetry; apply firstn_all|reflexivity]. Qed.

(** X8. The recent messages are turns of the chat asked for, in
    chronological order: at most [limit] of them, and all of them when
    [limit] is 0, which is no limit for the database.  They are the latest
    of the chat: no message of the chat that is left out is more recent
    than one that is returned. *)
Theorem recent_messages_window (chat : string) (limit : nat) (h : History)
  (docs : list ChatMessage) :
  db_chatMessages E h = Ok docs ->
  exists kept dropped,
    getRecentMessages E chat limit h
    = (Ok (map turn_of kept), [EvFindMessages chat]) /\
    Permutation (filter (in_chat chat) docs) (kept ++ dropped) /\
    List.length kept
    = match limit with
      | O => List.length (filter (in_chat chat) docs)
      | _ => Nat.min limit (List.length (filter (in_chat chat) docs))
      end /\
    StronglySorted (ascending msg_timestamp) kept /\
    Forall (fun d => Forall (fun k => msg_timestamp d <= msg_timestamp k) kept)
           dropped.
Proof.
  intros Hdb.
  set (msgs := filter (in_chat chat) docs).
  set (sorted := JS.sort_by (fun m => - msg_timestamp m) msgs).
  set (n := match limit with O => List.length sorted | _ => limit end).
  exists (rev (firstn n sorted)), (skipn n sorted).
  pose proof (sort_by_perm (fun m => - msg_timestamp m) msgs) as Hperm.
  pose proof (sort_by_sorted (fun m => - msg_timestamp m) msgs) as Hsorted.
  fold sorted in Hperm, Hsorted.
  rewrite <- (firstn_skipn n sorted) in Hsorted.
  apply sorted_app_inv in Hsorted. destruct Hsorted as (Hk & _ & Hkd).
  split; [|split; [|split; [|split]]].
  - unfold getRecentMessages, find_latest, bind, call, ret. rewrite Hdb.
    cbn [app]. fold msgs. fold sorted. rewrite cursor_limit_firstn. reflexivity.
  - rewrite Hperm, <- (firstn_skipn n sorted) at 1.
    apply Permutation_app_tail, Permutation_rev.
  - rewrite length_rev, length_firstn.
    apply Permutation_length in Hperm. rewrite Hperm. unfold n.
    destruct limit; [apply Nat.min_id|reflexivity].
  - apply sorted_rev in Hk.
    clear - Hk. induction Hk as [|a l Hs IH Ha]; constructor; [exact IH|].
    eapply Forall_impl; [|exact Ha]. unfold ascending. intros; lia.
  - apply Forall_forall. intros d Hd. apply Forall_forall. intros k Hin.
    apply in_rev in Hin. rewrite Forall_forall in Hkd.
    specialize (Hkd k Hin). rewrite Forall_forall in Hkd.
    specialize (Hkd d Hd). unfold ascending in Hkd. lia.
Qed.

End WithEnv.

Lemma NoDup_map_filter {A B} (key : A -> B) (keep : A -> bool) (items : list A)
  (Hnd : NoDup (map key items)) :
  NoDup (map key (filter keep items)).
Proof.
  induction items as [|x items IH]; cbn in *; [constructor|].
  apply NoDup_cons_iff in Hnd. destruct Hnd as [Hfresh Hrest].
  destruct (keep x); cbn; [|exact (IH Hrest)].
  apply NoDup_cons_iff. split; [|exact (IH Hrest)].
  rewrite in_map_iff. intros (y & Hy & Hin).
  apply filter_In in Hin. apply Hfresh. rewrite <- Hy. apply in_map, Hin.
Qed.

Lemma NoDup_app_disjoint {A} (l1 l2 : list A) :
  NoDup l1 -> NoDup l2 -> (forall x, In x l1 -> In x l2 -> False) ->
  NoDup (l1 ++ l2).
Proof.
  induction 1 as [|a l1 Hn Hd IH]; cbn; intros H2 Hdis; [exact H2|].
  constructor.
  - intros Hin. apply in_app_or in Hin. destruct Hin as [Hin|Hin];
      [contradiction|]. apply (Hdis a); [left; reflexivity|exact Hin].
  - apply IH; [exact H2|]. intros x Hx. apply Hdis. right. exact Hx.
Qed.

(** X9. The tags derived from a query are taken from a fixed vocabulary of
    twelve tags, and no tag is given twice. *)
Theorem deriveTags_vocabulary (userQuery : string) :
  NoDup (deriveTags userQuery) /\
  incl (deriveTags userQuery) tag_vocabulary.
Proof.
  unfold deriveTags. cbv zeta.
  set (query := JS.toLowerCase userQuery).
  set (symbols := ["btc"; "bitcoin"; "eth"; "ethereum"; "sol"; "solana"; "ada"; "cardano"]).
  assert (Hsym : incl (map JS.toUpperCase (filter (JS.includes query) symbols))
                      ["BTC"; "BITCOIN"; "ETH"; "ETHEREUM"; "SOL"; "SOLANA"; "ADA"; "CARDANO"]).
  { intros x Hx. apply in_map_iff in Hx. destruct Hx as [s [Hs Hin]].
    apply filter_In in Hin. destruct Hin as [Hin _].
    change ["BTC"; "BITCOIN"; "ETH"; "ETHEREUM"; "SOL"; "SOLANA"; "ADA"; "CARDANO"]
      with (map JS.toUpperCase symbols).
    rewrite <- Hs. apply in_map, Hin. }
  assert (Hnd : NoDup (map JS.toUpperCase (filter (JS.includes query) symbols))).
  { apply NoDup_map_filter. cbn.
    repeat constructor; cbn; intuition discriminate. }
  set (upper := map JS.toUpperCase (filter (JS.includes query) symbols)) in *.
  split.
  - apply NoDup_app_disjoint; [exact Hnd| |].
    + destruct (JS.includes query "price"),
        (JS.includes query "technical" || JS.includes query "analysis")%bool,
        (JS.includes query "news"), (JS.includes query "prediction"); cbn;
        repeat constructor; cbn; intuition discriminate.
    + intros x Hx Hy. apply Hsym in Hx.
      assert (Ht : In x ["price"; "technical-analysis"; "news"; "prediction"]).
      { destruct (JS.includes query "price"),
          (JS.includes query "technical" || JS.includes query "analysis")%bool,
          (JS.includes query "news"), (JS.includes query "prediction");
          cbn in Hy |- *; intuition. }
      cbn in Hx, Ht. intuition (subst; discriminate).
  - apply incl_app.
    + intros x Hx. apply Hsym in Hx. unfold tag_vocabulary. cbn in Hx |- *. intuition.
    + destruct (JS.includes query "price"),
        (JS.includes query "technical" || JS.includes query "analysis")%bool,
        (JS.includes query "news"), (JS.includes query "prediction");
        intros x Hx; unfold tag_vocabulary; cbn in Hx |- *; intuition.
Qed.

Lemma recent_messages_window_witness :
  exists kept dropped,
    getRecentMessages Scenarios.with_history "chat-1" 2 []
    = (Ok (map turn_of kept), [EvFindMessages "chat-1"]) /\
    Permutation (filter (in_chat "chat-1") Examples.two_turns) (kept ++ dropped) /\
    List.length kept
    = Nat.min 2 (List.length (filter (in_chat "chat-1") Examples.two_turns)) /\
    StronglySorted (ascending msg_timestamp) kept /\
    Forall (fun d => Forall (fun k => msg_timestamp d <= msg_timestamp k) kept)
           dropped.
Proof.
  apply (recent_messages_window Scenarios.with_history "chat-1" 2 []
           Examples.two_turns).
  reflexivity.
Defined.

End MemoryMore.

(* ------------------------------------------------------------------ *)
(** ** More on the live price *)

Module LivePriceMore.

Import LivePriceFetcher.

Lemma prefix_trans (a b c : string) :
  String.prefix a b = true -> String.prefix b c = true -> String.prefix a c = true.
Proof.
  revert b c. induction a as [|x a IH]; intros b c Hab Hbc; [destruct c; reflexivity|].
  destruct b as [|y b]; [discriminate|]. destruct c as [|z c]; [discriminate|].
  cbn in *. destruct (ascii_dec x y) as [->|]; [|discriminate].
  destruct (ascii_dec y z) as [->|]; [|discriminate].
  eapply IH; eassumption.
Qed.

(** A string that includes [p] includes every prefix of [p]. *)
Lemma includes_prefix (s p p' : string) :
  String.prefix p' p = true -> JS.includes s p = true -> JS.includes s p' = true.
Proof.
  intros Hp. induction s as [|c s IH].
  - change (JS.includes EmptyString p)
      with (if String.prefix p EmptyString then true else false).
    change (JS.includes EmptyString p')
      with (if String.prefix p' EmptyString then true else false).
    destruct (String.prefix p EmptyString) eqn:H1; [|discriminate].
    intros _. rewrite (prefix_trans _ _ _ Hp H1). reflexivity.
  - change (JS.includes (String c s) p)
      with (if String.prefix p (String c s) then true else JS.includes s p).
    change (JS.includes (String c s) p')
      with (if String.prefix p' (String c s) then true else JS.includes s p').
    destruct (String.prefix p (String c s)) eqn:H1.
    + intros _. rewrite (prefix_trans _ _ _ Hp H1). reflexivity.
    + intros H. destruct (String.prefix p' (String c s)); [reflexivity|].
      apply IH, H.
Qed.

(** X10. The symbol of a query is the first key of the symbol map that its
    upper case includes: the tests for the common variations that follow the
    loop never decide.  The keys ETHEREUM and SOLANA are never the symbol,
    ETH and SOL being found before them. *)
Theorem extractSymbolFromQuery_first_key (query : string) :
  extractSymbolFromQuery query
  = find (JS.includes (JS.toUpperCase query)) symbolMap_keys /\
  extractSymbolFromQuery query <> Some "ETHEREUM" /\
  extractSymbolFromQuery query <> Some "SOLANA".
Proof.
  unfold extractSymbolFromQuery. cbv zeta.
  set (u := JS.toUpperCase query).
  pose proof (includes_prefix u "ETHEREUM" "ETH" eq_refl) as He.
  pose proof (includes_prefix u "SOLANA" "SOL" eq_refl) as Hs.
  unfold symbolMap_keys. cbn [find].
  destruct (JS.includes u "BTC"); [repeat split; discriminate|].
  destruct (JS.includes u "BITCOIN"); [repeat split; discriminate|].
  destruct (JS.includes u "ETH"); [repeat split; discriminate|].
  destruct (JS.includes u "ETHEREUM"); [specialize (He eq_refl); discriminate|].
  destruct (JS.includes u "SOL"); [repeat split; discriminate|].
  destruct (JS.includes u "SOLANA"); [specialize (Hs eq_refl); discriminate|].
  repeat split; discriminate.
Qed.

Section WithEnv.

Variable E : Env.

Lemma try_apis_found (sym : string) (apis : list string) (h : History)
  (lp : LivePrice) (evs : list Event) :
  try_apis E sym apis h = (Ok (Some lp), evs) ->
  exists asked p,
    evs = asked ++ [EvPriceApi (lp_source lp) sym] /\
    In (lp_source lp) apis /\
    axios_price E (lp_source lp) sym (h ++ asked) = Ok (Some p) /\
    lp_price lp = p /\ JSNum.gt p 0%float = true /\
    lp_symbol lp = sym /\ isLive lp = true /\
    (List.length evs <= List.length apis)%nat.
Proof.
  revert h evs. induction apis as [|api apis IH]; intros h evs; cbn [try_apis].
  - unfold ret. discriminate.
  - unfold bind at 1, try_catch, bind, call.
    destruct (axios_price E api sym h) as [parsed|message] eqn:Hp.
    + destruct (usable_price parsed) as [p|] eqn:Hu.
      * cbn. intros Hrun. inversion Hrun; subst. clear Hrun.
        unfold usable_price in Hu. destruct parsed as [n|]; [|discriminate].
        destruct (JSNum.gt n 0%float) eqn:Hgt; [|discriminate].
        inversion Hu; subst.
        exists [], p. cbn [app lp_source lp_price lp_symbol isLive List.length].
        rewrite app_nil_r.
        repeat split; auto. lia.
      * cbn. destruct (try_apis E sym apis (h ++ [EvPriceApi api sym])) as [r e2] eqn:Hr.
        intros Hrun. inversion Hrun; subst. clear Hrun.
        destruct (IH _ _ Hr) as (asked & q & He & Hin & Ha & Hq & Hpos & Hs & Hl & Hlen).
        exists (EvPriceApi api sym :: asked), q. rewrite He.
        repeat split; auto.
        -- rewrite <- app_assoc in Ha. exact Ha.
        -- cbn. rewrite <- He. lia.
    + cbn. destruct (try_apis E sym apis (h ++ [EvPriceApi api sym])) as [r e2] eqn:Hr.
      intros Hrun. inversion Hrun; subst. clear Hrun.
      destruct (IH _ _ Hr) as (asked & q & He & Hin & Ha & Hq & Hpos & Hs & Hl & Hlen).
      exists (EvPriceApi api sym :: asked), q. rewrite He.
      repeat split; auto.
      * rewrite <- app_assoc in Ha. exact Ha.
      * cbn. rewrite <- He. lia.
Qed.

(** X11. For an ASCII query, a live price that is returned is the number
    greater than 0 (which +Infinity is) that the source it names answered
    for the symbol of the query, in the last of at most three requests;
    when the query names no symbol, no request is sent. *)
Theorem live_price_provenance (query : string) (h : History) :
  JS.is_ascii query = true ->
  (extractSymbolFromQuery query = None ->
   fetchLivePrice E query h = (Ok None, [EvFetchLivePrice query])) /\
  (forall lp evs,
      fetchLivePrice E query h = (Ok (Some lp), evs) ->
      exists asked p,
        extractSymbolFromQuery query = Some (lp_symbol lp) /\
        evs = EvFetchLivePrice query
              :: asked ++ [EvPriceApi (lp_source lp) (lp_symbol lp)] /\
        (List.length asked < 3)%nat /\
        In (lp_source lp) priceAPIs /\
        axios_price E (lp_source lp) (lp_symbol lp)
          (h ++ EvFetchLivePrice query :: asked) = Ok (Some p) /\
        lp_price lp = p /\ JSNum.gt p 0%float = true /\ isLive lp = true).
Proof.
  intros _. unfold fetchLivePrice, bind, emit. cbn [app]. split.
  - intros ->. reflexivity.
  - intros lp evs.
    destruct (extractSymbolFromQuery query) as [sym|]; [|discriminate].
    destruct (try_apis E sym priceAPIs (h ++ [EvFetchLivePrice query])) as [r e2] eqn:Hr.
    intros Hrun. inversion Hrun; subst. clear Hrun.
    destruct (try_apis_found _ _ _ _ _ Hr)
      as (asked & p & He & Hin & Ha & Hq & Hpos & Hs & Hl & Hlen).
    exists asked, p. subst sym. rewrite He.
    repeat split; auto.
    + rewrite He, length_app in Hlen. cbn in Hlen. lia.
    + rewrite <- app_assoc in Ha. exact Ha.
Qed.

End WithEnv.

Lemma live_price_provenance_witness :
  (extractSymbolFromQuery "Bitcoin price" = None ->
   fetchLivePrice Scenarios.coingecko_price "Bitcoin price" []
   = (Ok None, [EvFetchLivePrice "Bitcoin price"])) /\
  (forall lp evs,
      fetchLivePrice Scenarios.coingecko_price "Bitcoin price" [] = (Ok (Some lp), evs) ->
      exists asked p,
        extractSymbolFromQuery "Bitcoin price" = Some (lp_symbol lp) /\
        evs = EvFetchLivePrice "Bitcoin price"
              :: asked ++ [EvPriceApi (lp_source lp) (lp_symbol lp)] /\
        (List.length asked < 3)%nat /\
        In (lp_source lp) priceAPIs /\
        axios_price Scenarios.coingecko_price (lp_source lp) (lp_symbol lp)
          ([] ++ EvFetchLivePrice "Bitcoin price" :: asked) = Ok (Some p) /\
        lp_price lp = p /\ JSNum.gt p 0%float = true /\ isLive lp = true).
Proof.
  apply (live_price_provenance Scenarios.coingecko_price "Bitcoin price" []).
  reflexivity.
Defined.

(** The run of the witness: Coinbase fails, CoinGecko answers. *)
Example live_price_from_the_second_source :
  fetchLivePrice Scenarios.coingecko_price "Bitcoin price" []
  = (Ok (Some {| lp_symbol := "BITCOIN"; lp_price := JSNum.of_Z 42000;
                 lp_source := "coingecko";
                 lp_timestamp := "2023-11-14T22:13:20.000Z"; isLive := true |}),
     [EvFetchLivePrice "Bitcoin price"; EvPriceApi "coinbase" "BITCOIN";
      EvPriceApi "coingecko" "BITCOIN"]).
Proof. vm_compute. reflexivity. Qed.

End LivePriceMore.

(* ------------------------------------------------------------------ *)
(** ** More on the fallback pool *)

Module PoolFacts.

Import Fallback PoolWords Effects MonadFacts FallbackFacts.

Lemma lookup_set_active (mp : UniversalMultiDataProvider) (n x : string) :
  JS.lookup x (providers (set_active mp n))
  = match JS.lookup x (providers mp) with
    | Some p => Some (if String.eqb x n
                      then {| active := true; priority := priority p |}
                      else p)
    | None => None
    end.
Proof.
  unfold set_active. cbn [providers].
  induction (providers mp) as [|[k p] l IH]; cbn [map JS.lookup]; [reflexivity|].
  cbn [fst snd].
  destruct (String.eqb k n) eqn:Hkn; cbn [JS.lookup];
    destruct (String.eqb x k) eqn:Hxk; try exact IH.
  - apply String.eqb_eq in Hkn, Hxk. subst. rewrite String.eqb_refl. reflexivity.
  - apply String.eqb_eq in Hxk. subst. rewrite Hkn. reflexivity.
Qed.

Lemma is_active_set_active (mp : UniversalMultiDataProvider) (n x : string) :
  is_active (set_active mp n) x
  = (is_active mp x || (is_provider mp x && String.eqb x n))%bool.
Proof.
  unfold is_active, is_provider. rewrite lookup_set_active.
  destruct (JS.lookup x (providers mp)) as [p|]; [|reflexivity].
  destruct (String.eqb x n); cbn; [rewrite orb_true_r|rewrite orb_false_r]; reflexivity.
Qed.

Lemma is_provider_set_active (mp : UniversalMultiDataProvider) (n x : string) :
  is_provider (set_active mp n) x = is_provider mp x.
Proof.
  unfold is_provider. rewrite lookup_set_active.
  destruct (JS.lookup x (providers mp)); reflexivity.
Qed.

Lemma priority_set_active (mp : UniversalMultiDataProvider) (n x : string) :
  priority_of (set_active mp n) x = priority_of mp x.
Proof.
  unfold priority_of. rewrite lookup_set_active.
  destruct (JS.lookup x (providers mp)) as [p|]; [|reflexivity].
  destruct (String.eqb x n); reflexivity.
Qed.

Lemma keys_set_active (mp : UniversalMultiDataProvider) (n : string) :
  map fst (providers (set_active mp n)) = map fst (providers mp).
Proof.
  unfold set_active. cbn [providers]. rewrite map_map. apply map_ext.
  intros [k p]. cbn. destruct (String.eqb k n); reflexivity.
Qed.

Lemma lookup_in_keys {A} (k : string) (o : list (string * A)) :
  (exists v, JS.lookup k o = Some v) <-> In k (map fst o).
Proof.
  induction o as [|[k' v'] o IH]; cbn.
  - split; [intros [v H]; discriminate|contradiction].
  - destruct (String.eqb_spec k k') as [->|Hne].
    + split; [intros _; left; reflexivity|intros _; eexists; reflexivity].
    + rewrite IH. split; [intros H; right; exact H|].
      intros [H|H]; [congruence|exact H].
Qed.

Section WithEnv.

Variable E : Env.

Lemma initializeProvider_run (name : string) (mp : UniversalMultiDataProvider)
  (h : History) :
  initializeProvider E name mp h
  = (Ok (if succeeds (axios_ping E name h) then set_active mp name else mp),
     [EvProvider name "ping"]).
Proof.
  unfold initializeProvider, try_catch, bind, call, ret.
  destruct (axios_ping E name h); reflexivity.
Qed.

(** The pool after the three probes. *)
Lemma initialize_multi_run (mp : UniversalMultiDataProvider) (h : History) :
  exists mp',
    initialize_multi E mp h
    = (Ok (mp', 0 <? Z.of_nat (List.length
                                 (filter (is_active mp') (map fst (providers mp'))))),
       [binance_ping; coinbase_ping; coingecko_ping]) /\
    universalSymbolMap mp' = universalSymbolMap mp /\
    map fst (providers mp') = map fst (providers mp) /\
    (forall name, priority_of mp' name = priority_of mp name) /\
    (forall name, is_active mp' name
                  = (is_active mp name || (is_provider mp name && probe_ok E h name))%bool).
Proof.
  unfold initialize_multi, bind. rewrite initializeProvider_run. cbn [app].
  rewrite initializeProvider_run. rewrite <- app_assoc. cbn [app].
  rewrite initializeProvider_run. unfold ret.
  eexists. split; [reflexivity|].
  unfold binance_ping, coinbase_ping, coingecko_ping.
  destruct (succeeds (axios_ping E "binance" h)) eqn:Hb;
    destruct (succeeds (axios_ping E "coinbase" (h ++ [EvProvider "binance" "ping"]))) eqn:Hc;
    destruct (succeeds (axios_ping E "coingecko"
                          (h ++ [EvProvider "binance" "ping"; EvProvider "coinbase" "ping"]))) eqn:Hg;
    (split; [reflexivity|]);
    (split; [rewrite ?keys_set_active; reflexivity|]);
    (split; [intros name; rewrite ?priority_set_active; reflexivity|]);
    intros name; rewrite ?is_active_set_active, ?is_provider_set_active;
    unfold probe_ok, binance_ping, coinbase_ping; rewrite Hb, Hc, Hg;
    destruct (is_active mp name), (is_provider mp name);
    destruct (String.eqb name "binance") eqn:H1;
    destruct (String.eqb name "coinbase") eqn:H2;
    destruct (String.eqb name "coingecko") eqn:H3;
    try reflexivity; exfalso;
    repeat match goal with
           | H : String.eqb _ _ = true |- _ => apply String.eqb_eq in H
           end; congruence.
Qed.

(** X12. The start of the pool never throws.  On a pool that is already
    initialized it does nothing.  Otherwise it probes the three providers in
    order; a provider is active afterwards when it was active before or its
    probe succeeded, the priorities and the symbol map are kept, and the
    pool is initialized exactly when some provider is active. *)
Theorem initialize_probes (fb : UniversalDataFallback) (h : History) :
  exists fb' evs,
    initialize E fb h = (Ok (fb', initialized fb'), evs) /\
    (initialized fb = true -> fb' = fb /\ evs = []) /\
    (initialized fb = false ->
     evs = [binance_ping; coinbase_ping; coingecko_ping] /\
     (initialized fb' = true <->
      exists name, is_active (multiProvider fb') name = true) /\
     universalSymbolMap (multiProvider fb') = universalSymbolMap (multiProvider fb) /\
     (forall name, priority_of (multiProvider fb') name
                   = priority_of (multiProvider fb) name) /\
     (forall name,
         is_active (multiProvider fb') name
         = (is_active (multiProvider fb) name
            || (is_provider (multiProvider fb) name && probe_ok E h name))%bool)).
Proof.
  unfold initialize. destruct (initialized fb) eqn:Hi.
  - exists fb, []. unfold ret. rewrite Hi.
    split; [reflexivity|]. split; [auto|discriminate].
  - destruct (initialize_multi_run (multiProvider fb) h)
      as (mp' & Hrun & Hmap & Hkeys & Hprio & Hact).
    unfold bind. rewrite Hrun. unfold ret. cbn [fst snd].
    exists {| multiProvider := mp';
              initialized :=
                0 <? Z.of_nat (List.length
                                 (filter (is_active mp') (map fst (providers mp')))) |},
           [binance_ping; coinbase_ping; coingecko_ping].
    split; [reflexivity|].
    split; [discriminate|]. intros _. cbn [multiProvider initialized].
    split; [reflexivity|].
    split; [|split; [exact Hmap|split; [exact Hprio|exact Hact]]].
    split.
    + intros Hpos. apply Z.ltb_lt in Hpos.
      destruct (filter (is_active mp') (map fst (providers mp'))) as [|name l] eqn:Hf;
        [cbn in Hpos; lia|].
      exists name.
      assert (Hin : In name (filter (is_active mp') (map fst (providers mp'))))
        by (rewrite Hf; left; reflexivity).
      apply filter_In in Hin. apply Hin.
    + intros [name Hname]. apply Z.ltb_lt.
      assert (Hin : In name (filter (is_active mp') (map fst (providers mp')))).
      { apply filter_In. split; [|exact Hname].
        apply lookup_in_keys. unfold is_active in Hname.
        destruct (JS.lookup name (providers mp')) as [p|]; [eauto|discriminate]. }
      destruct (filter (is_active mp') (map fst (providers mp'))); [contradiction|].
      cbn. lia.
Qed.

(** X13. When the three probes of the start fail on the pool as it is
    constructed, the pool stays uninitialized, and a lookup on it returns
    [null] for every symbol, without a request to a provider. *)
Theorem failed_start_disables_pool (h h' : History) (sym : string) :
  (forall name, probe_ok E h name = false) ->
  exists fb',
    initialize E new_UniversalDataFallback h
    = (Ok (fb', false), [binance_ping; coinbase_ping; coingecko_ping]) /\
    getBackupData E fb' sym h' = (Ok None, [EvGetBackupData sym]).
Proof.
  intros Hfail. unfold initialize. cbn [initialized new_UniversalDataFallback].
  destruct (initialize_multi_run (multiProvider new_UniversalDataFallback) h)
    as (mp' & Hrun & Hmap & Hkeys & Hprio & Hact).
  cbn [multiProvider new_UniversalDataFallback] in *.
  assert (Hnone : filter (is_active mp') (map fst (providers mp')) = []).
  { rewrite Hkeys. cbn [map fst providers new_UniversalMultiDataProvider filter].
    rewrite !Hact, !Hfail. reflexivity. }
  rewrite Hnone in Hrun. cbn in Hrun.
  unfold bind. rewrite Hrun. unfold ret. cbn [fst snd].
  eexists. split; [reflexivity|]. reflexivity.
Qed.

Lemma fetchOnDemand_answer (name m sym : string) (h : History)
  (d : ProviderData) (evs : list Event) :
  fetchOnDemand E name m sym h = (Ok (Some d), evs) ->
  provider d = name /\ In name provider_names /\
  evs = [EvProvider name m] /\
  exists raw, axios_ticker E name m h = Ok raw /\ price d = price raw.
Proof.
  unfold fetchOnDemand, fetchBinanceOnDemand, fetchCoinbaseOnDemand,
    fetchCoinGeckoOnDemand, provider_names.
  destruct (String.eqb_spec name "binance") as [->|];
    [|destruct (String.eqb_spec name "coinbase") as [->|];
      [|destruct (String.eqb_spec name "coingecko") as [->|]]];
    unfold try_catch, bind, call, ret;
    try match goal with
      | |- context [axios_ticker E ?p ?m h] => destruct (axios_ticker E p m h) as [raw|] eqn:Hraw
      end; cbn; intros Hrun; inversion Hrun; subst; cbn;
    repeat split; auto; try (exists raw; split; reflexivity).
Qed.

Lemma first_non_null_answer (mapping : list (string * string)) (sym : string)
  (h : History) (names : list string) (d : ProviderData) (evs : list Event) :
  first_non_null E mapping sym h names (Some d) evs ->
  In (provider d) names /\ In (provider d) provider_names /\
  exists asked raw,
    evs = asked ++ [EvProvider (provider d) (mapped_symbol mapping (provider d))] /\
    axios_ticker E (provider d) (mapped_symbol mapping (provider d)) (h ++ asked)
    = Ok raw /\
    price d = price raw.
Proof.
  intros H. remember (Some d) as r eqn:Hr. revert d Hr.
  induction H as [h|h name rest d' evs Hf|h name rest r evs evs' Hf Hn IH];
    intros d Hr.
  - discriminate.
  - inversion Hr; subst d'.
    destruct (fetchOnDemand_answer _ _ _ _ _ _ Hf) as (Hp & Hin & He & raw & Hraw & Hprice).
    subst name. split; [left; reflexivity|]. split; [exact Hin|].
    exists [], raw. rewrite app_nil_r. cbn. auto.
  - destruct (IH d Hr) as (Hin & Hp & asked & raw & He & Hraw & Hprice).
    split; [right; exact Hin|]. split; [exact Hp|].
    exists (evs ++ asked), raw. rewrite He, <- !app_assoc.
    split; [reflexivity|]. split; [|exact Hprice].
    rewrite <- app_assoc in Hraw. exact Hraw.
Qed.

(** X14. A backup ticker that is returned comes from an initialized pool and
    names the provider that answered: one of the three providers, active and
    with a mapping for the symbol, asked last; it carries the symbol asked
    for and the price that provider answered. *)
Theorem backup_data_provenance (fb : UniversalDataFallback) (sym : string)
  (h : History) (s : StandardFormat) (evs : list Event) :
  getBackupData E fb sym h = (Ok (Some s), evs) ->
  initialized fb = true /\
  std_symbol s = sym /\
  In (backupProvider s) provider_names /\
  is_active (multiProvider fb) (backupProvider s) = true /\
  exists mapping asked raw,
    JS.lookup sym (universalSymbolMap (multiProvider fb)) = Some mapping /\
    mapped mapping (backupProvider s) = true /\
    evs = EvGetBackupData sym
          :: asked ++ [EvProvider (backupProvider s)
                         (mapped_symbol mapping (backupProvider s))] /\
    axios_ticker E (backupProvider s) (mapped_symbol mapping (backupProvider s))
      (h ++ EvGetBackupData sym :: asked) = Ok raw /\
    lastPrice (ticker s) = price raw.
Proof.
  unfold getBackupData, bind, emit. cbn [app].
  destruct (initialized fb); cbn [negb]; [|unfold ret; discriminate].
  unfold getUniversalData.
  destruct (JS.lookup sym (universalSymbolMap (multiProvider fb))) as [mapping|] eqn:Hm;
    [|unfold ret; discriminate].
  destruct (try_providers_first_non_null E (multiProvider fb) mapping sym
              (JS.sort_by (priority_of (multiProvider fb))
                 (map fst (providers (multiProvider fb))))
              (h ++ [EvGetBackupData sym])) as (r & e1 & Hr & Hn).
  rewrite Hr. destruct r as [d|]; [|unfold ret; discriminate].
  unfold now, ret. cbn. intros Hrun. inversion Hrun; subst. clear Hrun.
  cbn [std_symbol backupProvider ticker lastPrice convertToStandardFormat].
  destruct (first_non_null_answer _ _ _ _ _ _ Hn)
    as (Hin & Hp & asked & raw & He & Hraw & Hprice).
  apply filter_In in Hin. destruct Hin as [_ Hk]. apply andb_true_iff in Hk.
  split; [reflexivity|]. split; [reflexivity|]. split; [exact Hp|].
  split; [apply Hk|].
  exists mapping, asked, raw. rewrite app_nil_r, He.
  split; [reflexivity|]. split; [apply Hk|]. split; [reflexivity|].
  split; [|exact Hprice]. rewrite <- app_assoc in Hraw. exact Hraw.
Qed.

Lemma fetchOnDemand_coinbase (name m sym : string) (h : History)
  (d : ProviderData) (evs : list Event) :
  fetchOnDemand E name m sym h = (Ok (Some d), evs) ->
  provider d = "coinbase" -> change24h d = None.
Proof.
  unfold fetchOnDemand, fetchBinanceOnDemand, fetchCoinbaseOnDemand,
    fetchCoinGeckoOnDemand.
  destruct (String.eqb name "binance");
    [|destruct (String.eqb name "coinbase");
      [|destruct (String.eqb name "coingecko")]];
    unfold try_catch, bind, call, ret;
    try match goal with
      | |- context [axios_ticker E ?p ?m h] => destruct (axios_ticker E p m h) as [raw|]
      end; cbn; intros Hrun; inversion Hrun; subst; cbn;
    first [discriminate | reflexivity].
Qed.

Lemma first_non_null_coinbase (mapping : list (string * string)) (sym : string)
  (h : History) (names : list string) (d : ProviderData) (evs : list Event) :
  first_non_null E mapping sym h names (Some d) evs ->
  provider d = "coinbase" -> change24h d = None.
Proof.
  intros H. remember (Some d) as r eqn:Hr. revert d Hr.
  induction H as [h|h name rest d' evs Hf|h name rest r evs evs' Hf Hn IH];
    intros d Hr.
  - discriminate.
  - inversion Hr; subst d'. exact (fetchOnDemand_coinbase _ _ _ _ _ _ Hf).
  - exact (IH d Hr).
Qed.

Lemma or_zero_number (o : option num) : JSNum.isNaN (JSNum.or_zero o) = false.
Proof.
  destruct o as [a|]; [|reflexivity]. unfold JSNum.or_zero, JSNum.truthy.
  destruct (PrimFloat.eqb a 0); [reflexivity|].
  destruct (JSNum.isNaN a) eqn:Ha; [reflexivity|exact Ha].
Qed.

(** X25. A backup ticker that is returned is marked valid, of quality
    BACKUP_PROVIDER and stamped with the clock read after the last request;
    its 24h change and its volume are never NaN, a missing or NaN field
    being stored as 0 (an infinite one is kept); and the change of a ticker
    of Coinbase, which answers none, is 0. *)
Theorem backup_ticker_shape (fb : UniversalDataFallback) (sym : string)
  (h : History) (s : StandardFormat) (evs : list Event) :
  getBackupData E fb sym h = (Ok (Some s), evs) ->
  isValid (ticker s) = true /\
  dataQuality (ticker s) = "BACKUP_PROVIDER" /\
  timestamp (ticker s) = Date_now E (h ++ evs) /\
  JSNum.isNaN (price24hPcnt (ticker s)) = false /\
  JSNum.isNaN (ticker_volume24h (ticker s)) = false /\
  (backupProvider s = "coinbase" -> price24hPcnt (ticker s) = 0%float).
Proof.
  unfold getBackupData, bind, emit. cbn [app].
  destruct (initialized fb); cbn [negb]; [|unfold ret; discriminate].
  unfold getUniversalData.
  destruct (JS.lookup sym (universalSymbolMap (multiProvider fb))) as [mapping|] eqn:Hm;
    [|unfold ret; discriminate].
  destruct (try_providers_first_non_null E (multiProvider fb) mapping sym
              (JS.sort_by (priority_of (multiProvider fb))
                 (map fst (providers (multiProvider fb))))
              (h ++ [EvGetBackupData sym])) as (r & e1 & Hr & Hn).
  rewrite Hr. destruct r as [d|]; [|unfold ret; discriminate].
  unfold now, ret. cbn. intros Hrun. inversion Hrun; subst. clear Hrun.
  cbn [ticker isValid dataQuality timestamp price24hPcnt ticker_volume24h
       backupProvider convertToStandardFormat].
  split; [reflexivity|]. split; [reflexivity|].
  split; [rewrite app_nil_r, <- app_assoc; reflexivity|].
  split; [apply or_zero_number|]. split; [apply or_zero_number|].
  intros Hp. rewrite (first_non_null_coinbase _ _ _ _ _ _ Hn Hp). reflexivity.
Qed.

End WithEnv.

Lemma backup_ticker_shape_witness :
  isValid (ticker Scenarios.coinbase_ticker) = true /\
  dataQuality (ticker Scenarios.coinbase_ticker) = "BACKUP_PROVIDER" /\
  timestamp (ticker Scenarios.coinbase_ticker)
  = Date_now Examples.two_providers
      ([] ++ [EvGetBackupData "BTCUSDT"; EvProvider "binance" "BTCUSDT";
              EvProvider "coinbase" "BTC-USD"]) /\
  JSNum.isNaN (price24hPcnt (ticker Scenarios.coinbase_ticker)) = false /\
  JSNum.isNaN (ticker_volume24h (ticker Scenarios.coinbase_ticker)) = false /\
  (backupProvider Scenarios.coinbase_ticker = "coinbase" ->
   price24hPcnt (ticker Scenarios.coinbase_ticker) = 0%float).
Proof.
  apply (backup_ticker_shape Examples.two_providers Examples.pool_all_active
           "BTCUSDT" [] Scenarios.coinbase_ticker
           [EvGetBackupData "BTCUSDT"; EvProvider "binance" "BTCUSDT";
            EvProvider "coinbase" "BTC-USD"]).
  vm_compute. reflexivity.
Defined.

Lemma failed_start_disables_pool_witness :
  exists fb',
    initialize Examples.offline new_UniversalDataFallback []
    = (Ok (fb', false), [binance_ping; coinbase_ping; coingecko_ping]) /\
    getBackupData Examples.offline fb' "BTCUSDT" []
    = (Ok None, [EvGetBackupData "BTCUSDT"]).
Proof.
  apply (failed_start_disables_pool Examples.offline [] [] "BTCUSDT").
  intros name. unfold probe_ok.
  destruct (String.eqb name "binance"); [reflexivity|].
  destruct (String.eqb name "coinbase"); [reflexivity|].
  destruct (String.eqb name "coingecko"); reflexivity.
Defined.

Lemma backup_data_provenance_witness :
  initialized Examples.pool_all_active = true /\
  std_symbol Scenarios.coinbase_ticker = "BTCUSDT" /\
  In (backupProvider Scenarios.coinbase_ticker) provider_names /\
  is_active (multiProvider Examples.pool_all_active)
            (backupProvider Scenarios.coinbase_ticker) = true /\
  exists mapping asked raw,
    JS.lookup "BTCUSDT" (universalSymbolMap (multiProvider Examples.pool_all_active))
    = Some mapping /\
    mapped mapping (backupProvider Scenarios.coinbase_ticker) = true /\
    [EvGetBackupData "BTCUSDT"; EvProvider "binance" "BTCUSDT";
     EvProvider "coinbase" "BTC-USD"]
    = EvGetBackupData "BTCUSDT"
      :: asked ++ [EvProvider (backupProvider Scenarios.coinbase_ticker)
                     (mapped_symbol mapping
                        (backupProvider Scenarios.coinbase_ticker))] /\
    axios_ticker Examples.two_providers (backupProvider Scenarios.coinbase_ticker)
      (mapped_symbol mapping (backupProvider Scenarios.coinbase_ticker))
      ([] ++ EvGetBackupData "BTCUSDT" :: asked) = Ok raw /\
    lastPrice (ticker Scenarios.coinbase_ticker) = price raw.
Proof.
  apply (backup_data_provenance Examples.two_providers Examples.pool_all_active
           "BTCUSDT" [] Scenarios.coinbase_ticker
           [EvGetBackupData "BTCUSDT"; EvProvider "binance" "BTCUSDT";
            EvProvider "coinbase" "BTC-USD"]).
  vm_compute. reflexivity.
Defined.

End PoolFacts.

(* ------------------------------------------------------------------ *)
(** ** More on the planner *)

Module PlannerMore.

Import SallyBrain EngineSpec.

(** X15. For every query the fallback plan asks the Bybit tickers of one of
    the three pairs, BTCUSDT when the query names no coin or names btc, and
    every market request of the plan is for that pair; it asks exactly one
    web search; it asks the live price exactly when the query mentions a
    price or a cost; and it asks indicators only together with the klines
    they are computed from. *)
Theorem fallback_plan_shape (query : string) :
  let lowerQuery := JS.toLowerCase query in
  exists sym rd search,
    requiredData (createFallbackPlan query) = Some rd /\
    In sym ["BTCUSDT"; "ETHUSDT"; "SOLUSDT"] /\
    (JS.includes lowerQuery "btc" = true
     \/ find (fun kv => JS.includes lowerQuery (fst kv)) symbolMap = None ->
     sym = "BTCUSDT") /\
    JS.lookup "tickers" (plan_entries rd)
    = Some (Some {| symbol := sym; extra := [] |}) /\
    Forall (fun entry => option_map symbol (snd entry) = Some sym)
           (plan_entries rd) /\
    webSearch rd = Some [search] /\
    livePrice rd
    = (JS.includes lowerQuery "price" || JS.includes lowerQuery "cost")%bool /\
    ((technicalIndicators rd = Some [] /\ JS.lookup "kline" (plan_entries rd) = None)
     \/ (technicalIndicators rd = Some ["SMA20"; "RSI14"; "MACD"] /\
         livePrice rd = false /\
         exists k, JS.lookup "kline" (plan_entries rd) = Some k)).
Proof.
  intros lowerQuery. unfold createFallbackPlan. fold lowerQuery. cbv zeta.
  set (found := find (fun kv => JS.includes lowerQuery (fst kv)) symbolMap).
  set (sym := match found with Some kv => snd kv | None => "BTCUSDT" end).
  assert (Hsym : In sym ["BTCUSDT"; "ETHUSDT"; "SOLUSDT"]).
  { unfold sym. destruct found as [kv|] eqn:Hf; [|left; reflexivity].
    apply find_some in Hf. destruct Hf as [Hin _].
    unfold symbolMap in Hin. cbn in Hin |- *.
    intuition (subst; cbn; auto). }
  assert (Hbtc : JS.includes lowerQuery "btc" = true \/ found = None -> sym = "BTCUSDT").
  { intros [Hb|Hn].
    - unfold sym, found, symbolMap. cbn [find fst]. rewrite Hb. reflexivity.
    - unfold sym. rewrite Hn. reflexivity. }
  exists sym.
  destruct (JS.includes lowerQuery "price" || JS.includes lowerQuery "cost")%bool;
    [|destruct (JS.includes lowerQuery "analysis"
                || JS.includes lowerQuery "technical")%bool];
    eexists; eexists; cbn [requiredData];
    (split; [reflexivity|]); (split; [exact Hsym|]); (split; [exact Hbtc|]);
    unfold plan_entries; cbn [bybit livePrice webSearch technicalIndicators JS.lookup];
    (split; [reflexivity|]);
    (split; [repeat constructor|]);
    (split; [reflexivity|]); (split; [reflexivity|]).
  - left. split; reflexivity.
  - right. split; [reflexivity|]. split; [reflexivity|]. eexists. reflexivity.
  - left. split; reflexivity.
Qed.

End PlannerMore.

(* ------------------------------------------------------------------ *)
(** ** More on the indicators *)

Module IndicatorMore.

Import TechnicalIndicators JSNum IndicatorSpec IndicatorWords IndicatorFacts.

(** [l.slice(-period)] is the last [period] elements. *)
Lemma slice_from_last {A} (l : list A) (period : Z) :
  1 <= period <= Z.of_nat (List.length l) ->
  JS.slice_from l (- period) = skipn (List.length l - Z.to_nat period) l.
Proof.
  intros Hp. unfold JS.slice_from, JS.slice, JS.rel_index.
  destruct (Z.ltb_spec (- period) 0); [|lia].
  destruct (Z.ltb_spec (Z.of_nat (List.length l)) 0); [lia|].
  rewrite Z.max_l, Z.min_id by lia.
  replace (Z.to_nat (Z.of_nat (List.length l) + - period))
    with (List.length l - Z.to_nat period)%nat by lia.
  apply firstn_all2. rewrite length_skipn. lia.
Qed.

Lemma last_values_length (values : list num) (period : Z) :
  1 <= period <= Z.of_nat (List.length values) ->
  List.length (last_values period values) = Z.to_nat period.
Proof. intros Hp. unfold last_values. rewrite length_skipn. lia. Qed.

Lemma last_values_again (values : list num) (period : Z) :
  1 <= period <= Z.of_nat (List.length values) ->
  last_values period (last_values period values) = last_values period values.
Proof.
  intros Hp. unfold last_values at 1.
  rewrite (last_values_length values period Hp), Nat.sub_diag. reflexivity.
Qed.

Lemma SMA_value (values : list num) (period : Z) :
  1 <= period <= Z.of_nat (List.length values) ->
  SMA values period
  = Number (div (fold_left add (last_values period values) 0%float)
                (of_Z period)).
Proof.
  intros Hp. unfold SMA, len.
  destruct (Z.ltb_spec (Z.of_nat (List.length values)) period); [lia|].
  rewrite slice_from_last by exact Hp. reflexivity.
Qed.

(** X16. SMA is [null] on fewer values than the period.  On a period
    between 1 and their number it is the sum of the last [period] values,
    added up in their order in double precision, divided by the period: it
    only depends on these values. *)
Theorem SMA_window (values : list num) (period : Z) :
  1 <= period ->
  (Z.of_nat (List.length values) < period -> SMA values period = Null) /\
  (period <= Z.of_nat (List.length values) ->
   SMA values period
   = Number (div (fold_left add (last_values period values) 0%float)
                 (of_Z period)) /\
   SMA (last_values period values) period = SMA values period).
Proof.
  intros Hp. split.
  - intros Hlen. unfold SMA, len.
    destruct (Z.ltb_spec (Z.of_nat (List.length values)) period); [reflexivity|lia].
  - intros Hlen. split; [apply SMA_value; lia|].
    rewrite !SMA_value; rewrite ?last_values_length; try lia.
    rewrite last_values_again by lia. reflexivity.
Qed.

Lemma window_last (closes : list num) (period : Z) :
  1 <= period -> period + 1 <= Z.of_nat (List.length closes) ->
  window (last_values (period + 1) closes) (Z.to_nat period)
  = window closes (Z.to_nat period).
Proof.
  intros Hp Hlen. unfold window, last_values.
  rewrite length_skipn.
  replace (Z.to_nat (period + 1)) with (Z.to_nat period + 1)%nat by lia.
  replace (List.length closes - (List.length closes - (Z.to_nat period + 1))
           - (Z.to_nat period + 1))%nat with 0%nat by lia.
  reflexivity.
Qed.

(** X18. For every period of at least 1 and at least [period + 1] closes,
    RSI only depends on the last [period + 1] closes.  When the changes of
    the window are numbers, it is 100 if the average loss is 0, and
    [100 - 100 / (1 + avgGain / avgLoss)] otherwise, in double precision,
    the averages being those of the gains and of the sizes of the losses
    of the window. *)
Theorem RSI_window (closes : list num) (period : Z) :
  1 <= period -> period + 1 <= Z.of_nat (List.length closes) ->
  RSI (last_values (period + 1) closes) period = RSI closes period /\
  (Forall (fun d => is_number d = true) (window closes (Z.to_nat period)) ->
   let avgGain := averageGain closes (Z.to_nat period) in
   let avgLoss := averageLoss closes (Z.to_nat period) in
   RSI closes period
   = if strict_eq avgLoss 0%float then Number 100%float
     else Number (sub 100%float
                      (div 100%float (add 1%float (div avgGain avgLoss))))).
Proof.
  intros Hp Hlen. split.
  - rewrite (RSI_fold closes period Hp Hlen).
    rewrite (RSI_fold (last_values (period + 1) closes) period Hp).
    + rewrite window_last by assumption. reflexivity.
    + unfold last_values. rewrite length_skipn. lia.
  - intros Hnum avgGain avgLoss.
    rewrite (RSI_fold closes period Hp Hlen). cbv zeta.
    rewrite (rsi_fold_totals _ _ _ Hnum unsigned_zero). cbn [fst snd].
    unfold avgGain, avgLoss, averageGain, averageLoss, total_gain, total_loss.
    rewrite Z2Nat.id by lia. reflexivity.
Qed.

Lemma read_weight (P k : nat) :
  (k < P)%nat ->
  read (map (fun i => of_Z (i + 1)) (map (fun k => 0 + Z.of_nat k) (seq 0 P)))
       (0 + Z.of_nat k)
  = of_Z (Z.of_nat k + 1).
Proof.
  intros Hk. unfold read, JS.get.
  destruct (Z.ltb_spec (0 + Z.of_nat k) 0); [lia|].
  replace (Z.to_nat (0 + Z.of_nat k)) with k by lia.
  rewrite map_map, nth_error_map, nth_error_seq.
  destruct (Nat.ltb_spec k P); [|lia]. reflexivity.
Qed.

Lemma wma_loop (P : nat) (w : list num) (o : nat) (s : num) :
  (o + List.length w <= P)%nat ->
  fold_left (fun sum vi =>
               add sum (mul (fst vi)
                            (read (map (fun i => of_Z (i + 1)%Z)
                                       (map (fun k => (0 + Z.of_nat k)%Z) (seq 0 P)))
                                  (snd vi))))
            (combine w (map (fun k => 0 + Z.of_nat k) (seq o (List.length w))))
            s
  = weighted_sum o w s.
Proof.
  revert o s. induction w as [|x w IH]; intros o s Ho; [reflexivity|].
  cbn [List.length seq map combine fold_left fst snd weighted_sum] in *.
  rewrite read_weight by lia. apply IH. lia.
Qed.

Lemma WMA_value (values : list num) (period : Z) :
  1 <= period <= Z.of_nat (List.length values) ->
  WMA values period
  = Number (div (weighted_sum 0 (last_values period values) 0%float)
                (weight_total (Z.to_nat period))).
Proof.
  intros Hp. unfold WMA, len.
  destruct (Z.ltb_spec (Z.of_nat (List.length values)) period); [lia|].
  rewrite slice_from_last by exact Hp. fold (last_values period values).
  set (w := last_values period values).
  assert (Hlen : List.length w = Z.to_nat period)
    by (apply last_values_length; exact Hp).
  unfold JS.indices, JS.range. rewrite Hlen.
  replace (Z.to_nat (period - 0)) with (Z.to_nat period) by lia.
  replace (Z.to_nat (Z.of_nat (Z.to_nat period) - 0)) with (Z.to_nat period) by lia.
  set (P := Z.to_nat period) in *.
  pose proof (wma_loop P w 0 0%float ltac:(lia)) as Hloop.
  rewrite Hlen in Hloop. rewrite Hloop.
  unfold sum, weight_total. rewrite map_map. reflexivity.
Qed.

(** X19. WMA is [null] on fewer values than the period.  On a period
    between 1 and their number it is the sum of the last [period] values
    weighted by 1, 2, ..., [period], the latest value weighing most,
    divided by the sum of the weights, in double precision: it only depends
    on these values. *)
Theorem WMA_window (values : list num) (period : Z) :
  1 <= period ->
  (Z.of_nat (List.length values) < period -> WMA values period = Null) /\
  (period <= Z.of_nat (List.length values) ->
   WMA values period
   = Number (div (weighted_sum 0 (last_values period values) 0%float)
                 (weight_total (Z.to_nat period))) /\
   WMA (last_values period values) period = WMA values period).
Proof.
  intros Hp. split.
  - intros Hlen. unfold WMA, len.
    destruct (Z.ltb_spec (Z.of_nat (List.length values)) period); [reflexivity|lia].
  - intros Hlen. split; [apply WMA_value; lia|].
    rewrite !WMA_value; rewrite ?last_values_length; try lia.
    rewrite last_values_again by lia. reflexivity.
Qed.

(** The array a turn of the VWAP loop builds extends the one it is given,
    by entries that do not depend on it. *)
Lemma vwap_fold_snd (parseFloat : string -> num) (l : list (list string))
      (a b : num) (arr : list num) :
  fold_left (vwap_step parseFloat) l (a, b, arr)
  = (fst (fold_left (vwap_step parseFloat) l (a, b, [])),
     arr ++ snd (fold_left (vwap_step parseFloat) l (a, b, []))).
Proof.
  revert a b arr. induction l as [|c l IH]; intros a b arr.
  - cbn. rewrite app_nil_r. reflexivity.
  - cbn [fold_left]. unfold vwap_step at 2 4 6. cbn [app].
    rewrite (IH _ _ (arr ++ _)), (IH _ _ [_]). cbn [fst snd].
    rewrite <- app_assoc. reflexivity.
Qed.

Lemma vwap_fold_length (parseFloat : string -> num) (l : list (list string))
      (a b : num) :
  List.length (snd (fold_left (vwap_step parseFloat) l (a, b, [])))
  = List.length l.
Proof.
  revert a b. induction l as [|c l IH]; intros a b; [reflexivity|].
  cbn [fold_left]. unfold vwap_step at 2. cbn [app].
  rewrite vwap_fold_snd. cbn [snd]. rewrite length_app, IH. reflexivity.
Qed.

Lemma vwap_fold_app (parseFloat : string -> num) (l1 l2 : list (list string))
      (a b : num) :
  exists ext,
    snd (fold_left (vwap_step parseFloat) (l1 ++ l2) (a, b, []))
    = snd (fold_left (vwap_step parseFloat) l1 (a, b, [])) ++ ext.
Proof.
  rewrite fold_left_app.
  destruct (fold_left (vwap_step parseFloat) l1 (a, b, [])) as [[a' b'] arr].
  rewrite vwap_fold_snd. cbn [snd]. eexists. reflexivity.
Qed.

(** X20. VWAP returns one entry per candle, and it is a running value: the
    entries of the first [k] candles are those VWAP returns on these
    candles alone, whatever follows them. *)
Theorem VWAP_running (parseFloat : string -> num) (ohlcv : list (list string))
        (k : nat) :
  List.length (VWAP parseFloat ohlcv) = List.length ohlcv /\
  VWAP parseFloat (firstn k ohlcv) = firstn k (VWAP parseFloat ohlcv).
Proof.
  unfold VWAP. split; [apply vwap_fold_length|].
  destruct (Nat.le_gt_cases (List.length ohlcv) k) as [Hk|Hk].
  - rewrite (firstn_all2 ohlcv) by exact Hk.
    rewrite firstn_all2; [reflexivity|].
    rewrite vwap_fold_length. exact Hk.
  - destruct (vwap_fold_app parseFloat (firstn k ohlcv) (skipn k ohlcv)
                            0%float 0%float) as (ext & He).
    rewrite firstn_skipn in He.
    etransitivity; [|apply f_equal; symmetry; exact He].
    match goal with |- _ = firstn k (?a ++ _) => set (arr := a) end.
    assert (Harr : List.length arr = k).
    { unfold arr. rewrite vwap_fold_length, length_firstn. lia. }
    rewrite firstn_app, (firstn_all2 arr) by lia.
    rewrite Harr, Nat.sub_diag. cbn [firstn]. rewrite app_nil_r. reflexivity.
Qed.

Lemma SMA_window_witness :
  (Z.of_nat (List.length Examples.rising_closes) < 3 ->
   SMA Examples.rising_closes 3 = Null) /\
  (3 <= Z.of_nat (List.length Examples.rising_closes) ->
   SMA Examples.rising_closes 3
   = Number (div (fold_left add (last_values 3 Examples.rising_closes) 0%float)
                 (of_Z 3)) /\
   SMA (last_values 3 Examples.rising_closes) 3 = SMA Examples.rising_closes 3).
Proof. apply (SMA_window Examples.rising_closes 3). lia. Defined.

Lemma RSI_window_witness :
  RSI (last_values (3 + 1) Examples.rising_closes) 3
  = RSI Examples.rising_closes 3 /\
  RSI Examples.rising_closes 3 = Number 100%float.
Proof.
  destruct (RSI_window Examples.rising_closes 3) as [Hw Hv].
  - lia.
  - cbn. lia.
  - split; [exact Hw|]. rewrite Hv; [reflexivity|].
    vm_compute. repeat constructor.
Defined.

Lemma WMA_window_witness :
  (Z.of_nat (List.length Examples.rising_closes) < 3 ->
   WMA Examples.rising_closes 3 = Null) /\
  (3 <= Z.of_nat (List.length Examples.rising_closes) ->
   WMA Examples.rising_closes 3
   = Number (div (weighted_sum 0 (last_values 3 Examples.rising_closes) 0%float)
                 (weight_total (Z.to_nat 3))) /\
   WMA (last_values 3 Examples.rising_closes) 3 = WMA Examples.rising_closes 3).
Proof. apply (WMA_window Examples.rising_closes 3). lia. Defined.

(** The mean of three times 0.1, in the doubles of the code, is not 0.1. *)
Example SMA_of_three_tenths :
  SMA [tenth; tenth; tenth] 3 = Number 0x1.999999999999bp-4%float /\
  strict_eq 0x1.999999999999bp-4%float tenth = false.
Proof. split; vm_compute; reflexivity. Qed.

(** The values of the windows above: the mean of 13, 14, 15 and their
    weighted mean (13 + 2 * 14 + 3 * 15) / 6. *)
Example SMA_of_the_last_three :
  SMA Examples.rising_closes 3 = Number 14%float.
Proof. vm_compute. reflexivity. Qed.

Example WMA_of_the_last_three :
  WMA Examples.rising_closes 3 = Number (div 86%float 6%float).
Proof. vm_compute. reflexivity. Qed.

End IndicatorMore.
